(** * RoboVac: capability resolution, state interpretation, command encoding

    A shallow embedding of [custom_components/robovac/vacuum.py]: the
    [RoboVacEntity] class (its constructor, the [state] and
    [extra_state_attributes] properties, [async_update] and the command
    methods), the [ERROR_MESSAGES] table and the [TUYA_CODES] enumeration.

    Python objects are mutated in place and methods may raise, so methods
    are computations in a state-and-exception monad over the entity and the
    log of writes handed to the device transport. *)

From Stdlib Require Import ZArith String Ascii List Bool Lia DecimalString.
From stdpp Require Import base option gmap strings list fin_maps.

Set Warnings "-register-all".

Local Open Scope Z_scope.
Local Open Scope string_scope.

(** ** Raw data-point values *)

(** A data point carries [None] (code not reported), a boolean, an integer
    or a string. *)
Inductive raw : Type :=
  | RNone
  | RBool (b : bool)
  | RInt (n : Z)
  | RStr (s : string).

Definition b2z (b : bool) : Z := if b then 1 else 0.

(** Python's [==] on these values: [bool] is a subclass of [int], so
    [False == 0] and [True == 1]; values of unrelated classes are unequal. *)
Definition py_eq (x y : raw) : bool :=
  match x, y with
  | RNone, RNone => true
  | RBool a, RBool b => Bool.eqb a b
  | RBool a, RInt n => Z.eqb (b2z a) n
  | RInt n, RBool b => Z.eqb n (b2z b)
  | RInt n, RInt m => Z.eqb n m
  | RStr s, RStr t => String.eqb s t
  | _, _ => false
  end.

(** [x in l] for a list literal [l]. *)
Definition py_in (x : raw) (l : list raw) : bool := existsb (py_eq x) l.

(** Truth value of a data point, as tested by [if x:]. *)
Definition truthy (x : raw) : bool :=
  match x with
  | RNone => false
  | RBool b => b
  | RInt n => negb (Z.eqb n 0)
  | RStr s => negb (String.eqb s EmptyString)
  end.

Definition is_None (x : raw) : bool :=
  match x with RNone => true | _ => false end.

(** [type(x) is not None]: the class of a value is a class object and the
    class object is never the [None] object, whatever [x] is. *)
Definition type_is_not_None (x : raw) : bool := true.

(** ** Constants *)

(** Values of the lifecycle constants of [homeassistant.components.vacuum]. *)
Definition STATE_CLEANING : string := "cleaning".
Definition STATE_DOCKED : string := "docked".
Definition STATE_ERROR : string := "error".
Definition STATE_IDLE : string := "idle".
Definition STATE_RETURNING : string := "returning".

Module RoboVacEntityFeature.
Definition EDGE : Z := 1.
Definition SMALL_ROOM : Z := 2.
Definition CLEANING_TIME : Z := 4.
Definition CLEANING_AREA : Z := 8.
Definition DO_NOT_DISTURB : Z := 16.
Definition AUTO_RETURN : Z := 32.
Definition CONSUMABLES : Z := 64.
Definition ROOM : Z := 128.
Definition ZONE : Z := 256.
Definition MAP : Z := 512.
Definition BOOST_IQ : Z := 1024.
End RoboVacEntityFeature.

(** Flag values of [homeassistant.components.vacuum.VacuumEntityFeature]. *)
Module VacuumEntityFeature.
Definition TURN_ON : Z := 1.
Definition TURN_OFF : Z := 2.
Definition PAUSE : Z := 4.
Definition STOP : Z := 8.
Definition RETURN_HOME : Z := 16.
Definition FAN_SPEED : Z := 32.
Definition BATTERY : Z := 64.
Definition STATUS : Z := 128.
Definition SEND_COMMAND : Z := 256.
Definition LOCATE : Z := 512.
Definition CLEAN_SPOT : Z := 1024.
Definition MAP : Z := 2048.
Definition STATE : Z := 4096.
Definition START : Z := 8192.
End VacuumEntityFeature.

Definition ATTR_BATTERY_LEVEL : string := "battery_level".
Definition ATTR_BATTERY_ICON : string := "battery_icon".
Definition ATTR_ERROR : string := "error".
Definition ATTR_FAN_SPEED : string := "fan_speed".
Definition ATTR_STATUS : string := "status".
Definition ATTR_CLEANING_AREA : string := "cleaning_area".
Definition ATTR_CLEANING_TIME : string := "cleaning_time".
Definition ATTR_AUTO_RETURN : string := "auto_return".
Definition ATTR_DO_NOT_DISTURB : string := "do_not_disturb".
Definition ATTR_BOOST_IQ : string := "boost_iq".
Definition ATTR_CONSUMABLES : string := "consumables".
Definition ATTR_MODE : string := "mode".

(** The table is a dictionary with integer and string keys; its keys are
    pairwise unequal, so it is kept as the list of its items. *)
Definition ERROR_MESSAGES : list (raw * string) :=
  [ (RStr "IP_ADDRESS", "IP Address not set");
    (RInt 1, "Error: Front bumper stuck");
    (RInt 2, "Error: Wheel stuck");
    (RInt 3, "Error: Side brush");
    (RInt 4, "Error: Rolling brush bar stuck");
    (RInt 5, "Error: Device trapped");
    (RInt 6, "Error: Device trapped");
    (RInt 7, "Error: Wheel suspended");
    (RInt 8, "Error: Low battery");
    (RInt 9, "Error: Magnetic boundary");
    (RInt 12, "Error: Right wall sensor");
    (RInt 13, "Error: Device tilted");
    (RInt 14, "Error: Insert dust collector");
    (RInt 17, "Error: Restricted area detected");
    (RInt 18, "Error: Laser cover stuck");
    (RInt 19, "Error: Laser sesor stuck");
    (RInt 20, "Error: Laser sensor blocked");
    (RInt 21, "Error: Base blocked");
    (RStr "S1", "Error: Battery");
    (RStr "S2", "Error: Wheel Module");
    (RStr "S3", "Error: Side Brush");
    (RStr "S4", "Error: Suction Fan");
    (RStr "S5", "Error: Rolling Brush");
    (RStr "S8", "Error: Path Tracking Sensor");
    (RStr "Wheel_stuck", "Error: Wheel stuck");
    (RStr "R_brush_stuck", "Error: Rolling brush stuck");
    (RStr "Crash_bar_stuck", "Error: Front bumper stuck");
    (RStr "sensor_dirty", "Error: Sensor dirty");
    (RStr "N_enough_pow", "Error: Low battery");
    (RStr "Stuck_5_min", "Error: Device trapped");
    (RStr "Fan_stuck", "Error: Fan stuck");
    (RStr "S_brush_stuck", "Error: Side brush stuck") ].

Module TUYA_CODES.
Definition BATTERY_LEVEL : string := "104".
Definition STATE : string := "15".
Definition ERROR_CODE : string := "106".
Definition MODE : string := "5".
Definition FAN_SPEED : string := "102".
Definition CLEANING_AREA : string := "110".
Definition CLEANING_TIME : string := "109".
Definition AUTO_RETURN : string := "135".
Definition DO_NOT_DISTURB : string := "107".
Definition BOOST_IQ : string := "118".
Definition G_CONSUMABLES : string := "142".
Definition X_CONSUMABLES : string := "116".
End TUYA_CODES.

(** [d.get(key)] on a dictionary of data points: [None] when the key is
    missing. *)
Definition dict_get (d : gmap string raw) (key : string) : raw :=
  default RNone (d !! key).

(** [d.get(key, dflt)] on a dictionary given by its items. *)
Fixpoint items_get {V : Type} (d : list (raw * V)) (key : raw) : option V :=
  match d with
  | [] => None
  | (k, v) :: rest => if py_eq key k then Some v else items_get rest key
  end.

(** ** Exceptions and fallible results *)

Inductive exn : Type :=
  | TypeError
  | ValueError
  | KeyError
  | AttributeError
  | SyntaxError
  | MemoryError
  | RecursionError
  | UnicodeDecodeError
  | binascii_Error
  | NameError.

Inductive result (A : Type) : Type :=
  | Ok (a : A)
  | Raise (e : exn).
Arguments Ok {A} a.
Arguments Raise {A} e.

#[global] Instance result_ret : MRet result := fun A a => Ok a.
#[global] Instance result_bind : MBind result := fun A B f r =>
  match r with
  | Ok a => f a
  | Raise e => Raise e
  end.

(** ** Literal objects *)

(** What [ast.literal_eval] can build, as far as subscripting by a string
    tells the classes apart: [OOther] stands for a literal of any other
    class (float, complex, bytes, tuple, set), kept by its text. A
    dictionary is the list of its items. *)
Inductive pyobj : Type :=
  | ONone
  | OBool (b : bool)
  | OInt (n : Z)
  | OStr (s : string)
  | OList (l : list pyobj)
  | ODict (items : list (pyobj * pyobj))
  | OOther (text : string).

Definition of_raw (x : raw) : pyobj :=
  match x with
  | RNone => ONone
  | RBool b => OBool b
  | RInt n => OInt n
  | RStr s => OStr s
  end.

(** A key equals the string [s] only if it is that string. *)
Definition key_is (s : string) (k : pyobj) : bool :=
  match k with OStr t => String.eqb s t | _ => false end.

Fixpoint dict_lookup (items : list (pyobj * pyobj)) (s : string) : option pyobj :=
  match items with
  | [] => None
  | (k, v) :: rest => if key_is s k then Some v else dict_lookup rest s
  end.

(** [o[s]] for a string [s]: a dictionary is looked up and a missing key
    raises [KeyError]; lists and strings take integer indices only and the
    other classes are not subscriptable, all of which raise [TypeError]. *)
Definition getitem (o : pyobj) (s : string) : result pyobj :=
  match o with
  | ODict items =>
      match dict_lookup items s with
      | Some v => Ok v
      | None => Raise KeyError
      end
  | _ => Raise TypeError
  end.

(** ** Transport-safe text: base64 and ASCII *)

Definition is_ascii (c : ascii) : bool := (N_of_ascii c <? 128)%N.

(** Value of a character of the base64 alphabet ([table_a2b_base64]). *)
Definition b64_value (c : ascii) : option N :=
  let n := N_of_ascii c in
  if ((65 <=? n) && (n <=? 90))%N then Some (n - 65)%N
  else if ((97 <=? n) && (n <=? 122))%N then Some (n - 71)%N
  else if ((48 <=? n) && (n <=? 57))%N then Some (n + 4)%N
  else if (n =? 43)%N then Some 62%N
  else if (n =? 47)%N then Some 63%N
  else None.

Definition byte_of (n : N) : ascii := ascii_of_N (n mod 256)%N.

(** [binascii.a2b_base64] in its default, non-strict mode: characters
    outside the alphabet are skipped, a complete pad sequence ends the
    input, and leftover characters of an unfinished quad raise
    [binascii.Error]. [out] is the output so far, last byte first. *)
Fixpoint a2b_base64_loop (input : list ascii) (quad_pos : nat) (leftchar : N)
    (pads : nat) (out : list ascii) : result (list ascii) :=
  match input with
  | [] =>
      match quad_pos with
      | O => Ok (rev out)
      | _ => Raise binascii_Error
      end
  | this_ch :: rest =>
      if Ascii.eqb this_ch "="%char then
        if (2 <=? quad_pos)%nat then
          if (4 <=? quad_pos + S pads)%nat then Ok (rev out)
          else a2b_base64_loop rest quad_pos leftchar (S pads) out
        else a2b_base64_loop rest quad_pos leftchar pads out
      else
        match b64_value this_ch with
        | None => a2b_base64_loop rest quad_pos leftchar pads out
        | Some v =>
            match quad_pos with
            | 0%nat => a2b_base64_loop rest 1 v 0 out
            | 1%nat =>
                a2b_base64_loop rest 2 (N.land v 15) 0
                  (byte_of (N.lor (N.shiftl leftchar 2) (N.shiftr v 4)) :: out)
            | 2%nat =>
                a2b_base64_loop rest 3 (N.land v 3) 0
                  (byte_of (N.lor (N.shiftl leftchar 4) (N.shiftr v 2)) :: out)
            | _ =>
                a2b_base64_loop rest 0 0 0
                  (byte_of (N.lor (N.shiftl leftchar 6) v) :: out)
            end
        end
  end.

Definition a2b_base64 (data : list ascii) : result (list ascii) :=
  a2b_base64_loop data 0 0 0 [].

(** [base64.b64decode(s)]: a string must be pure ASCII ([ValueError]
    otherwise); [None], booleans and integers are not bytes-like
    ([TypeError]). *)
Definition b64decode (s : raw) : result (list ascii) :=
  match s with
  | RStr t =>
      let data := list_ascii_of_string t in
      if forallb is_ascii data then a2b_base64 data else Raise ValueError
  | _ => Raise TypeError
  end.

(** [b.decode("ascii")] *)
Definition decode_ascii (b : list ascii) : result string :=
  if forallb is_ascii b then Ok (string_of_list_ascii b)
  else Raise UnicodeDecodeError.

(** Character of the base64 alphabet for a six-bit value. *)
Definition b64_char (v : N) : ascii :=
  if (v <? 26)%N then ascii_of_N (v + 65)
  else if (v <? 52)%N then ascii_of_N (v + 71)
  else if (v <? 62)%N then ascii_of_N (v - 4)
  else if (v =? 62)%N then "+"%char
  else "/"%char.

(** [base64.b64encode] *)
Fixpoint b64encode (data : list ascii) : list ascii :=
  match data with
  | [] => []
  | [a] =>
      let x := N_of_ascii a in
      [b64_char (N.shiftr x 2); b64_char (N.shiftl (N.land x 3) 4);
       "="%char; "="%char]
  | [a; b] =>
      let x := N_of_ascii a in
      let y := N_of_ascii b in
      [b64_char (N.shiftr x 2);
       b64_char (N.lor (N.shiftl (N.land x 3) 4) (N.shiftr y 4));
       b64_char (N.shiftl (N.land y 15) 2); "="%char]
  | a :: b :: c :: rest =>
      let x := N_of_ascii a in
      let y := N_of_ascii b in
      let z := N_of_ascii c in
      b64_char (N.shiftr x 2)
      :: b64_char (N.lor (N.shiftl (N.land x 3) 4) (N.shiftr y 4))
      :: b64_char (N.lor (N.shiftl (N.land y 15) 2) (N.shiftr z 6))
      :: b64_char (N.land z 63)
      :: b64encode rest
  end.

(** ** The entity *)

(** One configured vacuum, as stored by the configuration flow. *)
Record Item : Type := {
  CONF_NAME : string;
  CONF_ID : string;
  CONF_MODEL : string;
  CONF_IP_ADDRESS : string;
  CONF_ACCESS_TOKEN : string;
  CONF_DESCRIPTION : string;
  CONF_MAC : string
}.

(** The attributes of a [RoboVacEntity] object. [_attr_fan_speed] is
    declared by the host's vacuum base class with the default [None];
    [tuyastatus] is [None] until the first poll. *)
Record RoboVacEntity : Type := {
  _attr_name : string;
  _attr_unique_id : string;
  _attr_model_code : string;
  _attr_ip_address : string;
  _attr_access_token : string;
  _attr_supported_features : Z;
  _attr_robovac_supported : Z;
  _attr_fan_speed_list : list string;
  _attr_battery_level : raw;
  _attr_fan_speed : raw;
  _attr_mode : raw;
  _attr_cleaning_area : raw;
  _attr_cleaning_time : raw;
  _attr_auto_return : raw;
  _attr_do_not_disturb : raw;
  _attr_boost_iq : raw;
  _attr_consumables : pyobj;
  error_code : raw;
  tuya_state : raw;
  tuyastatus : option (gmap string raw)
}.

(** Assignments [self.<attribute> = v]. *)
Definition set_attr_battery_level (v : raw) (self : RoboVacEntity) : RoboVacEntity :=
  {| _attr_name := _attr_name self;
     _attr_unique_id := _attr_unique_id self;
     _attr_model_code := _attr_model_code self;
     _attr_ip_address := _attr_ip_address self;
     _attr_access_token := _attr_access_token self;
     _attr_supported_features := _attr_supported_features self;
     _attr_robovac_supported := _attr_robovac_supported self;
     _attr_fan_speed_list := _attr_fan_speed_list self;
     _attr_battery_level := v;
     _attr_fan_speed := _attr_fan_speed self;
     _attr_mode := _attr_mode self;
     _attr_cleaning_area := _attr_cleaning_area self;
     _attr_cleaning_time := _attr_cleaning_time self;
     _attr_auto_return := _attr_auto_return self;
     _attr_do_not_disturb := _attr_do_not_disturb self;
     _attr_boost_iq := _attr_boost_iq self;
     _attr_consumables := _attr_consumables self;
     error_code := error_code self;
     tuya_state := tuya_state self;
     tuyastatus := tuyastatus self |}.

Definition set_attr_fan_speed (v : raw) (self : RoboVacEntity) : RoboVacEntity :=
  {| _attr_name := _attr_name self;
     _attr_unique_id := _attr_unique_id self;
     _attr_model_code := _attr_model_code self;
     _attr_ip_address := _attr_ip_address self;
     _attr_access_token := _attr_access_token self;
     _attr_supported_features := _attr_supported_features self;
     _attr_robovac_supported := _attr_robovac_supported self;
     _attr_fan_speed_list := _attr_fan_speed_list self;
     _attr_battery_level := _attr_battery_level self;
     _attr_fan_speed := v;
     _attr_mode := _attr_mode self;
     _attr_cleaning_area := _attr_cleaning_area self;
     _attr_cleaning_time := _attr_cleaning_time self;
     _attr_auto_return := _attr_auto_return self;
     _attr_do_not_disturb := _attr_do_not_disturb self;
     _attr_boost_iq := _attr_boost_iq self;
     _attr_consumables := _attr_consumables self;
     error_code := error_code self;
     tuya_state := tuya_state self;
     tuyastatus := tuyastatus self |}.

Definition set_attr_mode (v : raw) (self : RoboVacEntity) : RoboVacEntity :=
  {| _attr_name := _attr_name self;
     _attr_unique_id := _attr_unique_id self;
     _attr_model_code := _attr_model_code self;
     _attr_ip_address := _attr_ip_address self;
     _attr_access_token := _attr_access_token self;
     _attr_supported_features := _attr_supported_features self;
     _attr_robovac_supported := _attr_robovac_supported self;
     _attr_fan_speed_list := _attr_fan_speed_list self;
     _attr_battery_level := _attr_battery_level self;
     _attr_fan_speed := _attr_fan_speed self;
     _attr_mode := v;
     _attr_cleaning_area := _attr_cleaning_area self;
     _attr_cleaning_time := _attr_cleaning_time self;
     _attr_auto_return := _attr_auto_return self;
     _attr_do_not_disturb := _attr_do_not_disturb self;
     _attr_boost_iq := _attr_boost_iq self;
     _attr_consumables := _attr_consumables self;
     error_code := error_code self;
     tuya_state := tuya_state self;
     tuyastatus := tuyastatus self |}.

Definition set_attr_cleaning_area (v : raw) (self : RoboVacEntity) : RoboVacEntity :=
  {| _attr_name := _attr_name self;
     _attr_unique_id := _attr_unique_id self;
     _attr_model_code := _attr_model_code self;
     _attr_ip_address := _attr_ip_address self;
     _attr_access_token := _attr_access_token self;
     _attr_supported_features := _attr_supported_features self;
     _attr_robovac_supported := _attr_robovac_supported self;
     _attr_fan_speed_list := _attr_fan_speed_list self;
     _attr_battery_level := _attr_battery_level self;
     _attr_fan_speed := _attr_fan_speed self;
     _attr_mode := _attr_mode self;
     _attr_cleaning_area := v;
     _attr_cleaning_time := _attr_cleaning_time self;
     _attr_auto_return := _attr_auto_return self;
     _attr_do_not_disturb := _attr_do_not_disturb self;
     _attr_boost_iq := _attr_boost_iq self;
     _attr_consumables := _attr_consumables self;
     error_code := error_code self;
     tuya_state := tuya_state self;
     tuyastatus := tuyastatus self |}.

Definition set_attr_cleaning_time (v : raw) (self : RoboVacEntity) : RoboVacEntity :=
  {| _attr_name := _attr_name self;
     _attr_unique_id := _attr_unique_id self;
     _attr_model_code := _attr_model_code self;
     _attr_ip_address := _attr_ip_address self;
     _attr_access_token := _attr_access_token self;
     _attr_supported_features := _attr_supported_features self;
     _attr_robovac_supported := _attr_robovac_supported self;
     _attr_fan_speed_list := _attr_fan_speed_list self;
     _attr_battery_level := _attr_battery_level self;
     _attr_fan_speed := _attr_fan_speed self;
     _attr_mode := _attr_mode self;
     _attr_cleaning_area := _attr_cleaning_area self;
     _attr_cleaning_time := v;
     _attr_auto_return := _attr_auto_return self;
     _attr_do_not_disturb := _attr_do_not_disturb self;
     _attr_boost_iq := _attr_boost_iq self;
     _attr_consumables := _attr_consumables self;
     error_code := error_code self;
     tuya_state := tuya_state self;
     tuyastatus := tuyastatus self |}.

Definition set_attr_auto_return (v : raw) (self : RoboVacEntity) : RoboVacEntity :=
  {| _attr_name := _attr_name self;
     _attr_unique_id := _attr_unique_id self;
     _attr_model_code := _attr_model_code self;
     _attr_ip_address := _attr_ip_address self;
     _attr_access_token := _attr_access_token self;
     _attr_supported_features := _attr_supported_features self;
     _attr_robovac_supported := _attr_robovac_supported self;
     _attr_fan_speed_list := _attr_fan_speed_list self;
     _attr_battery_level := _attr_battery_level self;
     _attr_fan_speed := _attr_fan_speed self;
     _attr_mode := _attr_mode self;
     _attr_cleaning_area := _attr_cleaning_area self;
     _attr_cleaning_time := _attr_cleaning_time self;
     _attr_auto_return := v;
     _attr_do_not_disturb := _attr_do_not_disturb self;
     _attr_boost_iq := _attr_boost_iq self;
     _attr_consumables := _attr_consumables self;
     error_code := error_code self;
     tuya_state := tuya_state self;
     tuyastatus := tuyastatus self |}.

Definition set_attr_do_not_disturb (v : raw) (self : RoboVacEntity) : RoboVacEntity :=
  {| _attr_name := _attr_name self;
     _attr_unique_id := _attr_unique_id self;
     _attr_model_code := _attr_model_code self;
     _attr_ip_address := _attr_ip_address self;
     _attr_access_token := _attr_access_token self;
     _attr_supported_features := _attr_supported_features self;
     _attr_robovac_supported := _attr_robovac_supported self;
     _attr_fan_speed_list := _attr_fan_speed_list self;
     _attr_battery_level := _attr_battery_level self;
     _attr_fan_speed := _attr_fan_speed self;
     _attr_mode := _attr_mode self;
     _attr_cleaning_area := _attr_cleaning_area self;
     _attr_cleaning_time := _attr_cleaning_time self;
     _attr_auto_return := _attr_auto_return self;
     _attr_do_not_disturb := v;
     _attr_boost_iq := _attr_boost_iq self;
     _attr_consumables := _attr_consumables self;
     error_code := error_code self;
     tuya_state := tuya_state self;
     tuyastatus := tuyastatus self |}.

Definition set_attr_boost_iq (v : raw) (self : RoboVacEntity) : RoboVacEntity :=
  {| _attr_name := _attr_name self;
     _attr_unique_id := _attr_unique_id self;
     _attr_model_code := _attr_model_code self;
     _attr_ip_address := _attr_ip_address self;
     _attr_access_token := _attr_access_token self;
     _attr_supported_features := _attr_supported_features self;
     _attr_robovac_supported := _attr_robovac_supported self;
     _attr_fan_speed_list := _attr_fan_speed_list self;
     _attr_battery_level := _attr_battery_level self;
     _attr_fan_speed := _attr_fan_speed self;
     _attr_mode := _attr_mode self;
     _attr_cleaning_area := _attr_cleaning_area self;
     _attr_cleaning_time := _attr_cleaning_time self;
     _attr_auto_return := _attr_auto_return self;
     _attr_do_not_disturb := _attr_do_not_disturb self;
     _attr_boost_iq := v;
     _attr_consumables := _attr_consumables self;
     error_code := error_code self;
     tuya_state := tuya_state self;
     tuyastatus := tuyastatus self |}.

Definition set_attr_consumables (v : pyobj) (self : RoboVacEntity) : RoboVacEntity :=
  {| _attr_name := _attr_name self;
     _attr_unique_id := _attr_unique_id self;
     _attr_model_code := _attr_model_code self;
     _attr_ip_address := _attr_ip_address self;
     _attr_access_token := _attr_access_token self;
     _attr_supported_features := _attr_supported_features self;
     _attr_robovac_supported := _attr_robovac_supported self;
     _attr_fan_speed_list := _attr_fan_speed_list self;
     _attr_battery_level := _attr_battery_level self;
     _attr_fan_speed := _attr_fan_speed self;
     _attr_mode := _attr_mode self;
     _attr_cleaning_area := _attr_cleaning_area self;
     _attr_cleaning_time := _attr_cleaning_time self;
     _attr_auto_return := _attr_auto_return self;
     _attr_do_not_disturb := _attr_do_not_disturb self;
     _attr_boost_iq := _attr_boost_iq self;
     _attr_consumables := v;
     error_code := error_code self;
     tuya_state := tuya_state self;
     tuyastatus := tuyastatus self |}.

Definition set_error_code (v : raw) (self : RoboVacEntity) : RoboVacEntity :=
  {| _attr_name := _attr_name self;
     _attr_unique_id := _attr_unique_id self;
     _attr_model_code := _attr_model_code self;
     _attr_ip_address := _attr_ip_address self;
     _attr_access_token := _attr_access_token self;
     _attr_supported_features := _attr_supported_features self;
     _attr_robovac_supported := _attr_robovac_supported self;
     _attr_fan_speed_list := _attr_fan_speed_list self;
     _attr_battery_level := _attr_battery_level self;
     _attr_fan_speed := _attr_fan_speed self;
     _attr_mode := _attr_mode self;
     _attr_cleaning_area := _attr_cleaning_area self;
     _attr_cleaning_time := _attr_cleaning_time self;
     _attr_auto_return := _attr_auto_return self;
     _attr_do_not_disturb := _attr_do_not_disturb self;
     _attr_boost_iq := _attr_boost_iq self;
     _attr_consumables := _attr_consumables self;
     error_code := v;
     tuya_state := tuya_state self;
     tuyastatus := tuyastatus self |}.

Definition set_tuya_state (v : raw) (self : RoboVacEntity) : RoboVacEntity :=
  {| _attr_name := _attr_name self;
     _attr_unique_id := _attr_unique_id self;
     _attr_model_code := _attr_model_code self;
     _attr_ip_address := _attr_ip_address self;
     _attr_access_token := _attr_access_token self;
     _attr_supported_features := _attr_supported_features self;
     _attr_robovac_supported := _attr_robovac_supported self;
     _attr_fan_speed_list := _attr_fan_speed_list self;
     _attr_battery_level := _attr_battery_level self;
     _attr_fan_speed := _attr_fan_speed self;
     _attr_mode := _attr_mode self;
     _attr_cleaning_area := _attr_cleaning_area self;
     _attr_cleaning_time := _attr_cleaning_time self;
     _attr_auto_return := _attr_auto_return self;
     _attr_do_not_disturb := _attr_do_not_disturb self;
     _attr_boost_iq := _attr_boost_iq self;
     _attr_consumables := _attr_consumables self;
     error_code := error_code self;
     tuya_state := v;
     tuyastatus := tuyastatus self |}.

Definition set_tuyastatus (v : option (gmap string raw)) (self : RoboVacEntity) : RoboVacEntity :=
  {| _attr_name := _attr_name self;
     _attr_unique_id := _attr_unique_id self;
     _attr_model_code := _attr_model_code self;
     _attr_ip_address := _attr_ip_address self;
     _attr_access_token := _attr_access_token self;
     _attr_supported_features := _attr_supported_features self;
     _attr_robovac_supported := _attr_robovac_supported self;
     _attr_fan_speed_list := _attr_fan_speed_list self;
     _attr_battery_level := _attr_battery_level self;
     _attr_fan_speed := _attr_fan_speed self;
     _attr_mode := _attr_mode self;
     _attr_cleaning_area := _attr_cleaning_area self;
     _attr_cleaning_time := _attr_cleaning_time self;
     _attr_auto_return := _attr_auto_return self;
     _attr_do_not_disturb := _attr_do_not_disturb self;
     _attr_boost_iq := _attr_boost_iq self;
     _attr_consumables := _attr_consumables self;
     error_code := error_code self;
     tuya_state := tuya_state self;
     tuyastatus := v |}.

(** Property getters of the class and of the host's base class. *)
Definition model_code := _attr_model_code.
Definition ip_address := _attr_ip_address.
Definition access_token := _attr_access_token.
Definition robovac_supported := _attr_robovac_supported.
Definition supported_features := _attr_supported_features.
Definition fan_speed_list := _attr_fan_speed_list.
Definition battery_level := _attr_battery_level.
Definition fan_speed := _attr_fan_speed.
Definition mode := _attr_mode.
Definition consumables := _attr_consumables.
Definition cleaning_area := _attr_cleaning_area.
Definition cleaning_time := _attr_cleaning_time.
Definition auto_return := _attr_auto_return.
Definition do_not_disturb := _attr_do_not_disturb.
Definition boost_iq := _attr_boost_iq.

(** [s in l] for a list literal of strings. *)
Definition str_in (s : string) (l : list string) : bool :=
  existsb (String.eqb s) l.

(** [a | b | ...] over flags. *)
Definition flags (l : list Z) : Z := fold_right Z.lor 0 l.

(** [if a & b:] *)
Definition has_flag (a b : Z) : bool := negb (Z.eqb (Z.land a b) 0).

Definition C_SERIES : list string :=
  ["T2103"; "T2117"; "T2118"; "T2119"; "T2120"; "T2123"; "T2128"; "T2130"].
Definition G_SERIES : list string :=
  ["T1250"; "T2250"; "T2251"; "T2252"; "T2253"; "T2150"; "T2255"].
Definition X_SERIES : list string :=
  ["T2262"; "T2262A"; "T2261"; "T2261A"].

(** The attributes [__init__(item)] assigns, lines 278 to 392, as one
    record; the profile of lines 286 to 369 depends on the model alone. As
    the module stands the method does not get to its last assignments:
    line 381 calls the name [RoboVac], which the module does not bind (it
    defines the class [robovac]), so that constructing an entity raises
    [NameError], see [RoboVacEntity_of]. The record is used for the profile
    of a model and as a sample entity; the methods are stated for every
    entity. *)
Definition __init__ (item : Item) : RoboVacEntity :=
  let model := CONF_MODEL item in
  let '(speeds, robovac, supported) :=
    if str_in (substring 0 5 model) C_SERIES then
      (["No Suction"; "Standard"; "Boost IQ"; "Max"],
       flags [RoboVacEntityFeature.EDGE; RoboVacEntityFeature.SMALL_ROOM],
       flags [VacuumEntityFeature.BATTERY; VacuumEntityFeature.CLEAN_SPOT;
              VacuumEntityFeature.FAN_SPEED; VacuumEntityFeature.LOCATE;
              VacuumEntityFeature.PAUSE; VacuumEntityFeature.RETURN_HOME;
              VacuumEntityFeature.SEND_COMMAND; VacuumEntityFeature.START;
              VacuumEntityFeature.STATE; VacuumEntityFeature.STOP])
    else if str_in (substring 0 5 model) G_SERIES then
      (["Standard"; "Turbo"; "Max"; "Boost IQ"],
       flags [RoboVacEntityFeature.CLEANING_TIME;
              RoboVacEntityFeature.CLEANING_AREA;
              RoboVacEntityFeature.DO_NOT_DISTURB;
              RoboVacEntityFeature.AUTO_RETURN;
              RoboVacEntityFeature.CONSUMABLES],
       flags [VacuumEntityFeature.BATTERY; VacuumEntityFeature.CLEAN_SPOT;
              VacuumEntityFeature.FAN_SPEED; VacuumEntityFeature.LOCATE;
              VacuumEntityFeature.PAUSE; VacuumEntityFeature.RETURN_HOME;
              VacuumEntityFeature.SEND_COMMAND; VacuumEntityFeature.START;
              VacuumEntityFeature.STATE; VacuumEntityFeature.STOP])
    else if str_in (substring 0 5 model) X_SERIES then
      (["Pure"; "Standard"; "Turbo"; "Max"],
       flags [RoboVacEntityFeature.CLEANING_TIME;
              RoboVacEntityFeature.CLEANING_AREA;
              RoboVacEntityFeature.DO_NOT_DISTURB;
              RoboVacEntityFeature.AUTO_RETURN;
              RoboVacEntityFeature.CONSUMABLES;
              RoboVacEntityFeature.ROOM; RoboVacEntityFeature.ZONE;
              RoboVacEntityFeature.MAP; RoboVacEntityFeature.BOOST_IQ],
       flags [VacuumEntityFeature.BATTERY; VacuumEntityFeature.CLEAN_SPOT;
              VacuumEntityFeature.FAN_SPEED; VacuumEntityFeature.LOCATE;
              VacuumEntityFeature.MAP; VacuumEntityFeature.PAUSE;
              VacuumEntityFeature.RETURN_HOME;
              VacuumEntityFeature.SEND_COMMAND; VacuumEntityFeature.START;
              VacuumEntityFeature.STATE; VacuumEntityFeature.STOP])
    else (["Standard"], 0, 0) in
  {| _attr_name := CONF_NAME item;
     _attr_unique_id := CONF_ID item;
     _attr_model_code := model;
     _attr_ip_address := CONF_IP_ADDRESS item;
     _attr_access_token := CONF_ACCESS_TOKEN item;
     _attr_supported_features := supported;
     _attr_robovac_supported := robovac;
     _attr_fan_speed_list := speeds;
     _attr_battery_level := RInt 0;
     _attr_fan_speed := RNone;
     _attr_mode := RNone;
     _attr_cleaning_area := RNone;
     _attr_cleaning_time := RNone;
     _attr_auto_return := RNone;
     _attr_do_not_disturb := RNone;
     _attr_boost_iq := RNone;
     _attr_consumables := ONone;
     error_code := RNone;
     tuya_state := RNone;
     tuyastatus := None |}.

(** The [state] property. *)
Definition state (self : RoboVacEntity) : string :=
  if is_None (tuya_state self)
     || (type_is_not_None (error_code self)
         && negb (py_in (error_code self) [RInt 0; RStr "no_error"]))
  then STATE_ERROR
  else if py_eq (tuya_state self) (RStr "Charging")
          || py_eq (tuya_state self) (RStr "completed")
  then STATE_DOCKED
  else if py_eq (tuya_state self) (RStr "Recharge") then STATE_RETURNING
  else if py_eq (tuya_state self) (RStr "Sleeping")
          || py_eq (tuya_state self) (RStr "standby")
  then STATE_IDLE
  else STATE_CLEANING.

(** [ERROR_MESSAGES.get(code, code)] *)
Definition describe (code : raw) : raw :=
  match items_get ERROR_MESSAGES code with
  | Some message => RStr message
  | None => code
  end.

(** ** Methods as computations *)

(** The entity together with the device transport: [sent] lists the
    dictionaries passed to [vacuum.async_set], one per call, oldest first. *)
Record World : Type := {
  entity : RoboVacEntity;
  sent : list (list (string * raw))
}.

(** A method body: it may change the entity, hand writes to the transport,
    and return or raise; what was done before a raise stays done. *)
Definition M (A : Type) : Type := World -> result A * World.

#[global] Instance M_ret : MRet M := fun A a w => (Ok a, w).
#[global] Instance M_bind : MBind M := fun A B f m w =>
  match m w with
  | (Ok a, w') => f a w'
  | (Raise e, w') => (Raise e, w')
  end.

Definition raise {A : Type} (e : exn) : M A := fun w => (Raise e, w).

Definition lift {A : Type} (r : result A) : M A := fun w => (r, w).

Definition get_self : M RoboVacEntity := fun w => (Ok (entity w), w).

Definition assign (set : RoboVacEntity -> RoboVacEntity) : M unit :=
  fun w => (Ok tt, {| entity := set (entity w); sent := sent w |}).

(** [await self.vacuum.async_set(dps, None)] *)
Definition async_set (dps : list (string * raw)) : M unit :=
  fun w => (Ok tt, {| entity := entity w; sent := sent w ++ [dps] |}).

(** [self.tuyastatus.get(key)]; [None] has no attribute [get]. *)
Definition tuyastatus_get (key : string) : M raw :=
  self ← get_self;
  match tuyastatus self with
  | Some d => mret (dict_get d key)
  | None => raise AttributeError
  end.

Section Host.

(** [ast.literal_eval] of the Python library. *)
Variable literal_eval : string -> result pyobj.

(** [json.dumps(obj, separators=(",", ":"))] of the Python library. *)
Variable json_dumps : pyobj -> result string.

(** The [battery_icon] property of the host's vacuum base class. *)
Variable battery_icon : RoboVacEntity -> pyobj.

(** The attribute [status], which this class neither defines nor
    assigns: what the host's base class answers for it, [None] when the
    base class has no such attribute either. *)
Variable host_status : option raw.

(** [self.status] *)
Definition status : M raw :=
  match host_status with
  | Some v => mret v
  | None => raise AttributeError
  end.

(** The [extra_state_attributes] property. *)
Definition extra_state_attributes (self : RoboVacEntity) : gmap string pyobj :=
  let data : gmap string pyobj := ∅ in
  let data := <[ATTR_ERROR := of_raw (describe (error_code self))]> data in
  let data :=
    if has_flag (supported_features self) VacuumEntityFeature.BATTERY then
      <[ATTR_BATTERY_ICON := battery_icon self]>
        (<[ATTR_BATTERY_LEVEL := of_raw (battery_level self)]> data)
    else data in
  let data :=
    if has_flag (supported_features self) VacuumEntityFeature.FAN_SPEED then
      <[ATTR_FAN_SPEED := of_raw (fan_speed self)]> data
    else data in
  let data :=
    if has_flag (supported_features self) VacuumEntityFeature.STATUS then
      <[ATTR_STATUS := OStr (state self)]> data
    else data in
  let data :=
    if has_flag (robovac_supported self) RoboVacEntityFeature.CLEANING_AREA then
      <[ATTR_CLEANING_AREA := of_raw (cleaning_area self)]> data
    else data in
  let data :=
    if has_flag (robovac_supported self) RoboVacEntityFeature.CLEANING_TIME then
      <[ATTR_CLEANING_TIME := of_raw (cleaning_time self)]> data
    else data in
  let data :=
    if has_flag (robovac_supported self) RoboVacEntityFeature.AUTO_RETURN then
      <[ATTR_AUTO_RETURN := of_raw (auto_return self)]> data
    else data in
  let data :=
    if has_flag (robovac_supported self) RoboVacEntityFeature.DO_NOT_DISTURB then
      <[ATTR_DO_NOT_DISTURB := of_raw (do_not_disturb self)]> data
    else data in
  let data :=
    if has_flag (robovac_supported self) RoboVacEntityFeature.BOOST_IQ then
      <[ATTR_BOOST_IQ := of_raw (boost_iq self)]> data
    else data in
  let data :=
    if has_flag (robovac_supported self) RoboVacEntityFeature.CONSUMABLES then
      <[ATTR_CONSUMABLES := consumables self]> data
    else data in
  <[ATTR_MODE := of_raw (mode self)]> data.

(** [ast.literal_eval(base64.b64decode(blob).decode("ascii"))
      ["consumable"]["duration"]] *)
Definition decode_consumables (blob : raw) : result pyobj :=
  data ← b64decode blob;
  text ← decode_ascii data;
  record ← literal_eval text;
  consumable ← getitem record "consumable";
  getitem consumable "duration".

(** The fan-speed token as presented: the [if]/[elif] chain of
    [async_update]. *)
Definition fan_speed_read (token : raw) : raw :=
  if py_eq token (RStr "No_suction") then RStr "No Suction"
  else if py_eq token (RStr "Boost_IQ") then RStr "Boost IQ"
  else if py_eq token (RStr "Quiet") then RStr "Pure"
  else token.

(** [async_update]; [polled] is the data-point dictionary the transport
    holds after [await self.vacuum.async_get()]. Writing the state to the
    host ([async_write_ha_state]) and logging are the host's. *)
Definition async_update (polled : gmap string raw) : M unit :=
  self ← get_self;
  if String.eqb (ip_address self) EmptyString then mret tt
  else
    assign (set_tuyastatus (Some polled));;
    v ← tuyastatus_get TUYA_CODES.BATTERY_LEVEL;
    assign (set_attr_battery_level v);;
    v ← tuyastatus_get TUYA_CODES.STATE;
    assign (set_tuya_state v);;
    v ← tuyastatus_get TUYA_CODES.ERROR_CODE;
    assign (set_error_code v);;
    v ← tuyastatus_get TUYA_CODES.MODE;
    assign (set_attr_mode v);;
    v ← tuyastatus_get TUYA_CODES.FAN_SPEED;
    assign (set_attr_fan_speed v);;
    self ← get_self;
    assign (set_attr_fan_speed (fan_speed_read (fan_speed self)));;
    v ← tuyastatus_get TUYA_CODES.CLEANING_AREA;
    assign (set_attr_cleaning_area v);;
    v ← tuyastatus_get TUYA_CODES.CLEANING_TIME;
    assign (set_attr_cleaning_time v);;
    v ← tuyastatus_get TUYA_CODES.AUTO_RETURN;
    assign (set_attr_auto_return v);;
    v ← tuyastatus_get TUYA_CODES.DO_NOT_DISTURB;
    assign (set_attr_do_not_disturb v);;
    g ← tuyastatus_get "142";
    (if negb (is_None g) then
       blob ← tuyastatus_get "142";
       duration ← lift (decode_consumables blob);
       assign (set_attr_consumables duration)
     else mret tt);;
    v ← tuyastatus_get TUYA_CODES.BOOST_IQ;
    assign (set_attr_boost_iq v);;
    x ← tuyastatus_get "116";
    (if negb (is_None x) then
       blob ← tuyastatus_get "116";
       duration ← lift (decode_consumables blob);
       assign (set_attr_consumables duration)
     else mret tt).

(** [async_locate] *)
Definition async_locate : M unit :=
  v ← tuyastatus_get "103";
  if truthy v then async_set [("103", RBool false)]
  else async_set [("103", RBool true)].

(** [async_return_to_base]; the one-second sleep between the write and
    the poll is the host's clock. *)
Definition async_return_to_base (polled : gmap string raw) : M unit :=
  async_set [("101", RBool true)];;
  async_update polled.

(** [async_start]. Its last statement names [self.async_update] without
    calling it, so no poll follows the write. *)
Definition async_start : M unit :=
  self ← get_self;
  (if py_eq (mode self) (RStr "Nosweep") then
     assign (set_attr_mode (RStr "auto"))
   else if py_eq (mode self) (RStr "room") then
     s ← status;
     if py_eq s (RStr "Charging") || py_eq s (RStr "completed") then
       assign (set_attr_mode (RStr "auto"))
     else mret tt
   else mret tt);;
  self ← get_self;
  async_set [("5", mode self)].

(** [async_pause]; no poll follows, as in [async_start]. *)
Definition async_pause : M unit :=
  async_set [("2", RBool false)].

(** [async_stop] *)
Definition async_stop (polled : gmap string raw) : M unit :=
  async_return_to_base polled.

(** [async_clean_spot] *)
Definition async_clean_spot (polled : gmap string raw) : M unit :=
  async_set [("5", RStr "Spot")];;
  async_update polled.

(** The token written for a fan-speed label: the [if]/[elif] chain of
    [async_set_fan_speed]. *)
Definition fan_speed_write (label : string) : string :=
  if String.eqb label "No Suction" then "No_suction"
  else if String.eqb label "Boost IQ" then "Boost_IQ"
  else if String.eqb label "Pure" then "Quiet"
  else label.

(** [async_set_fan_speed] *)
Definition async_set_fan_speed (fan_speed : string)
    (polled : gmap string raw) : M unit :=
  async_set [("102", RStr (fan_speed_write fan_speed))];;
  async_update polled.

(** [params.get(key, dflt)]: only a dictionary has [get]. *)
Definition params_get (params : pyobj) (key : string) (dflt : pyobj)
    : result pyobj :=
  match params with
  | ODict items => Ok (default dflt (dict_lookup items key))
  | _ => Raise AttributeError
  end.

(** [async_send_command]; [now] is [round(time.time() * 1000)] as read
    in the [roomClean] branch. *)
Definition async_send_command (command : string) (params : pyobj)
    (now : Z) (polled : gmap string raw) : M unit :=
  (if String.eqb command "edgeClean" then
     async_set [("5", RStr "Edge")]
   else if String.eqb command "smallRoomClean" then
     async_set [("5", RStr "SmallRoom")]
   else if String.eqb command "autoClean" then
     async_set [("5", RStr "auto")]
   else if String.eqb command "autoReturn" then
     self ← get_self;
     if truthy (auto_return self) then async_set [("135", RBool false)]
     else async_set [("135", RBool true)]
   else if String.eqb command "doNotDisturb" then
     self ← get_self;
     if truthy (do_not_disturb self) then
       async_set [("139", RStr "MEQ4MDAwMDAw")];;
       async_set [("107", RBool false)]
     else
       async_set [("139", RStr "MTAwMDAwMDAw")];;
       async_set [("107", RBool true)]
   else if String.eqb command "boostIQ" then
     self ← get_self;
     if truthy (boost_iq self) then async_set [("118", RBool false)]
     else async_set [("118", RBool true)]
   else if String.eqb command "roomClean" then
     room_ids ← lift (params_get params "roomIds" (OList [OInt 1]));
     count ← lift (params_get params "count" (OInt 1));
     let clean_request :=
       ODict [(OStr "roomIds", room_ids); (OStr "cleanTimes", count)] in
     let method_call :=
       ODict [(OStr "method", OStr "selectRoomsClean");
              (OStr "data", clean_request);
              (OStr "timestamp", OInt now)] in
     json_str ← lift (json_dumps method_call);
     let base64_str :=
       string_of_list_ascii (b64encode (list_ascii_of_string json_str)) in
     async_set [("124", RStr base64_str)]
   else mret tt);;
  async_update polled.

End Host.

(** Running a method on an entity, the transport log empty. *)
Definition run {A : Type} (m : M A) (self : RoboVacEntity) : result A * World :=
  m {| entity := self; sent := [] |}.

(** ** A reader and a writer for sample blobs *)

(** [literal_eval] and [json_dumps] are parameters of the methods above.
    To run the methods on sample blobs they are instantiated with a reader
    and a writer for the literals the vacuum exchanges: dictionaries with
    string keys, lists, strings without escapes, integers, [True], [False]
    and [None]; anything else is refused. *)

Definition double_quote : ascii := ascii_of_N 34.

Fixpoint skip_spaces (s : list ascii) : list ascii :=
  match s with
  | c :: rest => if Ascii.eqb c " "%char then skip_spaces rest else s
  | [] => []
  end.

Definition digit_value (c : ascii) : option Z :=
  let n := N_of_ascii c in
  if ((48 <=? n) && (n <=? 57))%N then Some (Z.of_N n - 48) else None.

Fixpoint read_digits (s : list ascii) (acc : Z) : Z * list ascii :=
  match s with
  | c :: rest =>
      match digit_value c with
      | Some d => read_digits rest (10 * acc + d)
      | None => (acc, s)
      end
  | [] => (acc, [])
  end.

Fixpoint read_quoted (quote : ascii) (s : list ascii) (acc : list ascii)
    : option (string * list ascii) :=
  match s with
  | [] => None
  | c :: rest =>
      if Ascii.eqb c quote then Some (string_of_list_ascii (rev acc), rest)
      else if Ascii.eqb c "\"%char then None
      else read_quoted quote rest (c :: acc)
  end.

Fixpoint drop_prefix (p s : list ascii) : option (list ascii) :=
  match p, s with
  | [], _ => Some s
  | a :: p', b :: s' => if Ascii.eqb a b then drop_prefix p' s' else None
  | _ :: _, [] => None
  end.

Fixpoint items_set (items : list (pyobj * pyobj)) (key : string) (v : pyobj)
    : list (pyobj * pyobj) :=
  match items with
  | [] => [(OStr key, v)]
  | (k, v') :: rest =>
      if key_is key k then (k, v) :: rest else (k, v') :: items_set rest key v
  end.

Fixpoint read_value (fuel : nat) (s : list ascii) {struct fuel}
    : option (pyobj * list ascii) :=
  match fuel with
  | O => None
  | S fuel' =>
      match skip_spaces s with
      | [] => None
      | c :: rest =>
          if Ascii.eqb c "{"%char then
            match skip_spaces rest with
            | "}"%char :: rest' => Some (ODict [], rest')
            | _ => read_items fuel' rest []
            end
          else if Ascii.eqb c "["%char then
            match skip_spaces rest with
            | "]"%char :: rest' => Some (OList [], rest')
            | _ => read_elements fuel' rest []
            end
          else if Ascii.eqb c "'"%char || Ascii.eqb c double_quote then
            match read_quoted c rest [] with
            | Some (t, rest') => Some (OStr t, rest')
            | None => None
            end
          else if Ascii.eqb c "-"%char then
            match rest with
            | d :: _ =>
                match digit_value d with
                | Some _ => let '(n, rest') := read_digits rest 0 in
                            Some (OInt (- n), rest')
                | None => None
                end
            | [] => None
            end
          else
            match digit_value c with
            | Some _ => let '(n, rest') := read_digits (c :: rest) 0 in
                        Some (OInt n, rest')
            | None =>
                match drop_prefix (list_ascii_of_string "True") (c :: rest) with
                | Some rest' => Some (OBool true, rest')
                | None =>
                match drop_prefix (list_ascii_of_string "False") (c :: rest) with
                | Some rest' => Some (OBool false, rest')
                | None =>
                match drop_prefix (list_ascii_of_string "None") (c :: rest) with
                | Some rest' => Some (ONone, rest')
                | None => None
                end end end
            end
      end
  end
with read_items (fuel : nat) (s : list ascii) (acc : list (pyobj * pyobj))
    {struct fuel} : option (pyobj * list ascii) :=
  match fuel with
  | O => None
  | S fuel' =>
      match read_value fuel' s with
      | Some (OStr key, rest) =>
          match skip_spaces rest with
          | ":"%char :: rest1 =>
              match read_value fuel' rest1 with
              | Some (v, rest2) =>
                  match skip_spaces rest2 with
                  | ","%char :: rest3 => read_items fuel' rest3 (items_set acc key v)
                  | "}"%char :: rest3 => Some (ODict (items_set acc key v), rest3)
                  | _ => None
                  end
              | None => None
              end
          | _ => None
          end
      | _ => None
      end
  end
with read_elements (fuel : nat) (s : list ascii) (acc : list pyobj)
    {struct fuel} : option (pyobj * list ascii) :=
  match fuel with
  | O => None
  | S fuel' =>
      match read_value fuel' s with
      | Some (v, rest) =>
          match skip_spaces rest with
          | ","%char :: rest1 => read_elements fuel' rest1 (acc ++ [v])
          | "]"%char :: rest1 => Some (OList (acc ++ [v]), rest1)
          | _ => None
          end
      | None => None
      end
  end.

Definition sample_literal_eval (text : string) : result pyobj :=
  let s := list_ascii_of_string text in
  match read_value (S (length s)) s with
  | Some (v, rest) =>
      match skip_spaces rest with
      | [] => Ok v
      | _ => Raise SyntaxError
      end
  | None => Raise SyntaxError
  end.

Definition plain_char (c : ascii) : bool :=
  let n := N_of_ascii c in
  ((32 <=? n) && (n <=? 126) && negb (n =? 34) && negb (n =? 92))%N.

Definition join (sep : string) (parts : list string) : string :=
  match parts with
  | [] => EmptyString
  | p :: rest => fold_left (fun acc q => acc ++ sep ++ q) rest p
  end.

Definition quoted (s : string) : string :=
  String double_quote s ++ String double_quote EmptyString.

Definition write_string (s : string) : option string :=
  if forallb plain_char (list_ascii_of_string s) then Some (quoted s)
  else None.

Fixpoint write_value (o : pyobj) : option string :=
  match o with
  | ONone => Some "null"
  | OBool b => Some (if b then "true" else "false")
  | OInt n => Some (NilZero.string_of_int (Z.to_int n))
  | OStr s => write_string s
  | OList l =>
      let fix elements (l : list pyobj) : option (list string) :=
        match l with
        | [] => Some []
        | x :: rest =>
            match write_value x, elements rest with
            | Some a, Some b => Some (a :: b)
            | _, _ => None
            end
        end in
      match elements l with
      | Some parts => Some ("[" ++ join "," parts ++ "]")
      | None => None
      end
  | ODict items =>
      let fix members (l : list (pyobj * pyobj)) : option (list string) :=
        match l with
        | [] => Some []
        | (OStr k, v) :: rest =>
            match write_string k, write_value v, members rest with
            | Some a, Some b, Some c => Some ((a ++ ":" ++ b) :: c)
            | _, _, _ => None
            end
        | _ :: _ => None
        end in
      match members items with
      | Some parts => Some ("{" ++ join "," parts ++ "}")
      | None => None
      end
  | OOther _ => None
  end.

Definition sample_json_dumps (o : pyobj) : result string :=
  match write_value o with
  | Some text => Ok text
  | None => Raise TypeError
  end.

(** ** The design's wording and sample inputs *)

(** The lifecycle chain as the design words it: the error branch asks for
    an error code that is present and is not a sentinel. *)
Definition lifecycle_of (raw_state error : raw) : string :=
  if is_None raw_state
     || (negb (is_None error)
         && negb (py_in error [RInt 0; RStr "no_error"]))
  then STATE_ERROR
  else if py_eq raw_state (RStr "Charging")
          || py_eq raw_state (RStr "completed")
  then STATE_DOCKED
  else if py_eq raw_state (RStr "Recharge") then STATE_RETURNING
  else if py_eq raw_state (RStr "Sleeping")
          || py_eq raw_state (RStr "standby")
  then STATE_IDLE
  else STATE_CLEANING.

(** [code in ERROR_MESSAGES] *)
Definition known_code (code : raw) : bool :=
  py_in code (map fst ERROR_MESSAGES).

(** The capability profile held by an entity. *)
Definition profile (self : RoboVacEntity) : list string * Z * Z :=
  (fan_speed_list self, robovac_supported self, supported_features self).

Definition model_prefix (model : string) : string := substring 0 5 model.

(** The alias table of fan speeds: presented label, raw token. *)
Definition FAN_SPEED_ALIASES : list (string * string) :=
  [("No Suction", "No_suction"); ("Boost IQ", "Boost_IQ"); ("Pure", "Quiet")].

(** A consumables blob is fine when the code is not reported or the blob
    decodes at every stage; it is corrupt when it is reported and some
    stage raises. *)
Definition blob_fine (literal_eval : string -> result pyobj) (blob : raw) : Prop :=
  blob = RNone \/ exists duration, decode_consumables literal_eval blob = Ok duration.

Definition blob_corrupt (literal_eval : string -> result pyobj) (blob : raw)
    (e : exn) : Prop :=
  blob <> RNone /\ decode_consumables literal_eval blob = Raise e.

Definition sample_item : Item :=
  {| CONF_NAME := "Robo"; CONF_ID := "dev1"; CONF_MODEL := "T2250";
     CONF_IP_ADDRESS := "192.168.1.20"; CONF_ACCESS_TOKEN := "key";
     CONF_DESCRIPTION := "RoboVac G30"; CONF_MAC := "aa:bb:cc:dd:ee:ff" |}.

Definition unknown_item : Item :=
  {| CONF_NAME := "Robo"; CONF_ID := "dev2"; CONF_MODEL := "T9999";
     CONF_IP_ADDRESS := "192.168.1.21"; CONF_ACCESS_TOKEN := "key";
     CONF_DESCRIPTION := "RoboVac"; CONF_MAC := "aa:bb:cc:dd:ee:00" |}.

(** Base64 of the text [{'consumable':{'duration':86}}] and of
    [{'consumable':{'duration':12}}]. *)
Definition sample_blob : string := "eydjb25zdW1hYmxlJzp7J2R1cmF0aW9uJzo4Nn19".
Definition other_blob : string := "eydjb25zdW1hYmxlJzp7J2R1cmF0aW9uJzoxMn19".

(** The first 21 characters of [sample_blob]. *)
Definition truncated_blob : string := "eydjb25zdW1hYmxlJzp7J".

Definition sleeping_no_error_code : gmap string raw :=
  {[ "15" := RStr "Sleeping" ]}.

Definition room_while_charging : gmap string raw :=
  <["5" := RStr "room"]> (<["15" := RStr "Charging"]> {[ "106" := RInt 0 ]}).

Definition polled_both : gmap string raw :=
  <["142" := RStr sample_blob]>
    (<["116" := RStr other_blob]> {[ "118" := RBool true ]}).

Definition polled_legacy_only : gmap string raw :=
  {[ "142" := RStr sample_blob ]}.

Definition polled_current_only : gmap string raw :=
  {[ "116" := RStr other_blob ]}.

Definition polled_truncated : gmap string raw :=
  <["142" := RStr truncated_blob]> {[ "118" := RBool true ]}.

Definition polled_truncated_current : gmap string raw :=
  <["142" := RStr sample_blob]> {[ "116" := RStr truncated_blob ]}.

(** An entity whose do-not-disturb flag is set. *)
Definition dnd_entity : RoboVacEntity :=
  set_attr_do_not_disturb (RBool true) (__init__ sample_item).

(** The entity once a poll has copied the plain data points, before the
    consumables are looked at. *)
Definition copy_points (polled : gmap string raw) (self : RoboVacEntity)
    : RoboVacEntity :=
  set_attr_do_not_disturb (dict_get polled TUYA_CODES.DO_NOT_DISTURB)
    (set_attr_auto_return (dict_get polled TUYA_CODES.AUTO_RETURN)
      (set_attr_cleaning_time (dict_get polled TUYA_CODES.CLEANING_TIME)
        (set_attr_cleaning_area (dict_get polled TUYA_CODES.CLEANING_AREA)
          (set_attr_fan_speed
            (fan_speed_read (dict_get polled TUYA_CODES.FAN_SPEED))
            (set_attr_mode (dict_get polled TUYA_CODES.MODE)
              (set_error_code (dict_get polled TUYA_CODES.ERROR_CODE)
                (set_tuya_state (dict_get polled TUYA_CODES.STATE)
                  (set_attr_battery_level
                    (dict_get polled TUYA_CODES.BATTERY_LEVEL)
                    (set_tuyastatus (Some polled) self))))))))).

(** The consumables step of a poll on one code: nothing when the code is
    not reported, the decoded duration stored otherwise. *)
Definition consumables_step (literal_eval : string -> result pyobj)
    (blob : raw) (self : RoboVacEntity) : result RoboVacEntity :=
  if is_None blob then Ok self
  else
    match decode_consumables literal_eval blob with
    | Ok duration => Ok (set_attr_consumables duration self)
    | Raise e => Raise e
    end.

(** ** Further definitions for the properties below *)

(** The host polling again and again: one [async_update] per fetched
    snapshot, in order. *)
Fixpoint polls (literal_eval : string -> result pyobj)
    (fetched : list (gmap string raw)) : M unit :=
  match fetched with
  | [] => mret tt
  | polled :: rest => async_update literal_eval polled;; polls literal_eval rest
  end.

(** The transport calls of [async_send_command] before its poll, collected:
    the branch taken by the command name, on the flags of the entity. *)
Definition command_writes (json_dumps : pyobj -> result string)
    (command : string) (params : pyobj) (now : Z) (self : RoboVacEntity)
    : result (list (list (string * raw))) :=
  if String.eqb command "edgeClean" then Ok [[("5", RStr "Edge")]]
  else if String.eqb command "smallRoomClean" then Ok [[("5", RStr "SmallRoom")]]
  else if String.eqb command "autoClean" then Ok [[("5", RStr "auto")]]
  else if String.eqb command "autoReturn" then
    Ok [[("135", RBool (negb (truthy (auto_return self))))]]
  else if String.eqb command "doNotDisturb" then
    if truthy (do_not_disturb self) then
      Ok [[("139", RStr "MEQ4MDAwMDAw")]; [("107", RBool false)]]
    else Ok [[("139", RStr "MTAwMDAwMDAw")]; [("107", RBool true)]]
  else if String.eqb command "boostIQ" then
    Ok [[("118", RBool (negb (truthy (boost_iq self))))]]
  else if String.eqb command "roomClean" then
    room_ids ← params_get params "roomIds" (OList [OInt 1]);
    count ← params_get params "count" (OInt 1);
    json_str ← json_dumps
      (ODict [(OStr "method", OStr "selectRoomsClean");
              (OStr "data",
               ODict [(OStr "roomIds", room_ids); (OStr "cleanTimes", count)]);
              (OStr "timestamp", OInt now)]);
    Ok [[("124",
          RStr (string_of_list_ascii
                  (b64encode (list_ascii_of_string json_str))))]]
  else Ok [].

(** The names [async_send_command] knows. *)
Definition COMMANDS : list string :=
  ["edgeClean"; "smallRoomClean"; "autoClean"; "autoReturn"; "doNotDisturb";
   "boostIQ"; "roomClean"].

(** The keys [extra_state_attributes] can hold. *)
Definition ATTRIBUTE_KEYS : list string :=
  [ATTR_ERROR; ATTR_BATTERY_LEVEL; ATTR_BATTERY_ICON; ATTR_FAN_SPEED;
   ATTR_STATUS; ATTR_CLEANING_AREA; ATTR_CLEANING_TIME; ATTR_AUTO_RETURN;
   ATTR_DO_NOT_DISTURB; ATTR_BOOST_IQ; ATTR_CONSUMABLES; ATTR_MODE].

(** An item as the configuration flow first stores it: no address yet. *)
Definition unaddressed_item : Item :=
  {| CONF_NAME := "Robo"; CONF_ID := "dev4"; CONF_MODEL := "T2262A";
     CONF_IP_ADDRESS := EmptyString; CONF_ACCESS_TOKEN := "key";
     CONF_DESCRIPTION := "RoboVac X8"; CONF_MAC := "aa:bb:cc:dd:ee:01" |}.

(** The byte values, for properties checked byte by byte. *)
Definition all_bytes : list N := map N.of_nat (seq 0 256).


(** ** The configuration flow *)

(** The keys of a stored vacuum, constants of the host
    ([homeassistant.const]). *)
Module const.
Definition CONF_ACCESS_TOKEN : string := "access_token".
Definition CONF_DESCRIPTION : string := "description".
Definition CONF_ID : string := "id".
Definition CONF_IP_ADDRESS : string := "ip_address".
Definition CONF_LOCATION : string := "location".
Definition CONF_MAC : string := "mac".
Definition CONF_MODEL : string := "model".
Definition CONF_NAME : string := "name".
End const.

(** The two exceptions the configuration flow declares. *)
Inductive flow_exn : Type :=
  | CannotConnect
  | InvalidAuth.

(** One stored vacuum: a dictionary from keys to strings. *)
Abbreviation Settings := (gmap string string) (only parsing).

(** [CONF_VACS]: a dictionary from device ids to stored vacuums, kept as
    the list of its items in insertion order, which is the order Python
    iterates it in. *)
Abbreviation Vacs := (list (string * gmap string string)) (only parsing).

(** [d.get(key)] on the item list. *)
Fixpoint vacs_get (d : Vacs) (key : string) : option Settings :=
  match d with
  | [] => None
  | (k, v) :: rest => if String.eqb k key then Some v else vacs_get rest key
  end.

(** [d[key] = v]: a key already there keeps its place. *)
Fixpoint vacs_set (d : Vacs) (key : string) (v : Settings) : Vacs :=
  match d with
  | [] => [(key, v)]
  | (k, old) :: rest =>
      if String.eqb k key then (k, v) :: rest
      else (k, old) :: vacs_set rest key v
  end.

(** [item[key]] on a stored vacuum. *)
Definition settings_getitem (item : Settings) (key : string)
    : result string :=
  match item !! key with
  | Some v => Ok v
  | None => Raise KeyError
  end.

(** A device as the Tuya session lists it. *)
Record TuyaListed : Type := {
  devId : string;
  localKey : string
}.

(** An item of the Eufy device list, by the fields the flow reads. *)
Record EufyListed : Type := {
  appliance : string;
  device_id : string;
  product_code : string;
  alias_name : string;
  device_name : string;
  wifi_mac : string
}.

(** What the flow stores from the Tuya side for one device of a home. *)
Definition tuya_details (home : string) (device : TuyaListed) : Settings :=
  <[const.CONF_ACCESS_TOKEN := localKey device]>
    (<[const.CONF_LOCATION := home]> ∅).

(** What the flow adds from the Eufy side. *)
Definition eufy_details (item : EufyListed) : Settings :=
  <[const.CONF_ID := device_id item]>
    (<[const.CONF_MODEL := product_code item]>
       (<[const.CONF_NAME := alias_name item]>
          (<[const.CONF_DESCRIPTION := device_name item]>
             (<[const.CONF_MAC := wifi_mac item]>
                (<[const.CONF_IP_ADDRESS := EmptyString]> ∅))))).

(** The first loop of [get_eufy_vacuums]: one entry per device of every
    home, a later device of the same id replacing the entry. *)
Definition tuya_loop (list_homes : list string)
    (list_devices : string -> list TuyaListed) : Vacs :=
  fold_left
    (fun allvacs home =>
       fold_left
         (fun allvacs device =>
            vacs_set allvacs (devId device) (tuya_details home device))
         (list_devices home) allvacs)
    list_homes [].

(** One round of the second loop: [dict.update] on the entry, the new
    keys winning. *)
Definition eufy_step (allvacs : Vacs) (item : EufyListed) : Vacs :=
  if String.eqb (appliance item) "Cleaning" then
    match vacs_get allvacs (device_id item) with
    | Some old => vacs_set allvacs (device_id item) (eufy_details item ∪ old)
    | None => allvacs
    end
  else allvacs.

(** [get_eufy_vacuums], by what it leaves under [CONF_VACS]: the answers of
    the two services are arguments; [status_code] and [res_code] are those
    of the log-on. *)
Definition get_eufy_vacuums (status_code res_code : Z)
    (list_homes : list string) (list_devices : string -> list TuyaListed)
    (items : list EufyListed) : flow_exn + Vacs :=
  if negb (Z.eqb status_code 200) then inl CannotConnect
  else if negb (Z.eqb res_code 1) then inl InvalidAuth
  else inr (fold_left eufy_step items (tuya_loop list_homes list_devices)).

(** [RoboVacEntity(item)] on a stored vacuum. [__init__] subscripts the
    item for its name, id, model, address and key (lines 280 to 285) and,
    building the device information, for its id, name, description and
    hardware address (lines 372 to 380); a missing key raises [KeyError].
    Line 381 then calls the name [RoboVac]. The module binds no such name
    (its class is [robovac]), so the call raises [NameError] and no entity
    is built. *)
Definition RoboVacEntity_of (item : Settings) : result RoboVacEntity :=
  name ← settings_getitem item const.CONF_NAME;
  id ← settings_getitem item const.CONF_ID;
  model ← settings_getitem item const.CONF_MODEL;
  ip ← settings_getitem item const.CONF_IP_ADDRESS;
  token ← settings_getitem item const.CONF_ACCESS_TOKEN;
  description ← settings_getitem item const.CONF_DESCRIPTION;
  mac ← settings_getitem item const.CONF_MAC;
  Raise NameError.

(** [async_setup_entry]: the entities handed to the host so far, and how
    the loop ended. *)
Fixpoint async_setup_entry (vacuums : Vacs)
    : list RoboVacEntity * result unit :=
  match vacuums with
  | [] => ([], Ok tt)
  | (_, item) :: rest =>
      match RoboVacEntity_of item with
      | Ok e =>
          let '(added, r) := async_setup_entry rest in (e :: added, r)
      | Raise x => ([], Raise x)
      end
  end.

(** The input of the options form: the vacuum chosen (the schema fills in
    [1] when none is) and the address, which is optional. *)
Record OptionsInput : Type := {
  input_vacuum : raw;
  input_ip_address : option string
}.

(** What the options step returns. *)
Inductive OptionsResult : Type :=
  | create_entry (title : string) (data : Vacs)
  | show_form (step_id : string) (options : list string).

(** The first loop of [async_step_init]: the names, in order. *)
Fixpoint vac_names (vacuums : Vacs) : result (list string) :=
  match vacuums with
  | [] => Ok []
  | (_, item_settings) :: rest =>
      name ← settings_getitem item_settings "name";
      names ← vac_names rest;
      mret (name :: names)
  end.

(** The second loop: the stored vacuums are updated in place, so what was
    written before an exception stays written. *)
Fixpoint set_addresses (vacuums : Vacs) (user_input : OptionsInput)
    : result unit * Vacs :=
  match vacuums with
  | [] => (Ok tt, [])
  | (k, item_settings) :: rest =>
      match settings_getitem item_settings "name" with
      | Raise x => (Raise x, vacuums)
      | Ok name =>
          if py_eq (RStr name) (input_vacuum user_input) then
            match input_ip_address user_input with
            | None => (Raise KeyError, vacuums)
            | Some address =>
                let '(r, rest') := set_addresses rest user_input in
                (r, (k, <[const.CONF_IP_ADDRESS := address]> item_settings)
                      :: rest')
            end
          else
            let '(r, rest') := set_addresses rest user_input in
            (r, (k, item_settings) :: rest')
      end
  end.

(** [OptionsFlowHandler.async_step_init] on the stored vacuums of the
    configuration entry: the result, and the stored vacuums afterwards. *)
Definition async_step_init (vacuums : Vacs)
    (user_input : option OptionsInput) : result OptionsResult * Vacs :=
  match vac_names vacuums with
  | Raise x => (Raise x, vacuums)
  | Ok names =>
      match user_input with
      | Some input =>
          match set_addresses vacuums input with
          | (Ok _, vacuums') => (Ok (create_entry EmptyString vacuums'), vacuums')
          | (Raise x, vacuums') => (Raise x, vacuums')
          end
      | None => (Ok (show_form "init" names), vacuums)
      end
  end.

(** Whether the Eufy list holds a cleaning appliance of this id. *)
Definition eufy_cleaning (items : list EufyListed) (id : string) : bool :=
  existsb
    (fun item =>
       String.eqb (appliance item) "Cleaning" && String.eqb (device_id item) id)
    items.

(** The devices of all homes, in the order the first loop meets them. *)
Definition tuya_listed (list_homes : list string)
    (list_devices : string -> list TuyaListed) : list (string * TuyaListed) :=
  flat_map (fun home => map (pair home) (list_devices home)) list_homes.

(** Sample answers of the two services: two homes, a vacuum in each and a
    device that is no vacuum. *)
Definition sample_homes : list string := ["home1"; "home2"].

Definition sample_devices (home : string) : list TuyaListed :=
  if String.eqb home "home1" then
    [{| devId := "vac1"; localKey := "key1" |};
     {| devId := "plug"; localKey := "key2" |}]
  else if String.eqb home "home2" then
    [{| devId := "vac2"; localKey := "key3" |}]
  else [].

Definition vacuums_only (home : string) : list TuyaListed :=
  if String.eqb home "home1" then
    [{| devId := "vac1"; localKey := "key1" |}]
  else if String.eqb home "home2" then
    [{| devId := "vac2"; localKey := "key3" |}]
  else [].

Definition sample_eufy_items : list EufyListed :=
  [{| appliance := "Cleaning"; device_id := "vac1"; product_code := "T2250";
      alias_name := "Robo"; device_name := "RoboVac G30";
      wifi_mac := "aa:bb:cc:dd:ee:ff" |};
   {| appliance := "Cleaning"; device_id := "vac2"; product_code := "T2262";
      alias_name := "Robo"; device_name := "RoboVac X8";
      wifi_mac := "aa:bb:cc:dd:ee:01" |};
   {| appliance := "Cleaning"; device_id := "vac3"; product_code := "T2118";
      alias_name := "Upstairs"; device_name := "RoboVac 30C";
      wifi_mac := "aa:bb:cc:dd:ee:02" |};
   {| appliance := "Security"; device_id := "plug"; product_code := "T8400";
      alias_name := "Camera"; device_name := "Indoor Cam";
      wifi_mac := "aa:bb:cc:dd:ee:03" |}].

(** The first loop, over the flattened device list. *)
Definition tuya_step (allvacs : Vacs) (p : string * TuyaListed) : Vacs :=
  vacs_set allvacs (devId (snd p)) (tuya_details (fst p) (snd p)).

(** The second loop, seen from one entry. *)
Definition entry_step (id : string) (d : Settings) (item : EufyListed)
    : Settings :=
  if String.eqb (appliance item) "Cleaning" && String.eqb (device_id item) id
  then eufy_details item ∪ d
  else d.

(** The keys the Eufy side writes. *)
Definition EUFY_KEYS : list string :=
  [const.CONF_ID; const.CONF_MODEL; const.CONF_NAME; const.CONF_DESCRIPTION;
   const.CONF_MAC; const.CONF_IP_ADDRESS].

(** Whether the options input chooses this stored vacuum. *)
Definition chosen (user_input : OptionsInput) (item_settings : Settings)
    : bool :=
  match item_settings !! "name" with
  | Some name => py_eq (RStr name) (input_vacuum user_input)
  | None => false
  end.

(** A stored entry after the options step has written an address. *)
Definition with_address (address : string) (user_input : OptionsInput)
    (p : string * Settings) : string * Settings :=
  if chosen user_input (snd p)
  then (fst p, <[const.CONF_IP_ADDRESS := address]> (snd p))
  else p.

(** The device listed last under an id, with its home: the one whose entry
    the first loop leaves. *)
Definition last_listed (list_homes : list string)
    (list_devices : string -> list TuyaListed) (id : string)
    : option (string * TuyaListed) :=
  find (fun p => String.eqb (devId (snd p)) id)
       (rev (tuya_listed list_homes list_devices)).

(** The cleaning appliance listed last under an id: the one whose values
    the second loop leaves. *)
Definition last_cleaning (items : list EufyListed) (id : string)
    : option EufyListed :=
  find
    (fun item =>
       String.eqb (appliance item) "Cleaning" && String.eqb (device_id item) id)
    (rev items).

(** The keys [__init__] subscripts a stored vacuum for. *)
Definition INIT_KEYS : list string :=
  [const.CONF_NAME; const.CONF_ID; const.CONF_MODEL; const.CONF_IP_ADDRESS;
   const.CONF_ACCESS_TOKEN; const.CONF_DESCRIPTION; const.CONF_MAC].
(** * Properties *)

Local Open Scope list_scope.

(** ** Transport-safe text *)

Example b64decode_dnd_disabled :
  b64decode (RStr "MEQ4MDAwMDAw") = Ok (list_ascii_of_string "0D8000000").
Proof. reflexivity. Qed.

Example b64decode_dnd_enabled :
  b64decode (RStr "MTAwMDAwMDAw") = Ok (list_ascii_of_string "100000000").
Proof. reflexivity. Qed.

Example b64encode_sample_blob :
  string_of_list_ascii
    (b64encode (list_ascii_of_string "{'consumable':{'duration':86}}"))
  = sample_blob.
Proof. reflexivity. Qed.

Example decode_sample_blob :
  decode_consumables sample_literal_eval (RStr sample_blob) = Ok (OInt 86).
Proof. vm_compute. reflexivity. Qed.

Example decode_truncated_blob :
  forall literal_eval,
    decode_consumables literal_eval (RStr truncated_blob) = Raise binascii_Error.
Proof. intros literal_eval. reflexivity. Qed.

Lemma decode_None literal_eval :
  decode_consumables literal_eval RNone = Raise TypeError.
Proof. reflexivity. Qed.

(** ** Lifecycle state *)

Lemma state_unfold self :
  state self =
    if is_None (tuya_state self)
       || negb (py_in (error_code self) [RInt 0; RStr "no_error"])
    then STATE_ERROR
    else if py_eq (tuya_state self) (RStr "Charging")
            || py_eq (tuya_state self) (RStr "completed")
    then STATE_DOCKED
    else if py_eq (tuya_state self) (RStr "Recharge") then STATE_RETURNING
    else if py_eq (tuya_state self) (RStr "Sleeping")
            || py_eq (tuya_state self) (RStr "standby")
    then STATE_IDLE
    else STATE_CLEANING.
Proof. reflexivity. Qed.

(** With an error code reported, [state] is the chain of the design. *)
Lemma state_chain_error_code_reported self :
  error_code self <> RNone ->
  state self = lifecycle_of (tuya_state self) (error_code self).
Proof.
  intros Hcode. unfold state, lifecycle_of, type_is_not_None.
  destruct (error_code self); [contradiction | reflexivity ..].
Qed.

(** A reported error code other than the sentinels overrides every raw
    state. *)
Lemma state_error_overrides self :
  py_in (error_code self) [RInt 0; RStr "no_error"] = false ->
  state self = STATE_ERROR.
Proof.
  intros Hcode. rewrite state_unfold, Hcode.
  now rewrite orb_true_r.
Qed.

(** An absent error code is no sentinel: the state is the error state. *)
Lemma state_error_code_absent self :
  error_code self = RNone -> state self = STATE_ERROR.
Proof.
  intros Hcode. apply state_error_overrides. now rewrite Hcode.
Qed.

(** C1. The lifecycle chain of the design asks for [idle] on the snapshot
    that reports the raw state "Sleeping" and no error code; the [state]
    property answers [error] there, its presence test on the error code
    being vacuous. *)
Theorem state_sleeping_without_error_code :
  let self :=
    entity (snd (run (async_update sample_literal_eval sleeping_no_error_code)
                     (__init__ sample_item))) in
  tuya_state self = RStr "Sleeping"
  /\ error_code self = RNone
  /\ state self = STATE_ERROR
  /\ lifecycle_of (tuya_state self) (error_code self) = STATE_IDLE.
Proof. vm_compute. repeat split. Qed.

(** ** Error descriptions *)

Lemma describe_known_or_same code :
  describe code = code \/ exists message, describe code = RStr message.
Proof.
  unfold describe. destruct (items_get ERROR_MESSAGES code); eauto.
Qed.

Lemma items_get_unknown {V : Type} (d : list (raw * V)) code :
  py_in code (map fst d) = false -> items_get d code = None.
Proof.
  induction d as [| [k v] d IH]; simpl; [reflexivity |].
  intros H. apply orb_false_elim in H as [Hk Hd].
  rewrite Hk. auto.
Qed.

(** C7. Every key of the table is described by its message, every code
    that is not a key is handed back unchanged, and [describe] is a total
    function. *)
Theorem describe_total :
  (forall code message,
      In (code, message) ERROR_MESSAGES -> describe code = RStr message)
  /\ (forall code, known_code code = false -> describe code = code).
Proof.
  split.
  - intros code message Hin. unfold ERROR_MESSAGES in Hin.
    repeat (destruct Hin as [Heq | Hin];
            [injection Heq as <- <-; reflexivity |]).
    destruct Hin.
  - intros code Hcode. unfold describe.
    now rewrite (items_get_unknown ERROR_MESSAGES code Hcode).
Qed.

(** The numeric keys are 1 to 9, 12 to 14 and 17 to 21; [True] equals the
    key 1. *)
Example describe_gaps_and_booleans :
  map describe [RInt 10; RInt 11; RInt 15; RInt 16; RInt 22; RNone]
  = [RInt 10; RInt 11; RInt 15; RInt 16; RInt 22; RNone]
  /\ describe (RBool true) = RStr "Error: Front bumper stuck".
Proof. split; reflexivity. Qed.

Lemma describe_total_witness :
  describe (RInt 5) = RStr "Error: Device trapped"
  /\ describe (RStr "Wheel_stuck") = RStr "Error: Wheel stuck"
  /\ describe (RInt 10) = RInt 10.
Proof.
  split; [| split].
  - apply (proj1 describe_total). simpl. tauto.
  - apply (proj1 describe_total). simpl. tauto.
  - apply (proj2 describe_total). reflexivity.
Defined.

(** ** Capability resolution *)

Lemma profile_by_prefix item :
  profile (__init__ item) =
    let p := model_prefix (CONF_MODEL item) in
    if str_in p C_SERIES then
      (["No Suction"; "Standard"; "Boost IQ"; "Max"], 3, 14204)
    else if str_in p G_SERIES then
      (["Standard"; "Turbo"; "Max"; "Boost IQ"], 124, 14204)
    else if str_in p X_SERIES then
      (["Pure"; "Standard"; "Turbo"; "Max"], 2044, 16252)
    else (["Standard"], 0, 0).
Proof.
  unfold profile, __init__, model_prefix. cbv zeta.
  destruct (str_in (substring 0 5 (CONF_MODEL item)) C_SERIES); [reflexivity |].
  destruct (str_in (substring 0 5 (CONF_MODEL item)) G_SERIES); [reflexivity |].
  destruct (str_in (substring 0 5 (CONF_MODEL item)) X_SERIES); reflexivity.
Qed.

(** C6. The profile is a function of the five-character prefix of the
    model identifier alone, and a prefix in none of the three family tables
    gives no control surface, no feature and the one fan speed "Standard". *)
Theorem resolve_total_deterministic :
  (forall a b,
      model_prefix (CONF_MODEL a) = model_prefix (CONF_MODEL b) ->
      profile (__init__ a) = profile (__init__ b))
  /\ (forall item,
        str_in (model_prefix (CONF_MODEL item))
               (C_SERIES ++ G_SERIES ++ X_SERIES) = false ->
        profile (__init__ item) = (["Standard"], 0, 0)).
Proof.
  split.
  - intros a b Hprefix. rewrite (profile_by_prefix a), (profile_by_prefix b).
    cbv zeta.
    now rewrite Hprefix.
  - intros item Hout. unfold str_in in Hout.
    rewrite !existsb_app in Hout.
    apply orb_false_elim in Hout as [HC Hout].
    apply orb_false_elim in Hout as [HG HX].
    rewrite profile_by_prefix. cbv zeta. unfold str_in.
    now rewrite HC, HG, HX.
Qed.

Lemma resolve_total_deterministic_witness :
  profile (__init__ sample_item)
  = profile (__init__ {| CONF_NAME := "Other"; CONF_ID := "dev3";
                         CONF_MODEL := "T2250X"; CONF_IP_ADDRESS := EmptyString;
                         CONF_ACCESS_TOKEN := "k"; CONF_DESCRIPTION := "G30";
                         CONF_MAC := "00" |})
  /\ profile (__init__ unknown_item) = (["Standard"], 0, 0).
Proof.
  split.
  - apply (proj1 resolve_total_deterministic). reflexivity.
  - apply (proj2 resolve_total_deterministic). reflexivity.
Defined.

(** ** Polling *)

Ltac run_methods :=
  cbv [async_update async_return_to_base async_stop async_clean_spot
       async_set_fan_speed async_send_command async_start async_pause
       async_locate status copy_points consumables_step
       tuyastatus_get get_self assign lift raise mbind mret M_bind M_ret
       async_set run
       set_attr_battery_level set_attr_fan_speed set_attr_mode
       set_attr_cleaning_area set_attr_cleaning_time set_attr_auto_return
       set_attr_do_not_disturb set_attr_boost_iq set_attr_consumables
       set_error_code set_tuya_state set_tuyastatus
       _attr_name _attr_unique_id _attr_model_code _attr_ip_address
       _attr_access_token _attr_supported_features _attr_robovac_supported
       _attr_fan_speed_list _attr_battery_level _attr_fan_speed _attr_mode
       _attr_cleaning_area _attr_cleaning_time _attr_auto_return
       _attr_do_not_disturb _attr_boost_iq _attr_consumables
       error_code tuya_state tuyastatus entity sent
       model_code ip_address access_token robovac_supported
       supported_features fan_speed_list battery_level fan_speed mode
       consumables cleaning_area cleaning_time auto_return do_not_disturb
       boost_iq fst snd negb].

(** Without an address nothing is polled. *)
Lemma async_update_no_address literal_eval polled w :
  ip_address (entity w) = EmptyString ->
  async_update literal_eval polled w = (Ok tt, w).
Proof.
  intros Hip. destruct w as [self log]. unfold async_update, mbind, M_bind, get_self.
  cbn [entity] in *. rewrite Hip. reflexivity.
Qed.

(** What a poll does, step by step: the plain data points are copied, the
    legacy consumables code is decoded, the boost flag is copied, the
    current consumables code is decoded; the first decoding that raises
    ends the poll and leaves the entity as it is at that point. *)
Lemma async_update_steps literal_eval polled w :
  ip_address (entity w) <> EmptyString ->
  async_update literal_eval polled w =
    let e1 := copy_points polled (entity w) in
    match consumables_step literal_eval (dict_get polled "142") e1 with
    | Raise e => (Raise e, {| entity := e1; sent := sent w |})
    | Ok e2 =>
        let e3 := set_attr_boost_iq (dict_get polled TUYA_CODES.BOOST_IQ) e2 in
        match consumables_step literal_eval (dict_get polled "116") e3 with
        | Raise e => (Raise e, {| entity := e3; sent := sent w |})
        | Ok e4 => (Ok tt, {| entity := e4; sent := sent w |})
        end
    end.
Proof.
  intros Hip. destruct w as [self log]. destruct self.
  cbv [ip_address _attr_ip_address entity] in Hip.
  run_methods.
  destruct (String.eqb_spec _attr_ip_address0 EmptyString) as [E | _];
    [contradiction |].
  destruct (is_None (dict_get polled "142")); run_methods.
  - destruct (is_None (dict_get polled "116")); run_methods; [reflexivity |].
    destruct (decode_consumables literal_eval (dict_get polled "116"));
      reflexivity.
  - destruct (decode_consumables literal_eval (dict_get polled "142"));
      run_methods; [| reflexivity].
    destruct (is_None (dict_get polled "116")); run_methods; [reflexivity |].
    destruct (decode_consumables literal_eval (dict_get polled "116"));
      reflexivity.
Qed.

(** A poll hands nothing to the transport's write side. *)
Lemma async_update_sent literal_eval polled w :
  sent (snd (async_update literal_eval polled w)) = sent w.
Proof.
  destruct (String.eqb_spec (ip_address (entity w)) EmptyString) as [E | E].
  - now rewrite async_update_no_address.
  - rewrite async_update_steps by exact E. cbv zeta.
    destruct (consumables_step _ (dict_get polled "142") _); [| reflexivity].
    destruct (consumables_step _ (dict_get polled "116") _); reflexivity.
Qed.

Lemma consumables_step_fine literal_eval blob self :
  blob_fine literal_eval blob ->
  exists self', consumables_step literal_eval blob self = Ok self'.
Proof.
  unfold consumables_step. intros [-> | [duration Hd]].
  - eauto.
  - rewrite Hd. destruct (is_None blob); eauto.
Qed.

Lemma consumables_step_corrupt literal_eval blob e self :
  blob_corrupt literal_eval blob e ->
  consumables_step literal_eval blob self = Raise e.
Proof.
  unfold consumables_step. intros [Hblob Hd]. rewrite Hd.
  destruct blob; [contradiction | reflexivity ..].
Qed.

(** The outcome of a poll is decided by the two consumables blobs alone. *)
Lemma async_update_outcome literal_eval polled w :
  ip_address (entity w) <> EmptyString ->
  (blob_fine literal_eval (dict_get polled "142") ->
   blob_fine literal_eval (dict_get polled "116") ->
   fst (async_update literal_eval polled w) = Ok tt)
  /\ (forall e,
        blob_corrupt literal_eval (dict_get polled "142") e ->
        fst (async_update literal_eval polled w) = Raise e)
  /\ (forall e,
        blob_fine literal_eval (dict_get polled "142") ->
        blob_corrupt literal_eval (dict_get polled "116") e ->
        fst (async_update literal_eval polled w) = Raise e).
Proof.
  intros Hip. rewrite async_update_steps by exact Hip. cbv zeta.
  repeat split.
  - intros Hg Hx.
    destruct (consumables_step_fine literal_eval _ (copy_points polled (entity w)) Hg)
      as [e2 ->].
    destruct (consumables_step_fine literal_eval _
                (set_attr_boost_iq (dict_get polled TUYA_CODES.BOOST_IQ) e2) Hx)
      as [e4 ->].
    reflexivity.
  - intros e Hg.
    now rewrite (consumables_step_corrupt literal_eval _ e _ Hg).
  - intros e Hg Hx.
    destruct (consumables_step_fine literal_eval _ (copy_points polled (entity w)) Hg)
      as [e2 ->].
    now rewrite (consumables_step_corrupt literal_eval _ e _ Hx).
Qed.

(** C2, as the code has it. A poll returns whenever each of the codes
    "142" and "116" is not reported or holds a blob that decodes at every
    stage, whatever the other data points hold, and also when the entity
    has no address; a reported blob that fails at some stage is not caught,
    the exception of that stage leaves [async_update]. *)
Theorem async_update_raises_on_corrupt_blob_only literal_eval polled w :
  (ip_address (entity w) = EmptyString ->
   fst (async_update literal_eval polled w) = Ok tt)
  /\ (ip_address (entity w) <> EmptyString ->
      (blob_fine literal_eval (dict_get polled "142") ->
       blob_fine literal_eval (dict_get polled "116") ->
       fst (async_update literal_eval polled w) = Ok tt)
      /\ (forall e,
            blob_corrupt literal_eval (dict_get polled "142") e ->
            fst (async_update literal_eval polled w) = Raise e)
      /\ (forall e,
            blob_fine literal_eval (dict_get polled "142") ->
            blob_corrupt literal_eval (dict_get polled "116") e ->
            fst (async_update literal_eval polled w) = Raise e)).
Proof.
  split.
  - intros Hip. now rewrite async_update_no_address.
  - apply async_update_outcome.
Qed.

Lemma async_update_raises_on_corrupt_blob_only_witness :
  fst (run (async_update sample_literal_eval polled_both) (__init__ sample_item))
    = Ok tt
  /\ fst (run (async_update sample_literal_eval polled_truncated)
              (__init__ sample_item)) = Raise binascii_Error
  /\ fst (run (async_update sample_literal_eval polled_truncated_current)
              (__init__ sample_item)) = Raise binascii_Error.
Proof.
  assert (Hip : ip_address (__init__ sample_item) <> EmptyString)
    by (vm_compute; discriminate).
  split; [| split].
  - destruct (proj2 (async_update_raises_on_corrupt_blob_only
                       sample_literal_eval polled_both
                       {| entity := __init__ sample_item; sent := [] |}) Hip)
      as (Hfine & _ & _).
    apply Hfine.
    + right. exists (OInt 86). vm_compute. reflexivity.
    + right. exists (OInt 12). vm_compute. reflexivity.
  - destruct (proj2 (async_update_raises_on_corrupt_blob_only
                       sample_literal_eval polled_truncated
                       {| entity := __init__ sample_item; sent := [] |}) Hip)
      as (_ & Hlegacy & _).
    apply Hlegacy. unfold blob_corrupt.
    split; [vm_compute; discriminate | vm_compute; reflexivity].
  - destruct (proj2 (async_update_raises_on_corrupt_blob_only
                       sample_literal_eval polled_truncated_current
                       {| entity := __init__ sample_item; sent := [] |}) Hip)
      as (_ & _ & Hcurrent).
    apply Hcurrent.
    + right. exists (OInt 86). vm_compute. reflexivity.
    + unfold blob_corrupt.
      split; [vm_compute; discriminate | vm_compute; reflexivity].
Defined.

(** C2, as stated, fails: a poll that reports a truncated blob under code
    "142" raises [binascii.Error] out of [async_update]. *)
Lemma async_update_truncated_blob_raises :
  fst (run (async_update sample_literal_eval polled_truncated)
           (__init__ sample_item)) = Raise binascii_Error.
Proof. vm_compute. reflexivity. Qed.

(** The decoding fails before [literal_eval] is consulted, and the data
    point copied after the legacy blob keeps its old value. *)
Lemma async_update_truncated_blob_any_reader literal_eval :
  let r := run (async_update literal_eval polled_truncated) (__init__ sample_item) in
  fst r = Raise binascii_Error
  /\ dict_get polled_truncated TUYA_CODES.BOOST_IQ = RBool true
  /\ boost_iq (entity (snd r)) = RNone
  /\ consumables (entity (snd r)) = ONone.
Proof. vm_compute. repeat split. Qed.

(** ** Consumables *)

(** C8. With both codes reported and decodable the duration kept is the
    one of code "116", decoded last; with one code reported it is the
    duration decoded from that code. *)
Theorem consumables_later_code_wins literal_eval polled w :
  ip_address (entity w) <> EmptyString ->
  let self' := entity (snd (async_update literal_eval polled w)) in
  (forall legacy current,
      dict_get polled "142" <> RNone -> dict_get polled "116" <> RNone ->
      decode_consumables literal_eval (dict_get polled "142") = Ok legacy ->
      decode_consumables literal_eval (dict_get polled "116") = Ok current ->
      consumables self' = current)
  /\ (forall legacy,
        dict_get polled "142" <> RNone -> dict_get polled "116" = RNone ->
        decode_consumables literal_eval (dict_get polled "142") = Ok legacy ->
        consumables self' = legacy)
  /\ (forall current,
        dict_get polled "142" = RNone -> dict_get polled "116" <> RNone ->
        decode_consumables literal_eval (dict_get polled "116") = Ok current ->
        consumables self' = current).
Proof.
  intros Hip. rewrite async_update_steps by exact Hip. cbv zeta.
  unfold consumables_step. repeat split.
  - intros legacy current Hg Hx Dg Dx. rewrite Dg, Dx.
    destruct (dict_get polled "142"); [contradiction | ..];
      (destruct (dict_get polled "116"); [contradiction | reflexivity ..]).
  - intros legacy Hg Hx Dg. rewrite Dg, Hx.
    destruct (dict_get polled "142"); [contradiction | reflexivity ..].
  - intros current Hg Hx Dx. rewrite Dx, Hg.
    destruct (dict_get polled "116"); [contradiction | reflexivity ..].
Qed.

Lemma consumables_later_code_wins_witness :
  consumables (entity (snd (run (async_update sample_literal_eval polled_both)
                                (__init__ sample_item)))) = OInt 12
  /\ consumables (entity (snd (run (async_update sample_literal_eval
                                      polled_legacy_only)
                                   (__init__ sample_item)))) = OInt 86
  /\ consumables (entity (snd (run (async_update sample_literal_eval
                                      polled_current_only)
                                   (__init__ sample_item)))) = OInt 12.
Proof.
  assert (Hip : ip_address (__init__ sample_item) <> EmptyString)
    by (vm_compute; discriminate).
  split; [| split].
  - apply (proj1 (consumables_later_code_wins sample_literal_eval polled_both
                    {| entity := __init__ sample_item; sent := [] |} Hip)
             (OInt 86) (OInt 12));
      solve [vm_compute; discriminate | vm_compute; reflexivity].
  - apply (proj1 (proj2 (consumables_later_code_wins sample_literal_eval
                           polled_legacy_only
                           {| entity := __init__ sample_item; sent := [] |} Hip))
             (OInt 86));
      solve [vm_compute; discriminate | vm_compute; reflexivity].
  - apply (proj2 (proj2 (consumables_later_code_wins sample_literal_eval
                           polled_current_only
                           {| entity := __init__ sample_item; sent := [] |} Hip))
             (OInt 12));
      solve [vm_compute; discriminate | vm_compute; reflexivity].
Defined.

(** ** Fan speed *)

(** A poll from an entity with an address presents the aliased token,
    whether or not a consumables blob makes it raise afterwards. *)
Lemma async_update_fan_speed literal_eval polled w :
  ip_address (entity w) <> EmptyString ->
  fan_speed (entity (snd (async_update literal_eval polled w)))
  = fan_speed_read (dict_get polled TUYA_CODES.FAN_SPEED).
Proof.
  intros Hip. rewrite async_update_steps by exact Hip. cbv zeta.
  unfold consumables_step.
  destruct (is_None (dict_get polled "142"));
    [| destruct (decode_consumables literal_eval (dict_get polled "142"));
       [| reflexivity]];
    (destruct (is_None (dict_get polled "116"));
     [reflexivity
     | destruct (decode_consumables literal_eval (dict_get polled "116"));
       reflexivity]).
Qed.

Lemma async_set_fan_speed_sent literal_eval label polled w :
  sent (snd (async_set_fan_speed literal_eval label polled w))
  = sent w ++ [[("102", RStr (fan_speed_write label))]].
Proof.
  cbv [async_set_fan_speed mbind M_bind async_set].
  now rewrite async_update_sent.
Qed.

(** C4. For each pair of the alias table, setting the fan speed to the
    label writes the token of the pair under code "102", and a poll that
    reports this token presents the label again. *)
Theorem fan_speed_alias_round_trip literal_eval label token polled w polled' w' :
  In (label, token) FAN_SPEED_ALIASES ->
  ip_address (entity w') <> EmptyString ->
  dict_get polled' TUYA_CODES.FAN_SPEED = RStr token ->
  sent (snd (async_set_fan_speed literal_eval label polled w))
    = sent w ++ [[("102", RStr token)]]
  /\ fan_speed (entity (snd (async_update literal_eval polled' w')))
     = RStr label.
Proof.
  intros Hin Hip Hreported.
  rewrite async_set_fan_speed_sent, async_update_fan_speed by exact Hip.
  rewrite Hreported. unfold FAN_SPEED_ALIASES in Hin.
  repeat (destruct Hin as [Heq | Hin];
          [injection Heq as <- <-; split; reflexivity |]).
  destruct Hin.
Qed.

Lemma fan_speed_alias_round_trip_witness :
  sent (snd (run (async_set_fan_speed sample_literal_eval "Boost IQ" ∅)
                 (__init__ sample_item)))
    = [[("102", RStr "Boost_IQ")]]
  /\ fan_speed (entity (snd (run (async_update sample_literal_eval
                                    {[ "102" := RStr "Boost_IQ" ]})
                                 (__init__ sample_item))))
     = RStr "Boost IQ".
Proof.
  apply (fan_speed_alias_round_trip sample_literal_eval "Boost IQ" "Boost_IQ"
           ∅ {| entity := __init__ sample_item; sent := [] |}
           {[ "102" := RStr "Boost_IQ" ]}
           {| entity := __init__ sample_item; sent := [] |}).
  - simpl. tauto.
  - vm_compute. discriminate.
  - vm_compute. reflexivity.
Defined.

(** The tokens themselves are not labels: written unchanged, they read
    back as their labels. *)
Example fan_speed_token_as_label :
  fan_speed_read (RStr (fan_speed_write "Quiet")) = RStr "Pure".
Proof. reflexivity. Qed.

(** ** Commands *)

Lemma async_return_to_base_sent literal_eval polled w :
  sent (snd (async_return_to_base literal_eval polled w))
  = sent w ++ [[("101", RBool true)]].
Proof.
  cbv [async_return_to_base mbind M_bind async_set].
  now rewrite async_update_sent.
Qed.

(** C10. Stopping is returning to base: the same computation, whose only
    write is [True] under code "101". *)
Theorem stop_is_return_to_base literal_eval polled w :
  async_stop literal_eval polled w = async_return_to_base literal_eval polled w
  /\ sent (snd (async_stop literal_eval polled w))
     = sent w ++ [[("101", RBool true)]].
Proof.
  split; [reflexivity |]. apply async_return_to_base_sent.
Qed.

Example stop_sample :
  sent (snd (run (async_stop sample_literal_eval sleeping_no_error_code)
                 (__init__ sample_item))) = [[("101", RBool true)]].
Proof. vm_compute. reflexivity. Qed.

(** The do-not-disturb command is two calls of the transport, then a
    poll. *)
Lemma do_not_disturb_unfold literal_eval json_dumps params now polled w :
  async_send_command literal_eval json_dumps "doNotDisturb" params now polled w
  = async_update literal_eval polled
      {| entity := entity w;
         sent :=
           if truthy (do_not_disturb (entity w)) then
             (sent w ++ [[("139", RStr "MEQ4MDAwMDAw")]])
               ++ [[("107", RBool false)]]
           else
             (sent w ++ [[("139", RStr "MTAwMDAwMDAw")]])
               ++ [[("107", RBool true)]] |}.
Proof.
  unfold async_send_command.
  change (String.eqb "doNotDisturb" "edgeClean") with false.
  change (String.eqb "doNotDisturb" "smallRoomClean") with false.
  change (String.eqb "doNotDisturb" "autoClean") with false.
  change (String.eqb "doNotDisturb" "autoReturn") with false.
  change (String.eqb "doNotDisturb" "doNotDisturb") with true.
  cbv iota. unfold mbind, M_bind, get_self, async_set.
  destruct (truthy (do_not_disturb (entity w))); reflexivity.
Qed.

(** C3, as the code has it. Whatever the current do-not-disturb flag, the
    command hands the transport exactly two writes, each a call of its own
    carrying one data point: first the schedule blob under code "139", then
    the flag under code "107"; a set flag gives the blob "MEQ4MDAwMDAw"
    with [False], a clear flag gives "MTAwMDAwMDAw" with [True]. *)
Theorem do_not_disturb_two_calls literal_eval json_dumps params now polled w :
  sent (snd (async_send_command literal_eval json_dumps "doNotDisturb"
               params now polled w))
  = sent w ++
      (if truthy (do_not_disturb (entity w)) then
         [[("139", RStr "MEQ4MDAwMDAw")]; [("107", RBool false)]]
       else
         [[("139", RStr "MTAwMDAwMDAw")]; [("107", RBool true)]]).
Proof.
  rewrite do_not_disturb_unfold, async_update_sent. cbn [sent].
  destruct (truthy (do_not_disturb (entity w)));
    now rewrite <- app_assoc.
Qed.

(** C3, as stated, fails: the two writes are not in one write set, the
    transport is called twice with one data point each. *)
Lemma do_not_disturb_not_one_write_set :
  let calls :=
    sent (snd (run (async_send_command sample_literal_eval sample_json_dumps
                      "doNotDisturb" ONone 0 ∅) dnd_entity)) in
  calls = [[("139", RStr "MEQ4MDAwMDAw")]; [("107", RBool false)]]
  /\ ~ (exists dps, calls = [dps]).
Proof.
  cbv zeta.
  assert (H : sent (snd (run (async_send_command sample_literal_eval
                                sample_json_dumps "doNotDisturb" ONone 0 ∅)
                             dnd_entity))
              = [[("139", RStr "MEQ4MDAwMDAw")]; [("107", RBool false)]])
    by (vm_compute; reflexivity).
  split; [exact H |]. rewrite H. intros [dps Hdps]. discriminate Hdps.
Qed.

(** What [async_start] writes: the override for "room" looks at the
    attribute [status]; the raw state and the error code of the entity are
    not consulted. *)
Lemma async_start_cases host_status w :
  async_start host_status w =
    let written m :=
      (Ok tt, {| entity := set_attr_mode m (entity w);
                 sent := sent w ++ [[("5", m)]] |}) in
    let unchanged :=
      (Ok tt, {| entity := entity w;
                 sent := sent w ++ [[("5", mode (entity w))]] |}) in
    if py_eq (mode (entity w)) (RStr "Nosweep") then written (RStr "auto")
    else if py_eq (mode (entity w)) (RStr "room") then
      match host_status with
      | None => (Raise AttributeError, w)
      | Some s =>
          if py_eq s (RStr "Charging") || py_eq s (RStr "completed")
          then written (RStr "auto") else unchanged
      end
    else unchanged.
Proof.
  destruct w as [self log]. destruct self. run_methods.
  destruct (py_eq _attr_mode0 (RStr "Nosweep")); [reflexivity |].
  destruct (py_eq _attr_mode0 (RStr "room")); [| reflexivity].
  destruct host_status as [s |]; [| reflexivity].
  destruct (py_eq s (RStr "Charging") || py_eq s (RStr "completed"));
    reflexivity.
Qed.

(** C5. After a poll that reports the mode "room" and the raw state
    "Charging" the entity is docked, and the design wants "auto" written
    on start. [async_start] tests the attribute [status] instead, which no
    poll assigns: it raises [AttributeError] and writes nothing when the
    host's base class has no such attribute, and writes "room" when the
    host answers [None]. *)
Theorem async_start_room_while_charging :
  let self :=
    entity (snd (run (async_update sample_literal_eval room_while_charging)
                     (__init__ sample_item))) in
  mode self = RStr "room"
  /\ tuya_state self = RStr "Charging"
  /\ state self = STATE_DOCKED
  /\ run (async_start None) self
     = (Raise AttributeError, {| entity := self; sent := [] |})
  /\ sent (snd (run (async_start (Some RNone)) self)) = [[("5", RStr "room")]].
Proof. vm_compute. repeat split. Qed.

(** The two overrides that do not depend on [status] hold. *)
Lemma async_start_nosweep host_status w :
  mode (entity w) = RStr "Nosweep" ->
  sent (snd (async_start host_status w)) = sent w ++ [[("5", RStr "auto")]].
Proof.
  intros Hmode. rewrite async_start_cases. cbv zeta. rewrite Hmode.
  reflexivity.
Qed.

Lemma async_start_other_mode host_status w :
  py_eq (mode (entity w)) (RStr "Nosweep") = false ->
  py_eq (mode (entity w)) (RStr "room") = false ->
  sent (snd (async_start host_status w))
  = sent w ++ [[("5", mode (entity w))]].
Proof.
  intros Hn Hr. rewrite async_start_cases. cbv zeta. rewrite Hn, Hr.
  reflexivity.
Qed.

(** ** Interpretation and exposure *)

(** Every field a poll copies, given that the poll returns. *)
Lemma async_update_fields literal_eval polled w :
  ip_address (entity w) <> EmptyString ->
  fst (async_update literal_eval polled w) = Ok tt ->
  let self' := entity (snd (async_update literal_eval polled w)) in
  battery_level self' = dict_get polled TUYA_CODES.BATTERY_LEVEL
  /\ tuya_state self' = dict_get polled TUYA_CODES.STATE
  /\ error_code self' = dict_get polled TUYA_CODES.ERROR_CODE
  /\ mode self' = dict_get polled TUYA_CODES.MODE
  /\ fan_speed self' = fan_speed_read (dict_get polled TUYA_CODES.FAN_SPEED)
  /\ cleaning_area self' = dict_get polled TUYA_CODES.CLEANING_AREA
  /\ cleaning_time self' = dict_get polled TUYA_CODES.CLEANING_TIME
  /\ auto_return self' = dict_get polled TUYA_CODES.AUTO_RETURN
  /\ do_not_disturb self' = dict_get polled TUYA_CODES.DO_NOT_DISTURB
  /\ boost_iq self' = dict_get polled TUYA_CODES.BOOST_IQ
  /\ profile self' = profile (entity w).
Proof.
  intros Hip. rewrite async_update_steps by exact Hip. cbv zeta.
  unfold consumables_step.
  destruct (is_None (dict_get polled "142"));
    [| destruct (decode_consumables literal_eval (dict_get polled "142"));
       [| discriminate]];
    (destruct (is_None (dict_get polled "116"));
     [| destruct (decode_consumables literal_eval (dict_get polled "116"));
        [| discriminate]]);
    intros _; repeat split.
Qed.


Lemma lookup_if_insert_ne (b : bool) (k k' : string) (v : pyobj)
    (m : gmap string pyobj) :
  k <> k' -> (if b then <[k := v]> m else m) !! k' = m !! k'.
Proof.
  intros Hne. destruct b; [now rewrite lookup_insert_ne | reflexivity].
Qed.

Lemma lookup_if_insert_eq (b : bool) (k : string) (v : pyobj)
    (m : gmap string pyobj) :
  (if b then <[k := v]> m else m) !! k = if b then Some v else m !! k.
Proof.
  destruct b; [now rewrite lookup_insert_eq | reflexivity].
Qed.


Ltac other_key := unfold ATTR_ERROR, ATTR_BATTERY_LEVEL, ATTR_BATTERY_ICON,
  ATTR_FAN_SPEED, ATTR_STATUS, ATTR_CLEANING_AREA, ATTR_CLEANING_TIME,
  ATTR_AUTO_RETURN, ATTR_DO_NOT_DISTURB, ATTR_BOOST_IQ, ATTR_CONSUMABLES,
  ATTR_MODE; discriminate.

Ltac lookup_attributes :=
  repeat first
    [ rewrite lookup_if_insert_eq
    | rewrite lookup_if_insert_ne by other_key
    | rewrite lookup_insert_eq
    | rewrite lookup_insert_ne by other_key
    | rewrite lookup_empty ].






Example attributes_unknown_model :
  dom (extra_state_attributes (fun _ => ONone) (__init__ unknown_item))
  = {[ ATTR_ERROR; ATTR_MODE ]}.
Proof. vm_compute. reflexivity. Qed.

(** * Further properties *)

(** ** Before and between polls *)

(** X2. The state is the error state exactly when no raw state is held or
    the error code is none of [0], ["no_error"] (nor [False], which equals
    [0]). *)
Theorem state_error_iff self :
  state self = STATE_ERROR
  <-> tuya_state self = RNone
      \/ py_in (error_code self) [RInt 0; RStr "no_error"] = false.
Proof.
  rewrite state_unfold. split.
  - destruct (tuya_state self) eqn:Hs; [now left | ..];
      (destruct (py_in (error_code self) [RInt 0; RStr "no_error"]);
       [| now right]); cbn [is_None orb negb];
      repeat match goal with
      | |- context [if ?b then _ else _] => destruct b
      end; discriminate.
  - intros [-> | ->]; [reflexivity |]. now rewrite orb_true_r.
Qed.

(** X3. An entity without an address never takes a snapshot in: however
    often the host polls and whatever is fetched, every poll returns, and
    entity and transport log stay as they are. *)
Theorem no_address_never_updates literal_eval fetched w :
  ip_address (entity w) = EmptyString ->
  polls literal_eval fetched w = (Ok tt, w).
Proof.
  intros Hip. induction fetched as [| polled rest IH]; [reflexivity |].
  cbn [polls]. unfold mbind, M_bind.
  rewrite async_update_no_address by exact Hip. exact IH.
Qed.

Lemma no_address_never_updates_witness :
  let w := {| entity := __init__ unaddressed_item; sent := [] |} in
  polls sample_literal_eval [polled_both; polled_truncated] w = (Ok tt, w).
Proof.
  apply (no_address_never_updates sample_literal_eval
           [polled_both; polled_truncated]
           {| entity := __init__ unaddressed_item; sent := [] |}).
  reflexivity.
Defined.

(** ** What a poll keeps and what it overwrites *)

(** Running the methods with the tests already decided in the context. *)
Ltac run_equations :=
  run_methods;
  repeat match goal with
         | H : ?t = _ |- context [?t] => rewrite H; run_methods
         end.

(** X4. Polling the same snapshot a second time changes nothing more: the
    outcome and the entity are those of the first poll, also when the poll
    raises. *)
Theorem async_update_idempotent literal_eval polled w :
  async_update literal_eval polled (snd (async_update literal_eval polled w))
  = async_update literal_eval polled w.
Proof.
  destruct (String.eqb_spec (ip_address (entity w)) EmptyString) as [E | E].
  - rewrite (async_update_no_address _ _ w E). cbn [snd].
    now apply async_update_no_address.
  - destruct w as [self log]. destruct self.
    cbv [ip_address _attr_ip_address entity] in E.
    destruct (String.eqb _attr_ip_address0 EmptyString) eqn:Hip;
      [apply String.eqb_eq in Hip; contradiction |].
    destruct (is_None (dict_get polled "142")) eqn:Hg;
      destruct (is_None (dict_get polled "116")) eqn:Hx;
      destruct (decode_consumables literal_eval (dict_get polled "142"))
        eqn:Dg;
      destruct (decode_consumables literal_eval (dict_get polled "116"))
        eqn:Dx;
      run_equations; reflexivity.
Qed.

(** The entity after a poll does not depend on what was sent before. *)
Lemma async_update_frame literal_eval polled self log :
  async_update literal_eval polled {| entity := self; sent := log |}
  = (fst (async_update literal_eval polled {| entity := self; sent := [] |}),
     {| entity :=
          entity (snd (async_update literal_eval polled
                         {| entity := self; sent := [] |}));
        sent := log |}).
Proof.
  destruct (String.eqb_spec (ip_address self) EmptyString) as [E | E].
  - now rewrite !async_update_no_address by exact E.
  - rewrite !async_update_steps by exact E. cbv zeta. cbn [entity sent].
    destruct (consumables_step _ (dict_get polled "142") _); [| reflexivity].
    destruct (consumables_step _ (dict_get polled "116") _); reflexivity.
Qed.

(** X5. When the blob of code "142" is corrupt the poll stops half way:
    the plain data points of the snapshot are already stored and the
    snapshot is kept, while the boost flag, copied after the blob, and the
    consumables keep the values they had. *)
Theorem async_update_stops_half_way literal_eval polled w e :
  ip_address (entity w) <> EmptyString ->
  blob_corrupt literal_eval (dict_get polled "142") e ->
  let self' := entity (snd (async_update literal_eval polled w)) in
  fst (async_update literal_eval polled w) = Raise e
  /\ tuyastatus self' = Some polled
  /\ battery_level self' = dict_get polled TUYA_CODES.BATTERY_LEVEL
  /\ tuya_state self' = dict_get polled TUYA_CODES.STATE
  /\ error_code self' = dict_get polled TUYA_CODES.ERROR_CODE
  /\ mode self' = dict_get polled TUYA_CODES.MODE
  /\ do_not_disturb self' = dict_get polled TUYA_CODES.DO_NOT_DISTURB
  /\ boost_iq self' = boost_iq (entity w)
  /\ consumables self' = consumables (entity w).
Proof.
  intros Hip Hg. rewrite async_update_steps by exact Hip. cbv zeta.
  rewrite (consumables_step_corrupt literal_eval _ e _ Hg).
  repeat split.
Qed.

Lemma async_update_stops_half_way_witness :
  let w := {| entity := __init__ sample_item; sent := [] |} in
  let self' :=
    entity (snd (async_update sample_literal_eval polled_truncated w)) in
  fst (async_update sample_literal_eval polled_truncated w)
    = Raise binascii_Error
  /\ tuyastatus self' = Some polled_truncated
  /\ battery_level self' = dict_get polled_truncated TUYA_CODES.BATTERY_LEVEL
  /\ tuya_state self' = dict_get polled_truncated TUYA_CODES.STATE
  /\ error_code self' = dict_get polled_truncated TUYA_CODES.ERROR_CODE
  /\ mode self' = dict_get polled_truncated TUYA_CODES.MODE
  /\ do_not_disturb self'
     = dict_get polled_truncated TUYA_CODES.DO_NOT_DISTURB
  /\ boost_iq self' = boost_iq (__init__ sample_item)
  /\ consumables self' = consumables (__init__ sample_item).
Proof.
  apply (async_update_stops_half_way sample_literal_eval polled_truncated
           {| entity := __init__ sample_item; sent := [] |} binascii_Error).
  - vm_compute. discriminate.
  - unfold blob_corrupt.
    split; [vm_compute; discriminate | vm_compute; reflexivity].
Defined.

(** X6. A snapshot that reports neither consumables code leaves the
    duration decoded by an earlier poll in place. *)
Theorem async_update_keeps_old_consumables literal_eval polled w :
  ip_address (entity w) <> EmptyString ->
  dict_get polled "142" = RNone ->
  dict_get polled "116" = RNone ->
  fst (async_update literal_eval polled w) = Ok tt
  /\ consumables (entity (snd (async_update literal_eval polled w)))
     = consumables (entity w).
Proof.
  intros Hip Hg Hx. rewrite async_update_steps by exact Hip. cbv zeta.
  unfold consumables_step. rewrite Hg, Hx. split; reflexivity.
Qed.

Lemma async_update_keeps_old_consumables_witness :
  let w1 := snd (run (async_update sample_literal_eval polled_legacy_only)
                     (__init__ sample_item)) in
  consumables (entity w1) = OInt 86
  /\ fst (async_update sample_literal_eval sleeping_no_error_code w1) = Ok tt
  /\ consumables
       (entity (snd (async_update sample_literal_eval
                       sleeping_no_error_code w1)))
     = consumables (entity w1).
Proof.
  cbv zeta. split; [vm_compute; reflexivity |].
  apply (async_update_keeps_old_consumables sample_literal_eval
           sleeping_no_error_code
           (snd (run (async_update sample_literal_eval polled_legacy_only)
                     (__init__ sample_item)))).
  - vm_compute. discriminate.
  - vm_compute. reflexivity.
  - vm_compute. reflexivity.
Defined.

(** X7. A poll, whether it returns or raises, sends nothing to the device
    and leaves the configuration and the capability profile of the entity
    as they are. *)
Theorem async_update_keeps_identity literal_eval polled w :
  let w' := snd (async_update literal_eval polled w) in
  sent w' = sent w
  /\ _attr_name (entity w') = _attr_name (entity w)
  /\ _attr_unique_id (entity w') = _attr_unique_id (entity w)
  /\ model_code (entity w') = model_code (entity w)
  /\ ip_address (entity w') = ip_address (entity w)
  /\ access_token (entity w') = access_token (entity w)
  /\ profile (entity w') = profile (entity w).
Proof.
  cbv zeta.
  destruct (String.eqb_spec (ip_address (entity w)) EmptyString) as [E | E].
  - rewrite async_update_no_address by exact E. repeat split.
  - rewrite async_update_steps by exact E. cbv zeta.
    unfold consumables_step.
    destruct (is_None (dict_get polled "142"));
      [| destruct (decode_consumables literal_eval (dict_get polled "142"));
         [| repeat split]];
      (destruct (is_None (dict_get polled "116"));
       [repeat split
       | destruct (decode_consumables literal_eval (dict_get polled "116"));
         repeat split]).
Qed.

(** ** Commands *)

(** X8. Locating before the first poll raises: no snapshot is held yet, and
    nothing is sent. *)
Theorem async_locate_before_first_poll w :
  tuyastatus (entity w) = None ->
  async_locate w = (Raise AttributeError, w).
Proof.
  intros Hnone. unfold async_locate, tuyastatus_get, mbind, M_bind, get_self.
  now rewrite Hnone.
Qed.

Lemma async_locate_before_first_poll_witness :
  run async_locate (__init__ sample_item)
  = (Raise AttributeError, {| entity := __init__ sample_item; sent := [] |}).
Proof.
  apply (async_locate_before_first_poll
           {| entity := __init__ sample_item; sent := [] |}).
  reflexivity.
Defined.

Lemma async_locate_some w polled :
  tuyastatus (entity w) = Some polled ->
  async_locate w
  = (Ok tt,
     {| entity := entity w;
        sent := sent w
                ++ [[("103", RBool (negb (truthy (dict_get polled "103"))))]] |}).
Proof.
  intros Hsome.
  unfold async_locate, tuyastatus_get, mbind, M_bind, get_self, async_set.
  rewrite Hsome. cbv [mret M_ret].
  destruct (truthy (dict_get polled "103")); reflexivity.
Qed.

(** X9. Locating writes, under code "103", the negation of what the last
    polled snapshot holds there, and does not poll: a second locate without
    a poll in between writes the same value again. *)
Theorem async_locate_toggles_on_last_snapshot w polled :
  tuyastatus (entity w) = Some polled ->
  let value := RBool (negb (truthy (dict_get polled "103"))) in
  async_locate w
    = (Ok tt, {| entity := entity w; sent := sent w ++ [[("103", value)]] |})
  /\ (async_locate;; async_locate) w
     = (Ok tt, {| entity := entity w;
                  sent := sent w ++ [[("103", value)]; [("103", value)]] |}).
Proof.
  intros Hsome. cbv zeta. split; [now apply async_locate_some |].
  unfold mbind at 1. unfold M_bind.
  rewrite (async_locate_some w polled Hsome).
  rewrite (async_locate_some _ polled) by exact Hsome.
  cbn [entity sent]. now rewrite <- app_assoc.
Qed.

Lemma async_locate_toggles_on_last_snapshot_witness :
  let polled : gmap string raw := {[ "103" := RBool true ]} in
  let w := snd (run (async_update sample_literal_eval polled)
                    (__init__ sample_item)) in
  let value := RBool (negb (truthy (dict_get polled "103"))) in
  value = RBool false
  /\ async_locate w
     = (Ok tt, {| entity := entity w; sent := sent w ++ [[("103", value)]] |})
  /\ (async_locate;; async_locate) w
     = (Ok tt, {| entity := entity w;
                  sent := sent w ++ [[("103", value)]; [("103", value)]] |}).
Proof.
  cbv zeta. split; [vm_compute; reflexivity |].
  apply (async_locate_toggles_on_last_snapshot
           (snd (run (async_update sample_literal_eval
                        {[ "103" := RBool true ]}) (__init__ sample_item)))
           {[ "103" := RBool true ]}).
  vm_compute. reflexivity.
Defined.

(** X10. Starting and pausing do not poll. A start changes nothing of the
    entity but, when it overrides, the mode, and sends at most one data
    point, the mode under code "5"; a pause leaves the entity alone and
    sends [False] under code "2". *)
Theorem start_and_pause_do_not_poll host_status w :
  let w' := snd (async_start host_status w) in
  entity w' = set_attr_mode (mode (entity w')) (entity w)
  /\ (sent w' = sent w ++ [[("5", mode (entity w'))]]
      \/ (sent w' = sent w
          /\ fst (async_start host_status w) = Raise AttributeError))
  /\ async_pause w
     = (Ok tt, {| entity := entity w;
                  sent := sent w ++ [[("2", RBool false)]] |}).
Proof.
  cbv zeta. rewrite async_start_cases. cbv zeta.
  destruct w as [self log]. destruct self. cbn [entity sent].
  split; [| split; [| reflexivity]].
  - destruct (py_eq _ (RStr "Nosweep")); [reflexivity |].
    destruct (py_eq _ (RStr "room")); [| reflexivity].
    destruct host_status as [s |]; [| reflexivity].
    destruct (py_eq s (RStr "Charging") || py_eq s (RStr "completed"));
      reflexivity.
  - destruct (py_eq _ (RStr "Nosweep")); [left; reflexivity |].
    destruct (py_eq _ (RStr "room")); [| left; reflexivity].
    destruct host_status as [s |]; [| right; split; reflexivity].
    destruct (py_eq s (RStr "Charging") || py_eq s (RStr "completed"));
      left; reflexivity.
Qed.

(** X11. Returning to base, spot cleaning and setting the fan speed touch
    the entity through their closing poll only: outcome and entity are
    those of the poll alone, and exactly one data point is sent before
    it. *)
Theorem polling_commands_only_poll literal_eval label polled w :
  let polled_only := async_update literal_eval polled w in
  let same (m : M unit) (write : list (string * raw)) :=
    fst (m w) = fst polled_only
    /\ entity (snd (m w)) = entity (snd polled_only)
    /\ sent (snd (m w)) = sent w ++ [write] in
  same (async_return_to_base literal_eval polled) [("101", RBool true)]
  /\ same (async_clean_spot literal_eval polled) [("5", RStr "Spot")]
  /\ same (async_set_fan_speed literal_eval label polled)
          [("102", RStr (fan_speed_write label))].
Proof.
  cbv zeta. destruct w as [self log].
  cbv [async_return_to_base async_clean_spot async_set_fan_speed
       mbind M_bind async_set]. cbn [entity sent].
  rewrite !(async_update_frame literal_eval polled self (log ++ _)).
  rewrite (async_update_frame literal_eval polled self log).
  repeat split.
Qed.

(** [async_send_command] is its transport calls followed by a poll; a
    command that raises before any call sends nothing and does not poll. *)
Lemma async_send_command_calls literal_eval json_dumps command params now
    polled w :
  async_send_command literal_eval json_dumps command params now polled w =
    match command_writes json_dumps command params now (entity w) with
    | Ok calls =>
        async_update literal_eval polled
          {| entity := entity w; sent := sent w ++ calls |}
    | Raise e => (Raise e, w)
    end.
Proof.
  destruct w as [self log].
  cbv [async_send_command command_writes mbind M_bind result_bind get_self
       async_set lift mret M_ret entity sent].
  destruct (String.eqb command "edgeClean"); [reflexivity |].
  destruct (String.eqb command "smallRoomClean"); [reflexivity |].
  destruct (String.eqb command "autoClean"); [reflexivity |].
  destruct (String.eqb command "autoReturn");
    [destruct (truthy (auto_return self)); reflexivity |].
  destruct (String.eqb command "doNotDisturb");
    [destruct (truthy (do_not_disturb self)); now rewrite <- app_assoc |].
  destruct (String.eqb command "boostIQ");
    [destruct (truthy (boost_iq self)); reflexivity |].
  destruct (String.eqb command "roomClean").
  - destruct (params_get params "roomIds" (OList [OInt 1])); [| reflexivity].
    destruct (params_get params "count" (OInt 1)); [| reflexivity].
    destruct (json_dumps _); reflexivity.
  - now rewrite app_nil_r.
Qed.

Lemma async_send_command_sent literal_eval json_dumps command params now
    polled w calls :
  command_writes json_dumps command params now (entity w) = Ok calls ->
  sent (snd (async_send_command literal_eval json_dumps command params now
               polled w))
  = sent w ++ calls.
Proof.
  intros Hcalls. rewrite async_send_command_calls, Hcalls.
  now rewrite async_update_sent.
Qed.

Lemma auto_return_calls literal_eval json_dumps params now polled w :
  async_send_command literal_eval json_dumps "autoReturn" params now polled w
  = async_update literal_eval polled
      {| entity := entity w;
         sent := sent w
                 ++ [[("135", RBool (negb (truthy (auto_return (entity w)))))]]
      |}.
Proof. now rewrite async_send_command_calls. Qed.

(** The flag a poll with an address stores, also when a blob makes it
    raise afterwards. *)
Lemma async_update_auto_return literal_eval polled w :
  ip_address (entity w) <> EmptyString ->
  auto_return (entity (snd (async_update literal_eval polled w)))
  = dict_get polled TUYA_CODES.AUTO_RETURN.
Proof.
  intros Hip. rewrite async_update_steps by exact Hip. cbv zeta.
  unfold consumables_step.
  destruct (is_None (dict_get polled "142"));
    [| destruct (decode_consumables literal_eval (dict_get polled "142"));
       [| reflexivity]];
    (destruct (is_None (dict_get polled "116"));
     [reflexivity
     | destruct (decode_consumables literal_eval (dict_get polled "116"));
       reflexivity]).
Qed.

(** X12. The auto-return and boost toggles write the negation of the
    truth value of the flag the entity holds, under codes "135" and "118",
    one data point each. *)
Theorem toggles_write_negation literal_eval json_dumps params now polled w :
  sent (snd (async_send_command literal_eval json_dumps "autoReturn" params
               now polled w))
    = sent w ++ [[("135", RBool (negb (truthy (auto_return (entity w)))))]]
  /\ sent (snd (async_send_command literal_eval json_dumps "boostIQ" params
                  now polled w))
     = sent w ++ [[("118", RBool (negb (truthy (boost_iq (entity w)))))]].
Proof.
  split; now apply async_send_command_sent.
Qed.

(** X13. Toggling auto-return twice, the device reporting the written flag
    back in the poll that closes the first toggle, writes the flag negated
    and then the flag as it was. Without an address the closing poll takes
    nothing in and both toggles write the same value. *)
Theorem auto_return_toggled_twice literal_eval json_dumps params now polled
    polled' w :
  let flag := truthy (auto_return (entity w)) in
  let toggle p :=
    async_send_command literal_eval json_dumps "autoReturn" params now p in
  let w1 := snd (toggle polled w) in
  let w2 := snd (toggle polled' w1) in
  (ip_address (entity w) <> EmptyString ->
   dict_get polled TUYA_CODES.AUTO_RETURN = RBool (negb flag) ->
   sent w2 = sent w ++ [[("135", RBool (negb flag))]; [("135", RBool flag)]])
  /\ (ip_address (entity w) = EmptyString ->
      sent w2
      = sent w ++ [[("135", RBool (negb flag))]; [("135", RBool (negb flag))]]).
Proof.
  cbv zeta. rewrite !auto_return_calls, !async_update_sent. cbn [sent].
  split.
  - intros Hip Hecho.
    rewrite async_update_auto_return by exact Hip.
    rewrite Hecho. cbn [truthy]. rewrite negb_involutive.
    now rewrite <- app_assoc.
  - intros Hip. rewrite async_update_no_address by exact Hip.
    cbn [snd entity]. now rewrite <- app_assoc.
Qed.

Lemma auto_return_toggled_twice_witness :
  let toggle p :=
    async_send_command sample_literal_eval sample_json_dumps "autoReturn"
      ONone 0 p in
  sent (snd (toggle ∅ (snd (toggle {[ "135" := RBool true ]}
                              {| entity := __init__ sample_item;
                                 sent := [] |}))))
    = [[("135", RBool true)]; [("135", RBool false)]]
  /\ sent (snd (toggle ∅ (snd (toggle {[ "135" := RBool true ]}
                                 {| entity := __init__ unaddressed_item;
                                    sent := [] |}))))
     = [[("135", RBool true)]; [("135", RBool true)]].
Proof.
  cbv zeta. split.
  - apply (proj1 (auto_return_toggled_twice sample_literal_eval
                    sample_json_dumps ONone 0 {[ "135" := RBool true ]} ∅
                    {| entity := __init__ sample_item; sent := [] |})).
    + vm_compute. discriminate.
    + vm_compute. reflexivity.
  - apply (proj2 (auto_return_toggled_twice sample_literal_eval
                    sample_json_dumps ONone 0 {[ "135" := RBool true ]} ∅
                    {| entity := __init__ unaddressed_item; sent := [] |})).
    vm_compute. reflexivity.
Defined.

(** ** Transport-safe text, both ways *)

Lemma all_bytes_spec (P : N -> bool) :
  forallb P all_bytes = true -> forall a : ascii, P (N_of_ascii a) = true.
Proof.
  intros Hall a. rewrite forallb_forall in Hall. apply Hall.
  unfold all_bytes. apply in_map_iff. exists (N.to_nat (N_of_ascii a)).
  split; [apply N2Nat.id |]. apply in_seq.
  pose proof (N_ascii_bounded a). lia.
Qed.

Lemma all_bytes_spec2 (P : N -> N -> bool) :
  forallb (fun x => forallb (P x) all_bytes) all_bytes = true ->
  forall a b : ascii, P (N_of_ascii a) (N_of_ascii b) = true.
Proof.
  intros Hall a b.
  apply (all_bytes_spec (P (N_of_ascii a))).
  apply (all_bytes_spec (fun x => forallb (P x) all_bytes) Hall a).
Qed.

(** A character of the alphabet is read back as its value, is no pad and
    is ASCII. *)
Lemma b64_char_value v :
  (v < 64)%N ->
  b64_value (b64_char v) = Some v
  /\ Ascii.eqb (b64_char v) "="%char = false
  /\ is_ascii (b64_char v) = true.
Proof.
  intros Hv.
  assert (Hall :
    forallb (fun v => match b64_value (b64_char v) with
                      | Some u => N.eqb u v
                      | None => false
                      end
                      && negb (Ascii.eqb (b64_char v) "="%char)
                      && is_ascii (b64_char v))
            (map N.of_nat (seq 0 64)) = true) by (vm_compute; reflexivity).
  rewrite forallb_forall in Hall.
  specialize (Hall v). cbv beta in Hall.
  assert (Hin : In v (map N.of_nat (seq 0 64))).
  { apply in_map_iff. exists (N.to_nat v). split; [apply N2Nat.id |].
    apply in_seq. lia. }
  specialize (Hall Hin).
  apply andb_prop in Hall as [Hall Hascii].
  apply andb_prop in Hall as [Hvalue Hpad].
  destruct (b64_value (b64_char v)) as [u |]; [| discriminate].
  apply N.eqb_eq in Hvalue as ->.
  apply negb_true_iff in Hpad. auto.
Qed.

(** The six-bit groups of one, two and three bytes are below 64. *)
Lemma sextets_below (a b : ascii) :
  let x := N_of_ascii a in
  let y := N_of_ascii b in
  (N.shiftr x 2 < 64
   /\ N.shiftl (N.land x 3) 4 < 64
   /\ N.lor (N.shiftl (N.land x 3) 4) (N.shiftr y 4) < 64
   /\ N.shiftl (N.land y 15) 2 < 64
   /\ N.lor (N.shiftl (N.land y 15) 2) (N.shiftr x 6) < 64
   /\ N.land x 63 < 64)%N.
Proof.
  cbv zeta.
  pose proof (all_bytes_spec2
    (fun x y =>
       (N.shiftr x 2 <? 64) && (N.shiftl (N.land x 3) 4 <? 64)
       && (N.lor (N.shiftl (N.land x 3) 4) (N.shiftr y 4) <? 64)
       && (N.shiftl (N.land y 15) 2 <? 64)
       && (N.lor (N.shiftl (N.land y 15) 2) (N.shiftr x 6) <? 64)
       && (N.land x 63 <? 64))%N
    ltac:(vm_compute; reflexivity) a b) as H.
  cbv beta in H.
  repeat (apply andb_prop in H as [H ?]).
  repeat split; now apply N.ltb_lt.
Qed.

(** One step of the decoder on a character of the alphabet. *)
Lemma a2b_base64_step v rest quad_pos leftchar pads out :
  (v < 64)%N ->
  a2b_base64_loop (b64_char v :: rest) quad_pos leftchar pads out =
    match quad_pos with
    | 0%nat => a2b_base64_loop rest 1 v 0 out
    | 1%nat =>
        a2b_base64_loop rest 2 (N.land v 15) 0
          (byte_of (N.lor (N.shiftl leftchar 2) (N.shiftr v 4)) :: out)
    | 2%nat =>
        a2b_base64_loop rest 3 (N.land v 3) 0
          (byte_of (N.lor (N.shiftl leftchar 4) (N.shiftr v 2)) :: out)
    | _ =>
        a2b_base64_loop rest 0 0 0
          (byte_of (N.lor (N.shiftl leftchar 6) v) :: out)
    end.
Proof.
  intros Hv. destruct (b64_char_value v Hv) as (Hvalue & Hpad & _).
  cbn [a2b_base64_loop]. rewrite Hpad, Hvalue. reflexivity.
Qed.

Lemma byte_of_N_of_ascii (n : N) (a : ascii) :
  N.eqb (n mod 256) (N_of_ascii a) = true -> byte_of n = a.
Proof.
  intros H. apply N.eqb_eq in H. unfold byte_of. rewrite H.
  apply ascii_N_embedding.
Qed.

(** The bytes put together again from the six-bit groups. *)
Lemma first_byte (a b : ascii) :
  let x := N_of_ascii a in
  let y := N_of_ascii b in
  byte_of (N.lor (N.shiftl (N.shiftr x 2) 2)
                 (N.shiftr (N.lor (N.shiftl (N.land x 3) 4) (N.shiftr y 4)) 4))
  = a
  /\ byte_of (N.lor (N.shiftl (N.shiftr x 2) 2)
                    (N.shiftr (N.shiftl (N.land x 3) 4) 4)) = a.
Proof.
  cbv zeta. split; apply byte_of_N_of_ascii.
  - apply (all_bytes_spec2
      (fun x y =>
         N.eqb (N.lor (N.shiftl (N.shiftr x 2) 2)
                  (N.shiftr (N.lor (N.shiftl (N.land x 3) 4) (N.shiftr y 4)) 4)
                mod 256) x)
      ltac:(vm_compute; reflexivity) a b).
  - apply (all_bytes_spec
      (fun x =>
         N.eqb (N.lor (N.shiftl (N.shiftr x 2) 2)
                  (N.shiftr (N.shiftl (N.land x 3) 4) 4) mod 256) x)
      ltac:(vm_compute; reflexivity) a).
Qed.

Lemma second_byte (a b c : ascii) :
  let x := N_of_ascii a in
  let y := N_of_ascii b in
  let z := N_of_ascii c in
  byte_of
    (N.lor
       (N.shiftl
          (N.land (N.lor (N.shiftl (N.land x 3) 4) (N.shiftr y 4)) 15) 4)
       (N.shiftr (N.lor (N.shiftl (N.land y 15) 2) (N.shiftr z 6)) 2)) = b
  /\ byte_of
       (N.lor
          (N.shiftl
             (N.land (N.lor (N.shiftl (N.land x 3) 4) (N.shiftr y 4)) 15) 4)
          (N.shiftr (N.shiftl (N.land y 15) 2) 2)) = b.
Proof.
  cbv zeta.
  assert (Hhigh :
    N.land (N.lor (N.shiftl (N.land (N_of_ascii a) 3) 4)
                  (N.shiftr (N_of_ascii b) 4)) 15
    = N.shiftr (N_of_ascii b) 4).
  { apply N.eqb_eq.
    apply (all_bytes_spec2
      (fun x y =>
         N.eqb (N.land (N.lor (N.shiftl (N.land x 3) 4) (N.shiftr y 4)) 15)
               (N.shiftr y 4))
      ltac:(vm_compute; reflexivity) a b). }
  assert (Hlow :
    N.shiftr (N.lor (N.shiftl (N.land (N_of_ascii b) 15) 2)
                    (N.shiftr (N_of_ascii c) 6)) 2
    = N.land (N_of_ascii b) 15).
  { apply N.eqb_eq.
    apply (all_bytes_spec2
      (fun y z =>
         N.eqb (N.shiftr (N.lor (N.shiftl (N.land y 15) 2) (N.shiftr z 6)) 2)
               (N.land y 15))
      ltac:(vm_compute; reflexivity) b c). }
  assert (Hlow' :
    N.shiftr (N.shiftl (N.land (N_of_ascii b) 15) 2) 2
    = N.land (N_of_ascii b) 15).
  { apply N.eqb_eq.
    apply (all_bytes_spec
      (fun y => N.eqb (N.shiftr (N.shiftl (N.land y 15) 2) 2) (N.land y 15))
      ltac:(vm_compute; reflexivity) b). }
  rewrite Hhigh, Hlow, Hlow'.
  split; apply byte_of_N_of_ascii;
    apply (all_bytes_spec
      (fun y =>
         N.eqb (N.lor (N.shiftl (N.shiftr y 4) 4) (N.land y 15) mod 256) y)
      ltac:(vm_compute; reflexivity) b).
Qed.

Lemma third_byte (b c : ascii) :
  let y := N_of_ascii b in
  let z := N_of_ascii c in
  byte_of
    (N.lor
       (N.shiftl
          (N.land (N.lor (N.shiftl (N.land y 15) 2) (N.shiftr z 6)) 3) 6)
       (N.land z 63)) = c.
Proof.
  cbv zeta. apply byte_of_N_of_ascii.
  apply (all_bytes_spec2
    (fun y z =>
       N.eqb (N.lor
                (N.shiftl
                   (N.land (N.lor (N.shiftl (N.land y 15) 2) (N.shiftr z 6)) 3)
                   6)
                (N.land z 63) mod 256) z)
    ltac:(vm_compute; reflexivity) b c).
Qed.

Lemma list_ind3 {A : Type} (P : list A -> Prop) :
  P [] -> (forall a, P [a]) -> (forall a b, P [a; b]) ->
  (forall a b c l, P l -> P (a :: b :: c :: l)) ->
  forall l, P l.
Proof.
  intros H0 H1 H2 H3 l.
  enough (H : P l /\ (forall a, P (a :: l)) /\ (forall a b, P (a :: b :: l)))
    by apply H.
  induction l as [| x l (IH0 & IH1 & IH2)]; [auto |].
  repeat split; auto.
Qed.

(** Decoding what [b64encode] gives returns the bytes. *)
Lemma a2b_base64_b64encode data out :
  a2b_base64_loop (b64encode data) 0 0 0 out = Ok (rev out ++ data).
Proof.
  revert out. induction data as [| a | a b | a b c l IH] using list_ind3;
    intros out.
  - cbn. now rewrite app_nil_r.
  - cbn [b64encode].
    destruct (sextets_below a a) as (H0 & H1 & _).
    rewrite !a2b_base64_step by assumption.
    rewrite (proj2 (first_byte a a)). reflexivity.
  - cbn [b64encode].
    destruct (sextets_below a b) as (H0 & _ & H1 & H2 & _).
    rewrite !a2b_base64_step by assumption.
    rewrite (proj1 (first_byte a b)), (proj2 (second_byte a b b)).
    cbn. now rewrite <- app_assoc.
  - cbn [b64encode].
    destruct (sextets_below a b) as (H0 & _ & H1 & _).
    destruct (sextets_below c b) as (_ & _ & _ & _ & H2 & H3).
    rewrite !a2b_base64_step by assumption.
    rewrite (proj1 (first_byte a b)), (proj1 (second_byte a b c)),
      (third_byte b c).
    rewrite IH. cbn [rev]. now rewrite <- !app_assoc.
Qed.

Lemma b64encode_ascii data : forallb is_ascii (b64encode data) = true.
Proof.
  induction data as [| a | a b | a b c l IH] using list_ind3.
  - reflexivity.
  - cbn [b64encode forallb].
    destruct (sextets_below a a) as (H0 & H1 & _).
    rewrite (proj2 (proj2 (b64_char_value _ H0))),
      (proj2 (proj2 (b64_char_value _ H1))). reflexivity.
  - cbn [b64encode forallb].
    destruct (sextets_below a b) as (H0 & _ & H1 & H2 & _).
    rewrite (proj2 (proj2 (b64_char_value _ H0))),
      (proj2 (proj2 (b64_char_value _ H1))),
      (proj2 (proj2 (b64_char_value _ H2))). reflexivity.
  - cbn [b64encode forallb].
    destruct (sextets_below a b) as (H0 & _ & H1 & _).
    destruct (sextets_below c b) as (_ & _ & _ & _ & H2 & H3).
    rewrite (proj2 (proj2 (b64_char_value _ H0))),
      (proj2 (proj2 (b64_char_value _ H1))),
      (proj2 (proj2 (b64_char_value _ H2))),
      (proj2 (proj2 (b64_char_value _ H3))). exact IH.
Qed.

Lemma b64decode_b64encode data :
  b64decode (RStr (string_of_list_ascii (b64encode data))) = Ok data.
Proof.
  unfold b64decode. rewrite list_ascii_of_string_of_list_ascii.
  rewrite b64encode_ascii. unfold a2b_base64.
  now rewrite a2b_base64_b64encode.
Qed.

(** ** Named commands *)

(** X14. A room clean whose parameters are no dictionary, the default
    [None] included, raises [AttributeError]: nothing is sent, no poll
    follows, the entity is as before. *)
Theorem room_clean_without_dictionary literal_eval json_dumps params now
    polled w :
  (forall items, params <> ODict items) ->
  async_send_command literal_eval json_dumps "roomClean" params now polled w
  = (Raise AttributeError, w).
Proof.
  intros Hparams. rewrite async_send_command_calls.
  destruct params; try reflexivity.
  now contradiction (Hparams items).
Qed.

Lemma room_clean_without_dictionary_witness :
  async_send_command sample_literal_eval sample_json_dumps "roomClean" ONone
    0 polled_both {| entity := __init__ sample_item; sent := [] |}
  = (Raise AttributeError, {| entity := __init__ sample_item; sent := [] |}).
Proof.
  apply (room_clean_without_dictionary sample_literal_eval sample_json_dumps
           ONone 0 polled_both
           {| entity := __init__ sample_item; sent := [] |}).
  intros items. discriminate.
Defined.

(** X15. A room clean with a dictionary of parameters sends one data
    point under code "124": the base64 text of the serialized request
    [{method, data: {roomIds, cleanTimes}, timestamp}], in which a missing
    "roomIds" is [[1]] and a missing "count" is [1]; decoding the blob
    gives the serialized text back. *)
Theorem room_clean_request literal_eval json_dumps items now polled w text :
  let request :=
    ODict [(OStr "method", OStr "selectRoomsClean");
           (OStr "data",
            ODict [(OStr "roomIds",
                    default (OList [OInt 1]) (dict_lookup items "roomIds"));
                   (OStr "cleanTimes",
                    default (OInt 1) (dict_lookup items "count"))]);
           (OStr "timestamp", OInt now)] in
  json_dumps request = Ok text ->
  exists blob,
    sent (snd (async_send_command literal_eval json_dumps "roomClean"
                 (ODict items) now polled w))
      = sent w ++ [[("124", RStr blob)]]
    /\ b64decode (RStr blob) = Ok (list_ascii_of_string text).
Proof.
  cbv zeta. intros Hdumps.
  exists (string_of_list_ascii (b64encode (list_ascii_of_string text))).
  split; [| apply b64decode_b64encode].
  apply async_send_command_sent.
  unfold command_writes.
  change (String.eqb "roomClean" "edgeClean") with false.
  change (String.eqb "roomClean" "smallRoomClean") with false.
  change (String.eqb "roomClean" "autoClean") with false.
  change (String.eqb "roomClean" "autoReturn") with false.
  change (String.eqb "roomClean" "doNotDisturb") with false.
  change (String.eqb "roomClean" "boostIQ") with false.
  change (String.eqb "roomClean" "roomClean") with true.
  cbv iota. unfold params_get, mbind, result_bind.
  now rewrite Hdumps.
Qed.

Lemma room_clean_request_witness :
  exists blob,
    sent (snd (async_send_command sample_literal_eval sample_json_dumps
                 "roomClean" (ODict [(OStr "roomIds", OList [OInt 2; OInt 3])])
                 1700000000000 polled_both
                 {| entity := __init__ sample_item; sent := [] |}))
      = [] ++ [[("124", RStr blob)]]
    /\ b64decode (RStr blob)
       = Ok (list_ascii_of_string
               (match sample_json_dumps
                        (ODict [(OStr "method", OStr "selectRoomsClean");
                                (OStr "data",
                                 ODict [(OStr "roomIds", OList [OInt 2; OInt 3]);
                                        (OStr "cleanTimes", OInt 1)]);
                                (OStr "timestamp", OInt 1700000000000)])
                with
                | Ok text => text
                | Raise _ => EmptyString
                end)).
Proof.
  apply (room_clean_request sample_literal_eval sample_json_dumps
           [(OStr "roomIds", OList [OInt 2; OInt 3])] 1700000000000
           polled_both {| entity := __init__ sample_item; sent := [] |}).
  vm_compute. reflexivity.
Defined.

(** X16. A command of another name sends nothing, and is still followed by
    the poll. *)
Theorem unknown_command_only_polls literal_eval json_dumps command params now
    polled w :
  ~ In command COMMANDS ->
  async_send_command literal_eval json_dumps command params now polled w
  = async_update literal_eval polled w.
Proof.
  intros Hnew. rewrite async_send_command_calls. unfold command_writes.
  repeat match goal with
         | |- context [String.eqb command ?name] =>
             destruct (String.eqb_spec command name) as [-> | _];
             [exfalso; apply Hnew; unfold COMMANDS; simpl; tauto |]
         end.
  destruct w as [self log]. cbn [entity sent]. now rewrite app_nil_r.
Qed.

Lemma unknown_command_only_polls_witness :
  async_send_command sample_literal_eval sample_json_dumps "spotClean" ONone
    0 polled_both {| entity := __init__ sample_item; sent := [] |}
  = async_update sample_literal_eval polled_both
      {| entity := __init__ sample_item; sent := [] |}.
Proof.
  apply (unknown_command_only_polls sample_literal_eval sample_json_dumps
           "spotClean" ONone 0 polled_both
           {| entity := __init__ sample_item; sent := [] |}).
  unfold COMMANDS. simpl. intros H.
  repeat (destruct H as [H | H]; [discriminate H |]). exact H.
Defined.

(** X17. No command looks at the capability profile: two entities that
    agree on the three toggled flags are sent the same data points for the
    same command, whatever their model. *)
Theorem commands_ignore_profile literal_eval json_dumps command params now
    polled polled' w w' :
  auto_return (entity w) = auto_return (entity w') ->
  do_not_disturb (entity w) = do_not_disturb (entity w') ->
  boost_iq (entity w) = boost_iq (entity w') ->
  sent w = sent w' ->
  sent (snd (async_send_command literal_eval json_dumps command params now
               polled w))
  = sent (snd (async_send_command literal_eval json_dumps command params now
                 polled' w')).
Proof.
  intros Hauto Hdnd Hboost Hsent.
  rewrite !async_send_command_calls.
  replace (command_writes json_dumps command params now (entity w'))
    with (command_writes json_dumps command params now (entity w))
    by (unfold command_writes; now rewrite Hauto, Hdnd, Hboost).
  destruct (command_writes json_dumps command params now (entity w));
    [| exact Hsent].
  rewrite !async_update_sent. cbn [sent]. now rewrite Hsent.
Qed.

Lemma commands_ignore_profile_witness :
  sent (snd (async_send_command sample_literal_eval sample_json_dumps
               "boostIQ" ONone 0 ∅
               {| entity := __init__ sample_item; sent := [] |}))
  = sent (snd (async_send_command sample_literal_eval sample_json_dumps
                 "boostIQ" ONone 0 polled_both
                 {| entity := __init__ unknown_item; sent := [] |})).
Proof.
  apply (commands_ignore_profile sample_literal_eval sample_json_dumps
           "boostIQ" ONone 0 ∅ polled_both
           {| entity := __init__ sample_item; sent := [] |}
           {| entity := __init__ unknown_item; sent := [] |});
    reflexivity.
Defined.

(** ** Exposed attributes *)

Lemma status_attribute_lookup battery_icon self :
  extra_state_attributes battery_icon self !! ATTR_STATUS
  = if has_flag (supported_features self) VacuumEntityFeature.STATUS
    then Some (OStr (state self)) else None.
Proof.
  unfold extra_state_attributes.
  destruct (has_flag (supported_features self) VacuumEntityFeature.BATTERY);
    lookup_attributes; reflexivity.
Qed.

(** A poll leaves the capability profile alone, also when it raises. *)
Lemma async_update_profile literal_eval polled w :
  profile (entity (snd (async_update literal_eval polled w)))
  = profile (entity w).
Proof.
  destruct (String.eqb_spec (ip_address (entity w)) EmptyString) as [E | E].
  - now rewrite async_update_no_address.
  - rewrite async_update_steps by exact E. cbv zeta.
    unfold consumables_step.
    destruct (is_None (dict_get polled "142"));
      [| destruct (decode_consumables literal_eval (dict_get polled "142"));
         [| reflexivity]];
      (destruct (is_None (dict_get polled "116"));
       [reflexivity
       | destruct (decode_consumables literal_eval (dict_get polled "116"));
         reflexivity]).
Qed.

(** X18. The generic attributes are gated by the control surface: the
    battery level and the battery icon are exposed together, exactly under
    the BATTERY flag, the fan speed exactly under FAN_SPEED and the status,
    which is the lifecycle state, exactly under STATUS; no key other than
    the twelve attribute names is ever exposed. *)
Theorem generic_attributes_gated battery_icon self :
  let data := extra_state_attributes battery_icon self in
  let gated flag v :=
    if has_flag (supported_features self) flag then Some v else None in
  data !! ATTR_BATTERY_LEVEL
    = gated VacuumEntityFeature.BATTERY (of_raw (battery_level self))
  /\ data !! ATTR_BATTERY_ICON
     = gated VacuumEntityFeature.BATTERY (battery_icon self)
  /\ data !! ATTR_FAN_SPEED
     = gated VacuumEntityFeature.FAN_SPEED (of_raw (fan_speed self))
  /\ data !! ATTR_STATUS
     = gated VacuumEntityFeature.STATUS (OStr (state self))
  /\ (forall key, ~ In key ATTRIBUTE_KEYS -> data !! key = None).
Proof.
  cbv zeta. unfold extra_state_attributes.
  destruct (has_flag (supported_features self) VacuumEntityFeature.BATTERY);
    (repeat apply conj;
     [lookup_attributes; reflexivity ..
     | intros key Hkey; unfold ATTRIBUTE_KEYS in Hkey;
       repeat first
         [ rewrite lookup_if_insert_ne
             by (intros <-; apply Hkey; simpl; tauto)
         | rewrite lookup_insert_ne
             by (intros <-; apply Hkey; simpl; tauto) ];
       apply lookup_empty]).
Qed.

Lemma init_supported_features item :
  supported_features (__init__ item) = 0
  \/ supported_features (__init__ item) = 14204
  \/ supported_features (__init__ item) = 16252.
Proof.
  pose proof (profile_by_prefix item) as H. cbv zeta in H.
  unfold profile in H.
  destruct (str_in _ C_SERIES); [injection H as _ _ ->; auto |].
  destruct (str_in _ G_SERIES); [injection H as _ _ ->; auto |].
  destruct (str_in _ X_SERIES); injection H as _ _ ->; auto.
Qed.

(** X19. No family sets the STATUS flag (the families set STATE), and a
    poll leaves the profile alone: an entity as built, or polled once, never
    exposes the key "status". *)
Theorem status_never_exposed literal_eval battery_icon item polled :
  extra_state_attributes battery_icon (__init__ item) !! ATTR_STATUS = None
  /\ extra_state_attributes battery_icon
       (entity (snd (run (async_update literal_eval polled) (__init__ item))))
     !! ATTR_STATUS = None.
Proof.
  assert (Hflag : has_flag (supported_features (__init__ item))
                           VacuumEntityFeature.STATUS = false).
  { destruct (init_supported_features item) as [-> | [-> | ->]];
      reflexivity. }
  rewrite !status_attribute_lookup. split; [now rewrite Hflag |].
  pose proof (async_update_profile literal_eval polled
                {| entity := __init__ item; sent := [] |}) as Hkeep.
  unfold profile in Hkeep. injection Hkeep as _ _ Hkeep.
  unfold run. now rewrite Hkeep, Hflag.
Qed.

(** ** Error text, vocabulary and family tables *)

(** X20. Outside the error state the exposed error is the raw sentinel
    itself, never a message: the codes that leave the state alone are no
    keys of the message table. *)
Theorem error_attribute_outside_error_state self :
  state self <> STATE_ERROR ->
  describe (error_code self) = error_code self.
Proof.
  intros Hstate. rewrite state_unfold in Hstate.
  destruct (py_in (error_code self) [RInt 0; RStr "no_error"]) eqn:Hin;
    [| now rewrite orb_true_r in Hstate].
  unfold py_in in Hin. cbn [existsb] in Hin. rewrite orb_false_r in Hin.
  apply orb_prop in Hin as [Hin | Hin];
    destruct (error_code self) as [| [|] | n | s]; try discriminate Hin;
    cbn [py_eq] in Hin; try reflexivity.
  - apply Z.eqb_eq in Hin as ->. reflexivity.
  - apply String.eqb_eq in Hin as ->. reflexivity.
Qed.

Lemma error_attribute_outside_error_state_witness :
  let self :=
    entity (snd (run (async_update sample_literal_eval room_while_charging)
                     (__init__ sample_item))) in
  describe (error_code self) = error_code self.
Proof.
  apply (error_attribute_outside_error_state
           (entity (snd (run (async_update sample_literal_eval
                                room_while_charging)
                             (__init__ sample_item))))).
  vm_compute. discriminate.
Defined.

Lemma init_fan_speed_list item :
  fan_speed_list (__init__ item) = ["No Suction"; "Standard"; "Boost IQ"; "Max"]
  \/ fan_speed_list (__init__ item) = ["Standard"; "Turbo"; "Max"; "Boost IQ"]
  \/ fan_speed_list (__init__ item) = ["Pure"; "Standard"; "Turbo"; "Max"]
  \/ fan_speed_list (__init__ item) = ["Standard"].
Proof.
  pose proof (profile_by_prefix item) as H. cbv zeta in H.
  unfold profile in H.
  destruct (str_in _ C_SERIES); [injection H as -> _ _; auto |].
  destruct (str_in _ G_SERIES); [injection H as -> _ _; auto |].
  destruct (str_in _ X_SERIES); injection H as -> _ _; auto.
Qed.

(** X21. Every label of the fan-speed vocabulary of every model survives
    the way to the device and back: what setting it writes under code
    "102", a poll reporting that token presents as the same label. *)
Theorem vocabulary_round_trip literal_eval item label polled w polled' w' :
  In label (fan_speed_list (__init__ item)) ->
  ip_address (entity w') <> EmptyString ->
  dict_get polled' TUYA_CODES.FAN_SPEED = RStr (fan_speed_write label) ->
  sent (snd (async_set_fan_speed literal_eval label polled w))
    = sent w ++ [[("102", RStr (fan_speed_write label))]]
  /\ fan_speed (entity (snd (async_update literal_eval polled' w')))
     = RStr label.
Proof.
  intros Hin Hip Hreported.
  rewrite async_set_fan_speed_sent, async_update_fan_speed by exact Hip.
  rewrite Hreported. split; [reflexivity |].
  destruct (init_fan_speed_list item) as [H | [H | [H | H]]];
    rewrite H in Hin; simpl in Hin;
    repeat (destruct Hin as [<- | Hin]; [reflexivity |]); destruct Hin.
Qed.

Lemma vocabulary_round_trip_witness :
  sent (snd (async_set_fan_speed sample_literal_eval "Turbo" ∅
               {| entity := __init__ sample_item; sent := [] |}))
    = [] ++ [[("102", RStr (fan_speed_write "Turbo"))]]
  /\ fan_speed (entity (snd (async_update sample_literal_eval
                               {[ "102" := RStr "Turbo" ]}
                               {| entity := __init__ sample_item;
                                  sent := [] |})))
     = RStr "Turbo".
Proof.
  apply (vocabulary_round_trip sample_literal_eval sample_item "Turbo" ∅
           {| entity := __init__ sample_item; sent := [] |}
           {[ "102" := RStr "Turbo" ]}
           {| entity := __init__ sample_item; sent := [] |}).
  - vm_compute. tauto.
  - vm_compute. discriminate.
  - vm_compute. reflexivity.
Defined.

Lemma prefix_at_most_five (s : string) :
  (String.length (substring 0 5 s) <= 5)%nat.
Proof.
  destruct s as [| a [| b [| c [| d [| e [| f s]]]]]]; cbn; lia.
Qed.

(** X22. The six-character entries "T2262A" and "T2261A" of the X-series
    list never match, the prefix compared having five characters at most:
    the list decides as ["T2262"; "T2261"] does, and a model "T2262A..."
    gets the X-series profile through its prefix "T2262". *)
Theorem six_character_entries_never_match model :
  str_in (model_prefix model) X_SERIES
  = str_in (model_prefix model) ["T2262"; "T2261"]
  /\ (forall item rest,
        CONF_MODEL item = String.append "T2262A" rest ->
        profile (__init__ item)
        = (["Pure"; "Standard"; "Turbo"; "Max"], 2044, 16252)).
Proof.
  split.
  - pose proof (prefix_at_most_five model) as Hlen. unfold model_prefix.
    assert (Hsix : forall t, String.length t = 6%nat ->
                     String.eqb (substring 0 5 model) t = false).
    { intros t Ht. destruct (String.eqb_spec (substring 0 5 model) t) as [E |];
        [| reflexivity].
      rewrite E in Hlen. lia. }
    unfold X_SERIES, str_in. cbn [existsb].
    rewrite (Hsix "T2262A" eq_refl), (Hsix "T2261A" eq_refl).
    now rewrite !orb_false_r, ?orb_false_l.
  - intros item rest Hmodel. rewrite profile_by_prefix. cbv zeta.
    rewrite Hmodel. reflexivity.
Qed.

Lemma six_character_entries_never_match_witness :
  profile (__init__ unaddressed_item)
  = (["Pure"; "Standard"; "Turbo"; "Max"], 2044, 16252).
Proof.
  apply (proj2 (six_character_entries_never_match "T2262A")
           unaddressed_item EmptyString).
  reflexivity.
Defined.

(** ** The configuration flow *)

Lemma vacs_get_set_eq (d : Vacs) k v : vacs_get (vacs_set d k v) k = Some v.
Proof.
  induction d as [| [k' old] rest IH]; cbn [vacs_set vacs_get].
  - now rewrite String.eqb_refl.
  - destruct (String.eqb k' k) eqn:E; cbn [vacs_get]; rewrite E;
      [reflexivity | exact IH].
Qed.

Lemma vacs_get_set_ne (d : Vacs) k k' v :
  k <> k' -> vacs_get (vacs_set d k v) k' = vacs_get d k'.
Proof.
  intros Hne. induction d as [| [k0 old] rest IH]; cbn [vacs_set vacs_get].
  - apply String.eqb_neq in Hne. now rewrite Hne.
  - destruct (String.eqb k0 k) eqn:E; cbn [vacs_get].
    + apply String.eqb_eq in E as ->. apply String.eqb_neq in Hne.
      now rewrite Hne.
    + now rewrite IH.
Qed.

Lemma vacs_get_In (d : Vacs) k v : vacs_get d k = Some v -> In (k, v) d.
Proof.
  induction d as [| [k' old] rest IH]; cbn [vacs_get]; [discriminate |].
  destruct (String.eqb_spec k' k) as [-> |].
  - intros [= ->]. now left.
  - intros H. right. auto.
Qed.

Lemma vacs_get_keys (d : Vacs) k :
  is_Some (vacs_get d k) <-> In k (map fst d).
Proof.
  induction d as [| [k' old] rest IH]; cbn [vacs_get map fst In].
  - split; [intros [? [=]] | tauto].
  - destruct (String.eqb_spec k' k) as [-> |].
    + split; [now left | eauto].
    + rewrite IH. tauto.
Qed.

Lemma In_vacs_get (d : Vacs) k v :
  List.NoDup (map fst d) -> In (k, v) d -> vacs_get d k = Some v.
Proof.
  induction d as [| [k' old] rest IH]; cbn [vacs_get map fst In]; [tauto |].
  intros Hnd [[= -> ->] | Hin].
  - now rewrite String.eqb_refl.
  - apply List.NoDup_cons_iff in Hnd as [Hfresh Hnd].
    destruct (String.eqb_spec k' k) as [-> |]; [| auto].
    destruct Hfresh. apply (in_map fst) in Hin. exact Hin.
Qed.

Lemma vacs_set_keys_present (d : Vacs) k v :
  is_Some (vacs_get d k) -> map fst (vacs_set d k v) = map fst d.
Proof.
  induction d as [| [k' old] rest IH]; cbn [vacs_get vacs_set map fst].
  - intros [? [=]].
  - destruct (String.eqb k' k) eqn:E; cbn [map fst]; [reflexivity |].
    intros H. now rewrite IH.
Qed.

Lemma vacs_set_NoDup (d : Vacs) k v :
  List.NoDup (map fst d) -> List.NoDup (map fst (vacs_set d k v)).
Proof.
  induction d as [| [k' old] rest IH]; cbn [vacs_set map fst]; intros Hnd.
  - constructor; [intros [] | constructor].
  - destruct (String.eqb_spec k' k) as [-> | Hne]; cbn [map fst];
      [exact Hnd |].
    apply List.NoDup_cons_iff in Hnd as [Hfresh Hnd].
    apply List.NoDup_cons_iff. split; [| auto].
    intros Hin. apply vacs_get_keys in Hin.
    rewrite vacs_get_set_ne in Hin by congruence.
    apply Hfresh, vacs_get_keys, Hin.
Qed.

Lemma tuya_loop_flat list_homes list_devices :
  tuya_loop list_homes list_devices
  = fold_left tuya_step (tuya_listed list_homes list_devices) [].
Proof.
  unfold tuya_loop, tuya_listed. generalize (@nil (string * Settings)).
  induction list_homes as [| home rest IH]; intros acc; [reflexivity |].
  cbn [fold_left flat_map]. rewrite fold_left_app, IH. f_equal.
  generalize acc. clear.
  induction (list_devices home) as [| device devices IH]; intros acc;
    [reflexivity |].
  cbn [fold_left map]. apply IH.
Qed.

Lemma tuya_listed_In list_homes list_devices home device :
  In (home, device) (tuya_listed list_homes list_devices)
  <-> In home list_homes /\ In device (list_devices home).
Proof.
  unfold tuya_listed. rewrite in_flat_map. split.
  - intros (h & Hh & Hin). apply in_map_iff in Hin as (dv & [= <- <-] & Hd).
    auto.
  - intros [Hh Hd]. exists home. split; [exact Hh |].
    apply in_map_iff. eauto.
Qed.

Lemma tuya_fold_NoDup listed acc :
  List.NoDup (map fst acc) -> List.NoDup (map fst (fold_left tuya_step listed acc)).
Proof.
  revert acc. induction listed as [| p rest IH]; intros acc Hnd;
    [exact Hnd |].
  cbn [fold_left]. apply IH. now apply vacs_set_NoDup.
Qed.

Lemma tuya_fold_keys listed acc id :
  is_Some (vacs_get (fold_left tuya_step listed acc) id)
  <-> is_Some (vacs_get acc id)
      \/ exists p, In p listed /\ devId (snd p) = id.
Proof.
  revert acc. induction listed as [| p rest IH]; intros acc; cbn [fold_left].
  - split; [auto | intros [H | (p & [] & _)]; exact H].
  - rewrite IH. unfold tuya_step at 1.
    destruct (String.eqb_spec (devId (snd p)) id) as [E | Hne].
    + subst id. rewrite vacs_get_set_eq. split; [| eauto].
      intros _. right. exists p. split; [now left | reflexivity].
    + rewrite vacs_get_set_ne by exact Hne. split.
      * intros [H | (q & Hq & E)]; [auto |]. right. exists q.
        split; [now right | exact E].
      * intros [H | (q & [<- | Hq] & E)]; [auto | contradiction | eauto].
Qed.

Lemma eufy_step_get allvacs item id :
  vacs_get (eufy_step allvacs item) id
  = (fun d => entry_step id d item) <$> vacs_get allvacs id.
Proof.
  unfold eufy_step, entry_step.
  destruct (String.eqb (appliance item) "Cleaning"); cbn [andb];
    [| now destruct (vacs_get allvacs id)].
  destruct (String.eqb_spec (device_id item) id) as [<- | Hne].
  - destruct (vacs_get allvacs (device_id item)) eqn:E.
    + now rewrite vacs_get_set_eq.
    + now rewrite E.
  - destruct (vacs_get allvacs (device_id item));
      [rewrite vacs_get_set_ne by exact Hne |];
      now destruct (vacs_get allvacs id).
Qed.

Lemma eufy_fold_get items allvacs id :
  vacs_get (fold_left eufy_step items allvacs) id
  = (fun d => fold_left (entry_step id) items d) <$> vacs_get allvacs id.
Proof.
  revert allvacs. induction items as [| item rest IH]; intros allvacs;
    cbn [fold_left].
  - now destruct (vacs_get allvacs id).
  - rewrite IH, eufy_step_get. now destruct (vacs_get allvacs id).
Qed.

Lemma eufy_step_keys allvacs item :
  map fst (eufy_step allvacs item) = map fst allvacs.
Proof.
  unfold eufy_step. destruct (String.eqb (appliance item) "Cleaning");
    [| reflexivity].
  destruct (vacs_get allvacs (device_id item)) eqn:E; [| reflexivity].
  apply vacs_set_keys_present. rewrite E. eauto.
Qed.

Lemma eufy_fold_keys items allvacs :
  map fst (fold_left eufy_step items allvacs) = map fst allvacs.
Proof.
  revert allvacs. induction items as [| item rest IH]; intros allvacs;
    [reflexivity |].
  cbn [fold_left]. now rewrite IH, eufy_step_keys.
Qed.

Lemma eufy_details_lookup item k :
  eufy_details item !! k
  = if String.eqb k const.CONF_ID then Some (device_id item)
    else if String.eqb k const.CONF_MODEL then Some (product_code item)
    else if String.eqb k const.CONF_NAME then Some (alias_name item)
    else if String.eqb k const.CONF_DESCRIPTION then Some (device_name item)
    else if String.eqb k const.CONF_MAC then Some (wifi_mac item)
    else if String.eqb k const.CONF_IP_ADDRESS then Some EmptyString
    else None.
Proof.
  unfold eufy_details.
  repeat match goal with
         | |- context [String.eqb k ?c] =>
             destruct (String.eqb_spec k c) as [-> | ?];
             [vm_compute; reflexivity |]
         end.
  rewrite !lookup_insert_ne by congruence. apply lookup_empty.
Qed.

Lemma tuya_details_lookup home device k :
  tuya_details home device !! k
  = if String.eqb k const.CONF_ACCESS_TOKEN then Some (localKey device)
    else if String.eqb k const.CONF_LOCATION then Some home
    else None.
Proof.
  unfold tuya_details.
  repeat match goal with
         | |- context [String.eqb k ?c] =>
             destruct (String.eqb_spec k c) as [-> | ?];
             [vm_compute; reflexivity |]
         end.
  rewrite !lookup_insert_ne by congruence. apply lookup_empty.
Qed.

Lemma tuya_fold_last listed acc id :
  vacs_get (fold_left tuya_step listed acc) id
  = match find (fun p => String.eqb (devId (snd p)) id) (rev listed) with
    | Some p => Some (tuya_details (fst p) (snd p))
    | None => vacs_get acc id
    end.
Proof.
  induction listed as [| p rest IH] using rev_ind; [reflexivity |].
  rewrite fold_left_app, rev_app_distr. cbn [fold_left rev app find].
  unfold tuya_step at 1.
  destruct (String.eqb_spec (devId (snd p)) id) as [E | Hne].
  - subst id. apply vacs_get_set_eq.
  - rewrite vacs_get_set_ne by exact Hne. exact IH.
Qed.

Lemma last_listed_In list_homes list_devices id home device :
  last_listed list_homes list_devices id = Some (home, device) ->
  In home list_homes /\ In device (list_devices home) /\ devId device = id.
Proof.
  unfold last_listed. intros H. apply find_some in H as [Hin E].
  apply in_rev, tuya_listed_In in Hin. cbn [snd] in E.
  apply String.eqb_eq in E. tauto.
Qed.

Lemma last_cleaning_Some items id item :
  last_cleaning items id = Some item ->
  In item items /\ appliance item = "Cleaning" /\ device_id item = id.
Proof.
  unfold last_cleaning. intros H. apply find_some in H as [Hin E].
  apply in_rev in Hin. apply andb_prop in E as [Ha Hi].
  apply String.eqb_eq in Ha, Hi. tauto.
Qed.

Lemma last_cleaning_None items id item :
  last_cleaning items id = None ->
  In item items -> appliance item = "Cleaning" -> device_id item <> id.
Proof.
  unfold last_cleaning. intros H Hin Ha Hi.
  apply in_rev in Hin. apply (find_none _ _ H item) in Hin.
  rewrite Ha, Hi, !String.eqb_refl in Hin. discriminate.
Qed.

Lemma existsb_reversed {A : Type} (f : A -> bool) (l : list A) :
  existsb f (rev l) = existsb f l.
Proof.
  induction l as [| a l IH]; [reflexivity |].
  cbn [rev existsb]. rewrite existsb_app, IH. cbn [existsb].
  rewrite orb_false_r. apply orb_comm.
Qed.

Lemma eufy_cleaning_last items id :
  eufy_cleaning items id
  = match last_cleaning items id with Some _ => true | None => false end.
Proof.
  unfold eufy_cleaning, last_cleaning. rewrite <- existsb_reversed.
  induction (rev items) as [| item rest IH]; [reflexivity |].
  cbn [existsb find].
  now destruct (String.eqb (appliance item) "Cleaning"
                && String.eqb (device_id item) id).
Qed.

Lemma entry_fold_last items id d k :
  fold_left (entry_step id) items d !! k
  = match last_cleaning items id with
    | Some item =>
        match eufy_details item !! k with
        | Some v => Some v
        | None => d !! k
        end
    | None => d !! k
    end.
Proof.
  unfold last_cleaning.
  induction items as [| item rest IH] using rev_ind; [reflexivity |].
  rewrite fold_left_app, rev_app_distr. cbn [fold_left rev app find].
  unfold entry_step at 1.
  destruct (String.eqb (appliance item) "Cleaning"
            && String.eqb (device_id item) id); [| exact IH].
  rewrite lookup_union. destruct (eufy_details item !! k) eqn:E.
  - now destruct (fold_left (entry_step id) rest d !! k).
  - rewrite (left_id None _), IH.
    destruct (find _ (rev rest)) as [item' |]; [| reflexivity].
    rewrite eufy_details_lookup in E |- *.
    repeat (destruct (String.eqb k _); [discriminate E |]).
    reflexivity.
Qed.

Lemma get_eufy_vacuums_inr status_code res_code list_homes list_devices
    items vacs :
  get_eufy_vacuums status_code res_code list_homes list_devices items
    = inr vacs ->
  vacs = fold_left eufy_step items
           (fold_left tuya_step (tuya_listed list_homes list_devices) []).
Proof.
  unfold get_eufy_vacuums.
  destruct (negb (Z.eqb status_code 200)); [discriminate |].
  destruct (negb (Z.eqb res_code 1)); [discriminate |].
  intros [= <-]. now rewrite tuya_loop_flat.
Qed.

(** What one stored entry holds after discovery, key by key. *)
Lemma discovered_entry status_code res_code list_homes list_devices items
    vacs id d :
  get_eufy_vacuums status_code res_code list_homes list_devices items
    = inr vacs ->
  vacs_get vacs id = Some d ->
  exists home device,
    last_listed list_homes list_devices id = Some (home, device)
    /\ forall k,
         d !! k
         = match last_cleaning items id with
           | Some item =>
               match eufy_details item !! k with
               | Some v => Some v
               | None => tuya_details home device !! k
               end
           | None => tuya_details home device !! k
           end.
Proof.
  intros Hget Hd. apply get_eufy_vacuums_inr in Hget. subst vacs.
  rewrite eufy_fold_get, tuya_fold_last in Hd. unfold last_listed.
  destruct (find _ (rev (tuya_listed list_homes list_devices)))
    as [[home device] |]; [| discriminate Hd].
  cbn in Hd. injection Hd as <-. exists home, device.
  split; [reflexivity |]. intros k. apply entry_fold_last.
Qed.

Lemma discovered_NoDup status_code res_code list_homes list_devices items
    vacs :
  get_eufy_vacuums status_code res_code list_homes list_devices items
    = inr vacs ->
  List.NoDup (map fst vacs).
Proof.
  intros Hget. apply get_eufy_vacuums_inr in Hget. subst vacs.
  rewrite eufy_fold_keys. apply tuya_fold_NoDup. constructor.
Qed.

Lemma discovered_ids status_code res_code list_homes list_devices items
    vacs id :
  get_eufy_vacuums status_code res_code list_homes list_devices items
    = inr vacs ->
  In id (map fst vacs)
  <-> exists home device,
        In home list_homes /\ In device (list_devices home)
        /\ devId device = id.
Proof.
  intros Hget. apply get_eufy_vacuums_inr in Hget. subst vacs.
  rewrite eufy_fold_keys, <- vacs_get_keys, tuya_fold_keys. split.
  - intros [[? [=]] | ([home device] & Hin & E)].
    apply tuya_listed_In in Hin. exists home, device. tauto.
  - intros (home & device & Hh & Hd & E). right. exists (home, device).
    split; [now apply tuya_listed_In | exact E].
Qed.

(** X23. Discovery fails with [CannotConnect] when the log-on is not
    answered with status 200, and with [InvalidAuth] when its result code
    is not 1; otherwise it stores one entry for each device the Tuya
    session lists, whatever the device is, and none for a device only the
    Eufy list knows. *)
Theorem discovery_stores_every_tuya_device status_code res_code list_homes
    list_devices items :
  match get_eufy_vacuums status_code res_code list_homes list_devices items
  with
  | inl CannotConnect => status_code <> 200
  | inl InvalidAuth => status_code = 200 /\ res_code <> 1
  | inr vacs =>
      status_code = 200 /\ res_code = 1
      /\ List.NoDup (map fst vacs)
      /\ forall id,
           In id (map fst vacs)
           <-> exists home device,
                 In home list_homes /\ In device (list_devices home)
                 /\ devId device = id
  end.
Proof.
  destruct (get_eufy_vacuums status_code res_code list_homes list_devices
              items) as [[|] | vacs] eqn:Hget.
  - unfold get_eufy_vacuums in Hget.
    destruct (Z.eqb_spec status_code 200); [| assumption].
    cbn [negb] in Hget. now destruct (negb (Z.eqb res_code 1)).
  - unfold get_eufy_vacuums in Hget.
    destruct (Z.eqb_spec status_code 200); [| discriminate Hget].
    destruct (Z.eqb_spec res_code 1); [discriminate Hget | auto].
  - split; [| split; [| split]].
    + unfold get_eufy_vacuums in Hget.
      destruct (Z.eqb_spec status_code 200); [auto | discriminate Hget].
    + unfold get_eufy_vacuums in Hget.
      destruct (Z.eqb_spec status_code 200); [| discriminate Hget].
      destruct (Z.eqb_spec res_code 1); [auto | discriminate Hget].
    + exact (discovered_NoDup _ _ _ _ _ _ Hget).
    + intros id. exact (discovered_ids _ _ _ _ _ _ id Hget).
Qed.

(** X24. A stored entry holds the local key and the home of the device
    listed last under its id. When the Eufy list has a cleaning appliance
    of that id, it also holds the id, and the product code, alias, name and
    hardware address of the last such appliance, with an empty address,
    and nothing else; when it has none, the entry holds the two Tuya keys
    only. *)
Theorem discovery_entry_contents status_code res_code list_homes
    list_devices items vacs id d :
  get_eufy_vacuums status_code res_code list_homes list_devices items
    = inr vacs ->
  vacs_get vacs id = Some d ->
  exists home device,
    last_listed list_homes list_devices id = Some (home, device)
    /\ In home list_homes /\ In device (list_devices home)
    /\ devId device = id
    /\ d !! const.CONF_ACCESS_TOKEN = Some (localKey device)
    /\ d !! const.CONF_LOCATION = Some home
    /\ match last_cleaning items id with
       | Some item =>
           In item items /\ appliance item = "Cleaning"
           /\ device_id item = id
           /\ d !! const.CONF_ID = Some id
           /\ d !! const.CONF_MODEL = Some (product_code item)
           /\ d !! const.CONF_NAME = Some (alias_name item)
           /\ d !! const.CONF_DESCRIPTION = Some (device_name item)
           /\ d !! const.CONF_MAC = Some (wifi_mac item)
           /\ d !! const.CONF_IP_ADDRESS = Some EmptyString
           /\ forall k,
                ~ In k (const.CONF_ACCESS_TOKEN :: const.CONF_LOCATION
                          :: EUFY_KEYS) ->
                d !! k = None
       | None =>
           (forall item,
              In item items -> appliance item = "Cleaning" ->
              device_id item <> id)
           /\ forall k,
                k <> const.CONF_ACCESS_TOKEN -> k <> const.CONF_LOCATION ->
                d !! k = None
       end.
Proof.
  intros Hget Hd.
  destruct (discovered_entry _ _ _ _ _ _ _ _ Hget Hd)
    as (home & device & Hlast & Hk).
  destruct (last_listed_In _ _ _ _ _ Hlast) as (Hh & Hdev & Hid).
  exists home, device.
  split; [exact Hlast |]. split; [exact Hh |]. split; [exact Hdev |].
  split; [exact Hid |].
  destruct (last_cleaning items id) as [item |] eqn:Hitem.
  - destruct (last_cleaning_Some _ _ _ Hitem) as (Hin & Ha & Hi).
    split; [now rewrite Hk |]. split; [now rewrite Hk |].
    split; [exact Hin |]. split; [exact Ha |]. split; [exact Hi |].
    split; [rewrite Hk, <- Hi; reflexivity |].
    do 5 (split; [rewrite Hk; reflexivity |]).
    intros k Hnot. rewrite Hk, eufy_details_lookup, tuya_details_lookup.
    repeat match goal with
           | |- context [String.eqb k ?c] =>
               destruct (String.eqb_spec k c) as [-> | ?];
               [exfalso; apply Hnot; cbn; tauto |]
           end.
    reflexivity.
  - split; [now rewrite Hk |]. split; [now rewrite Hk |].
    split; [intros item; now apply last_cleaning_None |].
    intros k H1 H2. rewrite Hk, tuya_details_lookup.
    apply String.eqb_neq in H1, H2. now rewrite H1, H2.
Qed.

Lemma discovery_entry_contents_witness :
  let d : gmap string string :=
    <["id" := "vac1"]>
      (<["model" := "T2250"]>
         (<["name" := "Robo"]>
            (<["description" := "RoboVac G30"]>
               (<["mac" := "aa:bb:cc:dd:ee:ff"]>
                  (<["ip_address" := EmptyString]>
                     (<["access_token" := "key1"]>
                        (<["location" := "home1"]> ∅))))))) in
  vacs_get
    (fold_left eufy_step sample_eufy_items
       (tuya_loop sample_homes sample_devices)) "vac1" = Some d
  /\ d !! const.CONF_ACCESS_TOKEN = Some "key1"
  /\ d !! const.CONF_LOCATION = Some "home1"
  /\ d !! const.CONF_NAME = Some "Robo"
  /\ d !! const.CONF_IP_ADDRESS = Some EmptyString.
Proof.
  cbv zeta. split; [vm_compute; reflexivity |].
  destruct (discovery_entry_contents 200 1 sample_homes sample_devices
              sample_eufy_items _ "vac1"
              (<["id" := "vac1"]>
                 (<["model" := "T2250"]>
                    (<["name" := "Robo"]>
                       (<["description" := "RoboVac G30"]>
                          (<["mac" := "aa:bb:cc:dd:ee:ff"]>
                             (<["ip_address" := EmptyString]>
                                (<["access_token" := "key1"]>
                                   (<["location" := "home1"]> ∅))))))))
              eq_refl)
    as (home & device & Hlast & _ & _ & _ & Htoken & Hhome & Heufy).
  { vm_compute. reflexivity. }
  injection Hlast as <- <-.
  destruct Heufy as (_ & _ & _ & _ & _ & Hname & _ & _ & Hip & _).
  auto.
Defined.

Lemma discovered_name status_code res_code list_homes list_devices items
    vacs p :
  get_eufy_vacuums status_code res_code list_homes list_devices items
    = inr vacs ->
  In p vacs ->
  match last_cleaning items (fst p) with
  | Some item =>
      snd p !! const.CONF_NAME = Some (alias_name item)
      /\ snd p !! const.CONF_IP_ADDRESS = Some EmptyString
      /\ forall k, In k INIT_KEYS -> is_Some (snd p !! k)
  | None => snd p !! const.CONF_NAME = None
  end.
Proof.
  intros Hget Hin. destruct p as [id d]. cbn [fst snd].
  assert (Hd : vacs_get vacs id = Some d)
    by (apply In_vacs_get;
        [exact (discovered_NoDup _ _ _ _ _ _ Hget) | exact Hin]).
  destruct (discovered_entry _ _ _ _ _ _ _ _ Hget Hd)
    as (home & device & _ & Hk).
  destruct (last_cleaning items id) as [item |].
  - split; [now rewrite Hk |]. split; [now rewrite Hk |].
    intros k Hkin. rewrite Hk. cbn in Hkin.
    repeat (destruct Hkin as [<- | Hkin]; [vm_compute; eauto |]).
    destruct Hkin.
  - now rewrite Hk.
Qed.

Lemma RoboVacEntity_of_complete d :
  (forall k, In k INIT_KEYS -> is_Some (d !! k)) ->
  RoboVacEntity_of d = Raise NameError.
Proof.
  intros Hkeys. unfold RoboVacEntity_of, settings_getitem.
  repeat match goal with
         | |- context [match ?m !! ?k with _ => _ end] =>
             let H := fresh in
             destruct (Hkeys k) as [? H]; [cbn; tauto | rewrite H]
         end.
  reflexivity.
Qed.

Lemma RoboVacEntity_of_nameless d :
  d !! const.CONF_NAME = None -> RoboVacEntity_of d = Raise KeyError.
Proof.
  intros H. unfold RoboVacEntity_of, settings_getitem. now rewrite H.
Qed.

Lemma vacs_set_head (k : string) (v : gmap string string) p
    (rest : list (string * gmap string string)) :
  exists v' rest', vacs_set (p :: rest) k v = (fst p, v') :: rest'.
Proof.
  destruct p as [k' old]. cbn [vacs_set fst].
  destruct (String.eqb k' k); eauto.
Qed.

Lemma tuya_fold_head listed p (rest : list (string * gmap string string)) :
  exists v' rest',
    fold_left tuya_step listed (p :: rest) = (fst p, v') :: rest'.
Proof.
  revert p rest. induction listed as [| q more IH]; intros p rest.
  - destruct p. cbn. eauto.
  - cbn [fold_left]. unfold tuya_step at 2.
    destruct (vacs_set_head (devId (snd q)) (tuya_details (fst q) (snd q))
                p rest) as (v' & rest' & ->).
    apply (IH (fst p, v') rest').
Qed.

Lemma discovered_head status_code res_code list_homes list_devices items
    vacs :
  get_eufy_vacuums status_code res_code list_homes list_devices items
    = inr vacs ->
  match tuya_listed list_homes list_devices with
  | [] => vacs = []
  | (_, device) :: _ => exists d rest, vacs = (devId device, d) :: rest
  end.
Proof.
  intros Hget. apply get_eufy_vacuums_inr in Hget.
  pose proof (eufy_fold_keys items
                (fold_left tuya_step (tuya_listed list_homes list_devices)
                   [])) as Hkeys.
  rewrite <- Hget in Hkeys.
  destruct (tuya_listed list_homes list_devices) as [| [home device] more].
  - cbn in Hkeys. now destruct vacs.
  - cbn [fold_left] in Hkeys. unfold tuya_step at 2 in Hkeys.
    cbn [vacs_set fst snd] in Hkeys.
    destruct (tuya_fold_head more
                (devId device, tuya_details home device) [])
      as (v' & rest' & E).
    rewrite E in Hkeys. cbn [map fst] in Hkeys.
    destruct vacs as [| [k d] rest]; [discriminate Hkeys |].
    injection Hkeys as -> _. eauto.
Qed.

(** X25. Set-up after discovery hands the host no entity. It returns only
    when the Tuya session lists no device; otherwise it raises at the
    first stored entry, which is that of the first device listed:
    [KeyError] when the Eufy list has no cleaning appliance of its id,
    [NameError] when it has one, the entry then being complete and the
    constructor reaching the unbound name of line 381. *)
Theorem setup_after_discovery_raises status_code res_code list_homes
    list_devices items vacs :
  get_eufy_vacuums status_code res_code list_homes list_devices items
    = inr vacs ->
  fst (async_setup_entry vacs) = []
  /\ snd (async_setup_entry vacs)
     = match tuya_listed list_homes list_devices with
       | [] => Ok tt
       | (_, device) :: _ =>
           Raise (if eufy_cleaning items (devId device)
                  then NameError else KeyError)
       end.
Proof.
  intros Hget. pose proof (discovered_head _ _ _ _ _ _ Hget) as Hhead.
  destruct (tuya_listed list_homes list_devices) as [| [home device] more].
  - subst vacs. split; reflexivity.
  - destruct Hhead as (d & rest & ->).
    pose proof (discovered_name _ _ _ _ _ _ (devId device, d) Hget
                  (or_introl eq_refl)) as Hd.
    cbn [fst snd] in Hd. rewrite eufy_cleaning_last.
    cbn [async_setup_entry].
    destruct (last_cleaning items (devId device)) as [item |].
    + destruct Hd as (_ & _ & Hkeys).
      rewrite (RoboVacEntity_of_complete d Hkeys). split; reflexivity.
    + rewrite (RoboVacEntity_of_nameless d Hd). split; reflexivity.
Qed.

Lemma setup_after_discovery_raises_witness :
  fst (async_setup_entry
         (fold_left eufy_step sample_eufy_items
            (tuya_loop sample_homes sample_devices))) = []
  /\ snd (async_setup_entry
            (fold_left eufy_step sample_eufy_items
               (tuya_loop sample_homes sample_devices)))
     = Raise NameError.
Proof.
  exact (setup_after_discovery_raises 200 1 sample_homes sample_devices
           sample_eufy_items _ eq_refl).
Defined.

Lemma vac_names_raise (vacuums : Vacs) p :
  In p vacuums -> snd p !! "name" = None ->
  vac_names vacuums = Raise KeyError.
Proof.
  induction vacuums as [| [k d] rest IH]; [intros [] |].
  cbn [vac_names]. unfold settings_getitem. intros [<- | Hin] Hp.
  - cbn [snd] in Hp. now rewrite Hp.
  - destruct (d !! "name"); [| reflexivity].
    cbn. now rewrite (IH Hin Hp).
Qed.

Lemma vac_names_Ok (vacuums : Vacs) names :
  vac_names vacuums = Ok names ->
  forall p, In p vacuums ->
    exists name, snd p !! "name" = Some name /\ In name names.
Proof.
  revert names. induction vacuums as [| [k d] rest IH]; intros names;
    [intros _ _ [] |].
  cbn [vac_names]. unfold settings_getitem.
  destruct (d !! "name") as [name |] eqn:Hd; [| discriminate].
  cbn. destruct (vac_names rest) as [names' |]; [| discriminate].
  cbn. intros [= <-] p [<- | Hin].
  - exists name. split; [exact Hd | now left].
  - destruct (IH names' eq_refl p Hin) as (m & Hm & Hin').
    exists m. split; [exact Hm | now right].
Qed.

Lemma vac_names_total (vacuums : Vacs) :
  (forall p, In p vacuums -> is_Some (snd p !! "name")) ->
  exists names, vac_names vacuums = Ok names.
Proof.
  induction vacuums as [| [k d] rest IH]; intros Hall; [now exists [] |].
  cbn [vac_names]. unfold settings_getitem.
  destruct (Hall (k, d) (or_introl eq_refl)) as [name Hname].
  cbn [snd] in Hname. rewrite Hname. cbn.
  destruct IH as [names Hnames]; [intros p Hp; apply Hall; now right |].
  rewrite Hnames. cbn. eauto.
Qed.

Lemma set_addresses_some (vacuums : Vacs) names user_input address :
  vac_names vacuums = Ok names ->
  input_ip_address user_input = Some address ->
  set_addresses vacuums user_input
  = (Ok tt, map (with_address address user_input) vacuums).
Proof.
  intros Hnames Hip. revert names Hnames.
  induction vacuums as [| [k d] rest IH]; intros names; [reflexivity |].
  cbn [vac_names set_addresses map]. unfold settings_getitem.
  destruct (d !! "name") as [name |] eqn:Hd; [| discriminate].
  cbn [mbind result_bind].
  destruct (vac_names rest) as [names' |]; [| discriminate].
  intros _. rewrite Hip, (IH names' eq_refl).
  destruct (py_eq (RStr name) (input_vacuum user_input)) eqn:Heq;
    unfold with_address at 2, chosen; cbn [fst snd];
    now rewrite Hd, Heq.
Qed.

Lemma set_addresses_unchosen (vacuums : Vacs) names user_input :
  vac_names vacuums = Ok names ->
  (forall p, In p vacuums -> chosen user_input (snd p) = false) ->
  set_addresses vacuums user_input = (Ok tt, vacuums).
Proof.
  intros Hnames Hno. revert names Hnames.
  induction vacuums as [| [k d] rest IH]; intros names; [reflexivity |].
  cbn [vac_names set_addresses]. unfold settings_getitem.
  pose proof (Hno (k, d) (or_introl eq_refl)) as Hd. unfold chosen in Hd.
  cbn [snd] in Hd.
  destruct (d !! "name") as [name |]; [| discriminate].
  cbn [mbind result_bind]. destruct (vac_names rest) as [names' |]; [| discriminate].
  intros _. rewrite Hd, (IH (fun p Hp => Hno p (or_intror Hp)) names' eq_refl).
  reflexivity.
Qed.

Lemma set_addresses_missing (vacuums : Vacs) names user_input p :
  vac_names vacuums = Ok names ->
  input_ip_address user_input = None ->
  In p vacuums -> chosen user_input (snd p) = true ->
  set_addresses vacuums user_input = (Raise KeyError, vacuums).
Proof.
  intros Hnames Hip Hin Hp. revert names Hnames Hin.
  induction vacuums as [| [k d] rest IH]; intros names; [intros _ [] |].
  cbn [vac_names set_addresses]. unfold settings_getitem.
  destruct (d !! "name") as [name |] eqn:Hd; [| discriminate].
  cbn [mbind result_bind]. destruct (vac_names rest) as [names' |]; [| discriminate].
  intros _ Hin. rewrite Hip.
  destruct (py_eq (RStr name) (input_vacuum user_input)) eqn:Heq;
    [reflexivity |].
  destruct Hin as [<- | Hin].
  - unfold chosen in Hp. cbn [snd] in Hp. rewrite Hd in Hp. congruence.
  - now rewrite (IH names' eq_refl Hin).
Qed.

(** X27. The options step reads the name of every stored entry before it
    looks at its input: after a discovery that met a Tuya device which is
    no cleaning appliance of the Eufy list, it raises [KeyError] whatever
    is submitted, and changes nothing. *)
Theorem options_step_needs_every_name status_code res_code list_homes
    list_devices items vacs home device user_input :
  get_eufy_vacuums status_code res_code list_homes list_devices items
    = inr vacs ->
  In home list_homes -> In device (list_devices home) ->
  eufy_cleaning items (devId device) = false ->
  async_step_init vacs user_input = (Raise KeyError, vacs).
Proof.
  intros Hget Hh Hd Hc.
  assert (Hid : In (devId device) (map fst vacs))
    by (apply (discovered_ids _ _ _ _ _ _ _ Hget); eauto).
  apply in_map_iff in Hid as (p & Hfst & Hin).
  pose proof (discovered_name _ _ _ _ _ _ p Hget Hin) as Hname.
  rewrite eufy_cleaning_last, <- Hfst in Hc.
  destruct (last_cleaning items (fst p)); [discriminate Hc |].
  unfold async_step_init. now rewrite (vac_names_raise vacs p Hin Hname).
Qed.

Lemma options_step_needs_every_name_witness :
  async_step_init
    (fold_left eufy_step sample_eufy_items
       (tuya_loop sample_homes sample_devices))
    (Some {| input_vacuum := RStr "Robo";
             input_ip_address := Some "10.0.0.2" |})
  = (Raise KeyError,
     fold_left eufy_step sample_eufy_items
       (tuya_loop sample_homes sample_devices)).
Proof.
  apply (options_step_needs_every_name 200 1 sample_homes sample_devices
           sample_eufy_items _ "home1"
           {| devId := "plug"; localKey := "key2" |} _ eq_refl).
  - now left.
  - right. now left.
  - reflexivity.
Defined.

Lemma vacs_get_map_with_address (vacuums : Vacs) address user_input id :
  vacs_get (map (with_address address user_input) vacuums) id
  = (fun d => snd (with_address address user_input (id, d)))
      <$> vacs_get vacuums id.
Proof.
  induction vacuums as [| [k d] rest IH]; [reflexivity |].
  cbn [map vacs_get].
  assert (Hfst : fst (with_address address user_input (k, d)) = k)
    by (unfold with_address; now destruct (chosen user_input _)).
  destruct (with_address address user_input (k, d)) as [k' d'] eqn:E.
  cbn [fst] in Hfst. subst k'.
  destruct (String.eqb k id); [| exact IH].
  cbn. f_equal. unfold with_address in *. cbn [fst snd] in *.
  destruct (chosen user_input d); now inversion E.
Qed.

Lemma map_with_address_keys (vacuums : Vacs) address user_input :
  map fst (map (with_address address user_input) vacuums)
  = map fst vacuums.
Proof.
  rewrite map_map. apply map_ext. intros p. unfold with_address.
  now destruct (chosen user_input (snd p)).
Qed.

(** X28. With a name and an address submitted, the options step writes the
    address into every stored vacuum of that name -- into all of them when
    several share it -- and returns the result as the new options: no
    other vacuum and no other key changes, and the order stays. *)
Theorem options_step_sets_address_by_name (vacuums : Vacs) names name
    address :
  vac_names vacuums = Ok names ->
  exists vacuums',
    async_step_init vacuums
      (Some {| input_vacuum := RStr name;
               input_ip_address := Some address |})
    = (Ok (create_entry EmptyString vacuums'), vacuums')
    /\ map fst vacuums' = map fst vacuums
    /\ forall id d,
         vacs_get vacuums id = Some d ->
         exists d',
           vacs_get vacuums' id = Some d'
           /\ (forall k, k <> const.CONF_IP_ADDRESS -> d' !! k = d !! k)
           /\ d' !! const.CONF_IP_ADDRESS
              = if bool_decide (d !! const.CONF_NAME = Some name)
                then Some address
                else d !! const.CONF_IP_ADDRESS.
Proof.
  intros Hnames.
  set (input := {| input_vacuum := RStr name;
                   input_ip_address := Some address |}).
  exists (map (with_address address input) vacuums).
  split; [| split].
  - unfold async_step_init.
    now rewrite Hnames, (set_addresses_some _ names input address Hnames).
  - apply map_with_address_keys.
  - intros id d Hd. rewrite vacs_get_map_with_address, Hd. cbn [fmap option_fmap option_map].
    eexists. split; [reflexivity |].
    unfold with_address, chosen. cbn [fst snd input_vacuum input].
    change (d !! "name") with (d !! const.CONF_NAME).
    destruct (d !! const.CONF_NAME) as [m |] eqn:Hm.
    + cbn [py_eq]. destruct (String.eqb_spec m name) as [-> | Hne]; cbn [snd].
      * rewrite bool_decide_eq_true_2 by reflexivity.
        split; [| apply lookup_insert_eq].
        intros k Hk. now rewrite lookup_insert_ne by congruence.
      * rewrite bool_decide_eq_false_2 by congruence. auto.
    + rewrite bool_decide_eq_false_2 by congruence. auto.
Qed.

Lemma options_step_sets_address_by_name_witness :
  exists vacuums',
    async_step_init
      (fold_left eufy_step sample_eufy_items
         (tuya_loop sample_homes vacuums_only))
      (Some {| input_vacuum := RStr "Robo";
               input_ip_address := Some "10.0.0.2" |})
    = (Ok (create_entry EmptyString vacuums'), vacuums')
    /\ map fst vacuums'
       = map fst (fold_left eufy_step sample_eufy_items
                    (tuya_loop sample_homes vacuums_only))
    /\ forall id d,
         vacs_get (fold_left eufy_step sample_eufy_items
                     (tuya_loop sample_homes vacuums_only)) id = Some d ->
         exists d',
           vacs_get vacuums' id = Some d'
           /\ (forall k, k <> const.CONF_IP_ADDRESS -> d' !! k = d !! k)
           /\ d' !! const.CONF_IP_ADDRESS
              = if bool_decide (d !! const.CONF_NAME = Some "Robo")
                then Some "10.0.0.2"
                else d !! const.CONF_IP_ADDRESS.
Proof.
  apply (options_step_sets_address_by_name
           (fold_left eufy_step sample_eufy_items
              (tuya_loop sample_homes vacuums_only))
           ["Robo"; "Robo"] "Robo" "10.0.0.2").
  reflexivity.
Defined.

(** X29. An input that names no stored vacuum -- the [1] the form fills in
    when none is chosen, or an unknown name -- changes nothing, and an
    address submitted with it is dropped; a stored name submitted without
    an address raises [KeyError] and changes nothing either. *)
Theorem options_step_without_effect (vacuums : Vacs) names :
  vac_names vacuums = Ok names ->
  (forall v address,
     (forall name, In name names -> py_eq (RStr name) v = false) ->
     async_step_init vacuums
       (Some {| input_vacuum := v; input_ip_address := address |})
     = (Ok (create_entry EmptyString vacuums), vacuums))
  /\ (forall name,
        In name names ->
        async_step_init vacuums
          (Some {| input_vacuum := RStr name; input_ip_address := None |})
        = (Raise KeyError, vacuums)).
Proof.
  intros Hnames. split.
  - intros v address Hv. unfold async_step_init. rewrite Hnames.
    rewrite (set_addresses_unchosen vacuums names); [reflexivity | exact Hnames |].
    intros p Hp. unfold chosen. cbn [input_vacuum].
    destruct (vac_names_Ok _ _ Hnames p Hp) as (m & -> & Hm). auto.
  - intros name Hin. unfold async_step_init. rewrite Hnames.
    assert (Hp : exists p, In p vacuums /\ snd p !! "name" = Some name).
    { clear -Hnames Hin. revert names Hnames Hin.
      induction vacuums as [| [k d] rest IH]; intros names; cbn [vac_names].
      - intros [= <-] [].
      - unfold settings_getitem.
        destruct (d !! "name") as [m |] eqn:Hd; [| discriminate].
        cbn. destruct (vac_names rest) as [names' |]; [| discriminate].
        cbn. intros [= <-] [<- | Hin].
        + exists (k, d). split; [now left | exact Hd].
        + destruct (IH names' eq_refl Hin) as (p & Hp & Hn).
          exists p. split; [now right | exact Hn]. }
    destruct Hp as (p & Hp & Hn).
    rewrite (set_addresses_missing vacuums names
               {| input_vacuum := RStr name; input_ip_address := None |}
               p Hnames eq_refl Hp);
      [reflexivity |].
    unfold chosen. cbn [input_vacuum]. rewrite Hn. cbn.
    apply String.eqb_refl.
Qed.

Lemma options_step_without_effect_witness :
  async_step_init
    (fold_left eufy_step sample_eufy_items
       (tuya_loop sample_homes vacuums_only))
    (Some {| input_vacuum := RInt 1; input_ip_address := Some "10.0.0.2" |})
  = (Ok (create_entry EmptyString
           (fold_left eufy_step sample_eufy_items
              (tuya_loop sample_homes vacuums_only))),
     fold_left eufy_step sample_eufy_items
       (tuya_loop sample_homes vacuums_only)).
Proof.
  apply (proj1 (options_step_without_effect
                  (fold_left eufy_step sample_eufy_items
                     (tuya_loop sample_homes vacuums_only))
                  ["Robo"; "Robo"] eq_refl)).
  intros name _. reflexivity.
Defined.

(** X30. Discovery and the options step compose. After a discovery in
    which every Tuya device is a cleaning appliance of the Eufy list, the
    options step with a name and an address returns the new options; in
    them the entry of a device holds the submitted address when the alias
    of its appliance is the submitted name, and the empty address
    otherwise. *)
Theorem submitted_address_reaches_entries status_code res_code list_homes
    list_devices items vacs name address :
  get_eufy_vacuums status_code res_code list_homes list_devices items
    = inr vacs ->
  (forall home device,
     In home list_homes -> In device (list_devices home) ->
     eufy_cleaning items (devId device) = true) ->
  exists vacs',
    async_step_init vacs
      (Some {| input_vacuum := RStr name;
               input_ip_address := Some address |})
    = (Ok (create_entry EmptyString vacs'), vacs')
    /\ map fst vacs' = map fst vacs
    /\ forall id d',
         vacs_get vacs' id = Some d' ->
         exists item,
           last_cleaning items id = Some item
           /\ d' !! const.CONF_NAME = Some (alias_name item)
           /\ d' !! const.CONF_IP_ADDRESS
              = Some (if String.eqb (alias_name item) name
                      then address else EmptyString).
Proof.
  intros Hget Hevery.
  set (input := {| input_vacuum := RStr name;
                   input_ip_address := Some address |}).
  assert (Hstored : forall p, In p vacs ->
            exists item,
              last_cleaning items (fst p) = Some item
              /\ snd p !! const.CONF_NAME = Some (alias_name item)
              /\ snd p !! const.CONF_IP_ADDRESS = Some EmptyString).
  { intros p Hin.
    pose proof (discovered_name _ _ _ _ _ _ p Hget Hin) as H.
    assert (Hid : In (fst p) (map fst vacs)) by now apply in_map.
    apply (discovered_ids _ _ _ _ _ _ _ Hget) in Hid
      as (home & device & Hh & Hd & E).
    pose proof (Hevery home device Hh Hd) as Hc.
    rewrite E, eufy_cleaning_last in Hc.
    destruct (last_cleaning items (fst p)) as [item |];
      [| discriminate Hc].
    exists item. tauto. }
  destruct (vac_names_total vacs) as [names Hnames].
  { intros p Hin. destruct (Hstored p Hin) as (item & _ & Hn & _).
    change "name" with const.CONF_NAME. rewrite Hn. eauto. }
  exists (map (with_address address input) vacs).
  split; [| split].
  - unfold async_step_init.
    now rewrite Hnames, (set_addresses_some _ names input address Hnames).
  - apply map_with_address_keys.
  - intros id d' Hd'. rewrite vacs_get_map_with_address in Hd'.
    destruct (vacs_get vacs id) as [d |] eqn:Hd; [| discriminate Hd'].
    cbn in Hd'. injection Hd' as <-.
    destruct (Hstored (id, d) (vacs_get_In _ _ _ Hd))
      as (item & Hitem & Hn & Hip).
    cbn [fst snd] in Hitem, Hn, Hip. exists item. split; [exact Hitem |].
    unfold with_address, chosen. cbn [fst snd input_vacuum input].
    change "name" with const.CONF_NAME. rewrite Hn. cbn [py_eq].
    destruct (String.eqb (alias_name item) name); cbn [snd].
    + split; [now rewrite lookup_insert_ne by discriminate |].
      apply lookup_insert_eq.
    + auto.
Qed.

Lemma submitted_address_reaches_entries_witness :
  exists vacs',
    async_step_init
      (fold_left eufy_step sample_eufy_items
         (tuya_loop sample_homes vacuums_only))
      (Some {| input_vacuum := RStr "Robo";
               input_ip_address := Some "10.0.0.2" |})
    = (Ok (create_entry EmptyString vacs'), vacs')
    /\ map fst vacs'
       = map fst (fold_left eufy_step sample_eufy_items
                    (tuya_loop sample_homes vacuums_only))
    /\ forall id d',
         vacs_get vacs' id = Some d' ->
         exists item,
           last_cleaning sample_eufy_items id = Some item
           /\ d' !! const.CONF_NAME = Some (alias_name item)
           /\ d' !! const.CONF_IP_ADDRESS
              = Some (if String.eqb (alias_name item) "Robo"
                      then "10.0.0.2" else EmptyString).
Proof.
  apply (submitted_address_reaches_entries 200 1 sample_homes vacuums_only
           sample_eufy_items _ "Robo" "10.0.0.2" eq_refl).
  intros home device [<- | [<- | []]] [<- | []]; reflexivity.
Defined.
